(** * OpenPNM [core/_base2.py]: the key-addressed attribute store ([Base2]),
    its domain overlay ([Domain]) and the model registry ([ModelMixin2]).

    The Python classes are embedded shallowly:
    - a store is an insertion-ordered dictionary (an association list, since
      [_count] depends on the iteration order) from string keys to numpy
      arrays, together with the object's name;
    - numpy arrays carry a shape and row-major data; the dtypes covered are
      [bool] and [float64]; a float is NaN or a finite value, the finite
      values being treated as exact rationals (rounding plays no part in the
      code under study: it only multiplies by one and by NaN);
    - methods run in a state-and-exception monad over the object: a call
      returns or raises, and what it wrote before raising stays written;
    - [self[...]] is dynamically dispatched, so the methods of [Base2] take
      the dispatched accessors as parameters and the knot is tied per class
      with a recursion budget (Python's recursion limit);
    - a model is a pure function of the target's data; every call of a model
      is recorded in the object, so that what a run executes can be stated;
    - the index arguments of [to_mask] and [to_indices] are one-dimensional
      arrays of integers or of booleans. *)

From Stdlib Require Import String Ascii List Bool Arith PeanoNat ZArith QArith Lia Sorted.
Import ListNotations.

Set Implicit Arguments.
Set Warnings "-register-all".
Local Open Scope string_scope.
Local Open Scope nat_scope.

(* ------------------------------------------------------------------ *)
(** ** Python strings *)

Module Str.

(** [c in s] for a one-character [c]. *)
Fixpoint contains (c : ascii) (s : string) : bool :=
  match s with
  | EmptyString => false
  | String a r => if Ascii.eqb a c then true else contains c r
  end.

(** [s.split(sep)] for a one-character separator: never the empty list. *)
Fixpoint split (sep : ascii) (s : string) : list string :=
  match s with
  | EmptyString => [EmptyString]
  | String a r =>
      if Ascii.eqb a sep then EmptyString :: split sep r
      else match split sep r with
           | h :: t => String a h :: t
           | [] => [String a EmptyString]
           end
  end.

(** [s.split(sep, 1)]: at most one cut, at the first separator. *)
Fixpoint split1 (sep : ascii) (s : string) : list string :=
  match s with
  | EmptyString => [EmptyString]
  | String a r =>
      if Ascii.eqb a sep then [EmptyString; r]
      else match split1 sep r with
           | h :: t => String a h :: t
           | [] => [String a EmptyString]
           end
  end.

(** [k.startswith(p)]. *)
Definition startswith (k p : string) : bool := String.prefix p k.

(** [l[-1]] and [l[i]] on the result of a split (total there). *)
Definition last_item (l : list string) : string := List.last l EmptyString.
Definition item (i : nat) (l : list string) : option string := nth_error l i.

(** [x in l] for a list of strings. *)
Definition mem (x : string) (l : list string) : bool :=
  existsb (String.eqb x) l.

End Str.

Definition dot : ascii := "."%char.
Definition at_sign : ascii := "@"%char.

(* ------------------------------------------------------------------ *)
(** ** Insertion-ordered dictionaries *)

Module Dict.
Section Dict.
Variable V : Type.

Definition t := list (string * V).

(** [d[k]] / [d.get(k)]. *)
Fixpoint lookup (k : string) (d : t) : option V :=
  match d with
  | [] => None
  | (k', v) :: r => if String.eqb k k' then Some v else lookup k r
  end.

(** [d.update({k: v})]: an existing key keeps its position, a new key goes
    last. *)
Fixpoint update (k : string) (v : V) (d : t) : t :=
  match d with
  | [] => [(k, v)]
  | (k', v') :: r =>
      if String.eqb k k' then (k', v) :: r else (k', v') :: update k v r
  end.

(** [del d[k]] when [k] is present. *)
Fixpoint remove (k : string) (d : t) : t :=
  match d with
  | [] => []
  | (k', v') :: r =>
      if String.eqb k k' then r else (k', v') :: remove k r
  end.

Definition keys (d : t) : list string := map fst d.

End Dict.
End Dict.

(* ------------------------------------------------------------------ *)
(** ** Python exceptions *)

Inductive exn : Type :=
| ValueError (msg : string)
| IndexError
| TypeError
| AttributeError
| RecursionError
| KeyError (key : string)
| Exception (msg : string).

(** The messages the code under study can raise or provoke. *)
Definition msg_unpack : string := "not enough values to unpack (expected 2, got 1)".
Definition msg_prefix : string := "All keys must start with either pore, or throat".
Definition msg_length (key : string) : string :=
  "Provided array is wrong length for " ++ key.
Definition msg_broadcast : string := "operands could not be broadcast together".
Definition msg_assign : string := "cannot assign input values to the masked output values".

(** The result of a pure library call that may raise. *)
Inductive outcome (A : Type) : Type :=
| Val (a : A)
| Err (e : exn).
Arguments Val {A} a.
Arguments Err {A} e.

(* ------------------------------------------------------------------ *)
(** ** numpy arrays *)

Module np.

(** A float64: NaN or a finite value. *)
Inductive flt : Type :=
| NaN
| Fin (q : Q).

Definition fmul (x y : flt) : flt :=
  match x, y with
  | Fin a, Fin b => Fin (Qmult a b)
  | _, _ => NaN
  end.

(** Casts between the two dtypes: [True] is [1.0]; every non-zero float,
    NaN included, is [True]. *)
Definition of_bool (b : bool) : flt := Fin (if b then 1%Q else 0%Q).
Definition to_bool (x : flt) : bool :=
  match x with
  | NaN => true
  | Fin q => negb (Z.eqb (Qnum q) 0)
  end.

(** Shape and row-major data; [shape = []] is a 0-d array. *)
Record arr (A : Type) : Type := mk_arr { shape : list nat; data : list A }.
Arguments mk_arr {A} shape data.

Inductive ndarray : Type :=
| ABool (a : arr bool)
| AFloat (a : arr flt).

Definition shape_of (v : ndarray) : list nat :=
  match v with ABool a => shape a | AFloat a => shape a end.

(** [v.dtype == bool]. *)
Definition is_bool (v : ndarray) : bool :=
  match v with ABool _ => true | AFloat _ => false end.

Definition size_of (v : ndarray) : nat :=
  match v with ABool a => length (data a) | AFloat a => length (data a) end.

Definition prod (s : list nat) : nat := fold_right Nat.mul 1 s.

(** An array is well formed when it has as many entries as its shape says. *)
Definition wf (v : ndarray) : Prop := size_of v = prod (shape_of v).

(** [v.shape[0]]: an IndexError on a 0-d array. *)
Definition shape0 (v : ndarray) : outcome nat :=
  match shape_of v with
  | n :: _ => Val n
  | [] => Err IndexError
  end.

(** [v.shape[1:]]. *)
Definition trailing (v : ndarray) : list nat := tl (shape_of v).

(** [np.zeros(s, dtype=bool)], [np.ones(s, dtype=bool)], [np.ones(s)]. *)
Definition zeros_bool (s : list nat) : ndarray :=
  ABool (mk_arr s (repeat false (prod s))).
Definition ones_bool (s : list nat) : ndarray :=
  ABool (mk_arr s (repeat true (prod s))).
Definition ones (s : list nat) : ndarray :=
  AFloat (mk_arr s (repeat (Fin 1%Q) (prod s))).

(** [v * np.nan] (and [np.nan * v]): a float array of the same shape. *)
Definition times_nan (v : ndarray) : ndarray :=
  match v with
  | ABool a => AFloat (mk_arr (shape a) (map (fun b => fmul (of_bool b) NaN) (data a)))
  | AFloat a => AFloat (mk_arr (shape a) (map (fun x => fmul x NaN) (data a)))
  end.

Section OnesTimes.
Variable A : Type.
Variable one_times : A -> A.

(** The data and shape of [np.ones((n,)) * a]: shapes [(n,)] and [shape a]
    are aligned on the last axis. *)
Definition ones_times_arr (n : nat) (a : arr A) : outcome (arr A) :=
  match rev (shape a) with
  | [] => Val (mk_arr [n] (flat_map (fun x => repeat (one_times x) n) (data a)))
  | t :: rpre =>
      if t =? n then Val (mk_arr (shape a) (map one_times (data a)))
      else if t =? 1 then
        Val (mk_arr (rev rpre ++ [n])
                    (flat_map (fun x => repeat (one_times x) n) (data a)))
      else if n =? 1 then Val (mk_arr (shape a) (map one_times (data a)))
      else Err (ValueError msg_broadcast)
  end.
End OnesTimes.

(** [np.ones((n,), dtype=v.dtype) * v]. *)
Definition ones_times (n : nat) (v : ndarray) : outcome ndarray :=
  match v with
  | ABool a =>
      match ones_times_arr (andb true) n a with
      | Val r => Val (ABool r)
      | Err e => Err e
      end
  | AFloat a =>
      match ones_times_arr (fmul (Fin 1%Q)) n a with
      | Val r => Val (AFloat r)
      | Err e => Err e
      end
  end.

(** *** Boolean-mask indexing *)

(** The entries of [l] where the mask is true. *)
Fixpoint select {X : Type} (m : list bool) (l : list X) : list X :=
  match m, l with
  | b :: m', x :: l' => if b then x :: select m' l' else select m' l'
  | _, _ => []
  end.

(** [l] with the entries where the mask is true replaced, in order, by
    those of [new]. *)
Fixpoint put {X : Type} (m : list bool) (l new : list X) : list X :=
  match m, l with
  | b :: m', x :: l' =>
      if b then
        match new with
        | y :: new' => y :: put m' l' new'
        | [] => x :: put m' l' []
        end
      else x :: put m' l' new
  | _, _ => l
  end.

Definition count_true (m : list bool) : nat := length (filter (fun b => b) m).

Section Mask.
Variable A : Type.

(** [n] consecutive chunks of [c] entries. *)
Fixpoint chunks (c n : nat) (l : list A) : list (list A) :=
  match n with
  | O => []
  | S n' => firstn c l :: chunks c n' (skipn c l)
  end.

(** A mask of shape [ms] indexes an array of shape [s] when [ms] is a
    prefix of [s]; what it selects are blocks of shape [skipn (length ms) s]. *)
Definition mask_fits (ms s : list nat) : bool :=
  if list_eq_dec Nat.eq_dec (firstn (length ms) s) ms then true else false.

Definition block (ms s : list nat) : list nat := skipn (length ms) s.

(** [a[m]] for a boolean array [m]. *)
Definition gather (a : arr A) (m : arr bool) : outcome (arr A) :=
  if mask_fits (shape m) (shape a) then
    let blk := block (shape m) (shape a) in
    Val (mk_arr (count_true (data m) :: blk)
                (concat (select (data m)
                                (chunks (prod blk) (length (data m)) (data a)))))
  else Err IndexError.

(** [np.broadcast_to]: the data of an array of shape [from] seen with shape
    [to], the two shapes having the same number of axes. *)
Fixpoint broadcast_aligned (from to : list nat) (d : list A) : option (list A) :=
  match from, to with
  | [], [] => Some d
  | f :: fs, t :: ts =>
      let parts := map (broadcast_aligned fs ts) (chunks (prod fs) f d) in
      if forallb (fun p => match p with Some _ => true | None => false end) parts
      then
        let parts' := flat_map (fun p => match p with Some x => [x] | None => [] end) parts in
        if f =? t then Some (concat parts')
        else if f =? 1 then Some (concat (concat (repeat parts' t)))
        else None
      else None
  | _, _ => None
  end.

Definition broadcast_to (from to : list nat) (d : list A) : option (list A) :=
  if length from <=? length to
  then broadcast_aligned (repeat 1 (length to - length from) ++ from) to d
  else None.

(** [a[m] = v], [v] already cast to the dtype of [a]. *)
Definition scatter (a : arr A) (m : arr bool) (vshape : list nat) (vdata : list A)
  : outcome (arr A) :=
  if mask_fits (shape m) (shape a) then
    let blk := block (shape m) (shape a) in
    let k := count_true (data m) in
    match broadcast_to vshape (k :: blk) vdata with
    | Some d =>
        Val (mk_arr (shape a)
               (concat (put (data m)
                            (chunks (prod blk) (length (data m)) (data a))
                            (chunks (prod blk) k d))))
    | None => Err (ValueError msg_assign)
    end
  else Err IndexError.
End Mask.

(** What can stand on the right of [a[m] = value]: an array, or a Python
    object numpy wraps in a 0-d object array ([None], or another object of
    which only the truth value matters here). *)
Inductive operand : Type :=
| OArr (v : ndarray)
| ONone
| OObj (truthy : bool).

(** The shape and dtype of [np.array(value)]. *)
Definition operand_shape (o : operand) : list nat :=
  match o with OArr v => shape_of v | _ => [] end.
Definition operand_is_bool (o : operand) : bool :=
  match o with OArr v => is_bool v | _ => false end.

(** The operand cast to bool: [None] is false. *)
Definition as_bool_data (o : operand) : outcome (list bool) :=
  match o with
  | OArr (ABool a) => Val (data a)
  | OArr (AFloat a) => Val (map to_bool (data a))
  | ONone => Val [false]
  | OObj t => Val [t]
  end.

(** The operand cast to float: [None] is NaN, other objects are refused. *)
Definition as_float_data (o : operand) : outcome (list flt) :=
  match o with
  | OArr (ABool a) => Val (map of_bool (data a))
  | OArr (AFloat a) => Val (data a)
  | ONone => Val [NaN]
  | OObj _ => Err TypeError
  end.

(** [vals[locs]]: only boolean arrays index here (a float array is no index). *)
Definition getmask (vals locs : ndarray) : outcome ndarray :=
  match locs with
  | AFloat _ => Err IndexError
  | ABool m =>
      match vals with
      | ABool a => match gather a m with Val r => Val (ABool r) | Err e => Err e end
      | AFloat a => match gather a m with Val r => Val (AFloat r) | Err e => Err e end
      end
  end.

(** [vals[locs] = value]: the array [vals] becomes the result. *)
Definition setmask (vals locs : ndarray) (value : operand) : outcome ndarray :=
  match locs with
  | AFloat _ => Err IndexError
  | ABool m =>
      match vals with
      | ABool a =>
          if mask_fits (shape m) (shape a) then
            match as_bool_data value with
            | Val d => match scatter a m (operand_shape value) d with
                       | Val r => Val (ABool r) | Err e => Err e end
            | Err e => Err e
            end
          else Err IndexError
      | AFloat a =>
          if mask_fits (shape m) (shape a) then
            match as_float_data value with
            | Val d => match scatter a m (operand_shape value) d with
                       | Val r => Val (AFloat r) | Err e => Err e end
            | Err e => Err e
            end
          else Err IndexError
      end
  end.

End np.

(* ------------------------------------------------------------------ *)
(** ** Python values, the object and its monad *)

(** What is assigned to a key, and what a read returns: [None], a Python
    scalar, an array, or a mapping (a nested group). *)
Inductive pyvalue : Type :=
| PyNone
| PyBool (b : bool)
| PyFloat (x : np.flt)
| PyArr (a : np.ndarray)
| PyDict (d : list (string * pyvalue)).

(** [np.array(value)]: a scalar becomes a 0-d array, [None] and mappings a
    0-d object array. *)
Definition np_array (v : pyvalue) : np.operand :=
  match v with
  | PyNone => np.ONone
  | PyBool b => np.OArr (np.ABool (np.mk_arr [] [b]))
  | PyFloat x => np.OArr (np.AFloat (np.mk_arr [] [x]))
  | PyArr a => np.OArr a
  | PyDict d => np.OObj (match d with [] => false | _ => true end)
  end.

(** A model is an opaque pure function of the target's data and name, of the
    domain it is run on (if any) and of its keyword arguments. *)
Definition callable : Type :=
  Dict.t np.ndarray -> string -> option string -> Dict.t pyvalue -> outcome pyvalue.

(** An entry of [self.models]: the keys ['model'] and ['regen_mode'], and the
    remaining keys, which are the keyword arguments. *)
Record model_spec : Type := mk_spec {
  model : callable;
  regen_mode : string;
  kwargs : Dict.t pyvalue
}.

(** The object: the dictionary itself, [settings['name']], [self.models], and
    the record of the model invocations made so far (the registry key of each
    model called, in call order). *)
Record obj : Type := mk_obj {
  items : Dict.t np.ndarray;
  name : string;
  models : Dict.t model_spec;
  calls : list string
}.

Definition set_items (d : Dict.t np.ndarray) (w : obj) : obj :=
  mk_obj d (name w) (models w) (calls w).
Definition set_models (m : Dict.t model_spec) (w : obj) : obj :=
  mk_obj (items w) (name w) m (calls w).
Definition log_call (q : string) (w : obj) : obj :=
  mk_obj (items w) (name w) (models w) (calls w ++ [q]).

(** A method call returns or raises, and leaves the object in some state
    either way. *)
Inductive result (A : Type) : Type :=
| Ok (a : A) (w : obj)
| Raise (e : exn) (w : obj).
Arguments Ok {A} a w.
Arguments Raise {A} e w.

Definition M (A : Type) : Type := obj -> result A.

Definition ret {A} (a : A) : M A := fun w => Ok a w.
Definition raise {A} (e : exn) : M A := fun w => Raise e w.
Definition bind {A B} (m : M A) (k : A -> M B) : M B :=
  fun w => match m w with
           | Ok a w' => k a w'
           | Raise e w' => Raise e w'
           end.
Definition lift {A} (o : outcome A) : M A :=
  match o with Val a => ret a | Err e => raise e end.
Definition gets {A} (f : obj -> A) : M A := fun w => Ok (f w) w.
Definition modify (f : obj -> obj) : M unit := fun w => Ok tt (f w).

(** [try: m  except KeyError: h]. *)
Definition except_KeyError {A} (m h : M A) : M A :=
  fun w => match m w with
           | Raise (KeyError _) w' => h w'
           | r => r
           end.

Declare Scope py_scope.
Delimit Scope py_scope with py.
Notation "x <- m ;; k" := (bind m (fun x => k))
  (at level 61, m at next level, right associativity) : py_scope.
Notation "m ;; k" := (bind m (fun _ => k))
  (at level 61, right associativity) : py_scope.
Local Open Scope py_scope.

(** [for x in l: body(x)]. *)
Fixpoint for_each {X} (l : list X) (body : X -> M unit) : M unit :=
  match l with
  | [] => ret tt
  | x :: r => body x ;; for_each r body
  end.

(** [element, prop = s.split('.', 1)]. *)
Definition unpack2 (l : list string) : M (string * string) :=
  match l with
  | [a; b] => ret (a, b)
  | _ => raise (ValueError msg_unpack)
  end.

(** A count used as a dimension, inside a tuple or a list of dimensions:
    [None] is no integer. *)
Definition as_dim (c : option nat) : M nat :=
  match c with
  | Some n => ret n
  | None => raise TypeError
  end.

(** A count used as the whole shape, as in [np.ones(c, dtype=bool)]: numpy
    1.x reads the shape [None] as [()] (with a DeprecationWarning since
    1.20) and makes a 0-d array. *)
Definition count_shape (c : option nat) : list nat :=
  match c with
  | Some n => [n]
  | None => []
  end.

(** [self.update({key: value})]. *)
Definition dict_update (key : string) (value : np.ndarray) : M unit :=
  modify (fun w => set_items (Dict.update key value (items w)) w).

(* ------------------------------------------------------------------ *)
(** ** class Base2(dict) *)

Module Base2.

(** [_count]: the leading length of the first stored array whose key starts
    with [element]; [None] when there is none. *)
Definition _count (element : string) : M (option nat) :=
  fun w =>
    match find (fun kv => Str.startswith (fst kv) element) (items w) with
    | Some (_, v) =>
        match np.shape0 v with
        | Val n => Ok (Some n) w
        | Err e => Raise e w
        end
    | None => Ok None w
    end.

Definition Np : M (option nat) := _count "pore".
Definition Nt : M (option nat) := _count "throat".

Section Methods.
(** [self[key]] and [self[key] = value], dispatched on the class of [self]. *)
Variable self_getitem : string -> M pyvalue.
Variable self_setitem : string -> pyvalue -> M unit.

(** The body of [__setitem__] for a value that is an array, or has been
    made one by [np.array(value, ndmin=1)]. *)
Definition write_array (key : string) (value : np.ndarray) : M unit :=
  ep <- unpack2 (Str.split1 dot key) ;;
  let element := fst ep in
  (* Enforce correct dict naming *)
  if negb (Str.mem element ["pore"; "throat"])
  then raise (Exception msg_prefix)
  else
    (* Skip checks for coords and conns *)
    if Str.mem key ["pore.coords"; "throat.conns"]
    then dict_update key value
    else
      (* Finally write data *)
      c <- _count element ;;
      match c with
      | None => dict_update key value
      | Some _ =>
          n0 <- lift (np.shape0 value) ;;
          if n0 =? 1 then
            c <- _count element ;;
            n <- as_dim c ;;
            value <- lift (np.ones_times n value) ;;
            dict_update key value
          else
            c <- _count element ;;
            if match c with Some n => n0 =? n | None => false end
            then dict_update key value
            else raise (Exception (msg_length key))
      end.

Definition __setitem__ (key : string) (value : pyvalue) : M unit :=
  match value with
  | PyNone => ret tt
  | PyDict d =>
      (* Catch dictionaries and break them up *)
      _ <- unpack2 (Str.split1 dot key) ;;
      for_each d (fun kv => self_setitem (key ++ "." ++ fst kv) (snd kv))
  | PyBool b => write_array key (np.ABool (np.mk_arr [1] [b]))
  | PyFloat x => write_array key (np.AFloat (np.mk_arr [1] [x]))
  | PyArr a => write_array key a
  end.

Definition __getitem__ (key : string) : M pyvalue :=
  _ <- unpack2 (Str.split1 dot key) ;;
  d <- gets items ;;
  match Dict.lookup key d with
  | Some v => ret (PyArr v)
  | None =>
      nm <- gets name ;;
      if match Str.item 1 (Str.split dot key) with
         | Some s => String.eqb s nm
         | None => false
         end
      then
        c <- Np ;;
        self_setitem ("pore." ++ nm) (PyArr (np.ones_bool (count_shape c))) ;;
        c <- Nt ;;
        self_setitem ("throat." ++ nm) (PyArr (np.ones_bool (count_shape c))) ;;
        self_getitem key
      else
        keys <- gets items ;;
        let vals := filter (fun kv => Str.startswith (fst kv) (key ++ ".")) keys in
        match vals with
        | _ :: _ => ret (PyDict (map (fun kv => (fst kv, PyArr (snd kv))) vals))
        | [] => raise (KeyError key)
        end
  end.

Definition __delitem__ (key : string) : M unit :=
  d <- gets items ;;
  match Dict.lookup key d with
  | Some _ => modify (fun w => set_items (Dict.remove key (items w)) w)
  | None =>
      g <- self_getitem key ;;
      match g with
      | PyDict g =>
          for_each g (fun kv =>
            modify (fun w => set_items (Dict.remove (fst kv) (items w)) w))
      | _ => raise AttributeError
      end
  end.

End Methods.
End Base2.

(* ------------------------------------------------------------------ *)
(** ** In-place masked assignment *)

(** [vals[locs] = value], where [vals] is the array object stored under
    [key]: the assignment changes that stored array in place.  The store of
    the embedding holds array values, not references, so the change is
    written under [key]: that is what the program does when the object is
    held under no other key, as it is for an array the store has just
    allocated; for an array that was in the store before, the statements
    that depend on it ask for [held_once].  A mapping has no array keys
    (TypeError), and an array is not indexed by a mapping (IndexError). *)
Definition mask_assign (key : string) (vals locs : pyvalue) (value : np.operand)
  : M np.ndarray :=
  match vals, locs with
  | PyArr a, PyArr m =>
      r <- lift (np.setmask a m value) ;;
      dict_update key r ;;
      ret r
  | PyArr _, _ => raise IndexError
  | _, _ => raise TypeError
  end.

(** [vals[locs]]. *)
Definition mask_read (vals locs : pyvalue) : M pyvalue :=
  match vals, locs with
  | PyArr a, PyArr m =>
      r <- lift (np.getmask a m) ;;
      ret (PyArr r)
  | PyArr _, _ => raise IndexError
  | _, _ => raise TypeError
  end.

(* ------------------------------------------------------------------ *)
(** ** class ModelMixin2 *)

Module ModelMixin2.

(** Modelled from the spec: [ModelsDict] (imported from [openpnm.core], not
    among the sources) is the ordered mapping from qualified names to model
    specifications; looking up a name that was never registered fails with
    the missing-key error. *)
Definition models_lookup (qname : string) : M model_spec :=
  fun w =>
    match Dict.lookup qname (models w) with
    | Some s => Ok s w
    | None => Raise (KeyError qname) w
    end.

(** [add_model(propname, model, domain, regen_mode, **kwargs)]. *)
Definition add_model (propname : string) (model : callable)
    (domain : option string) (regen_mode : string) (kwargs : Dict.t pyvalue)
  : M unit :=
  let domain :=
    match domain with
    | None => ""
    | Some d => "@" ++ Str.last_item (Str.split dot d)
    end in
  modify (fun w =>
    set_models (Dict.update (propname ++ domain)
                            (mk_spec model regen_mode kwargs) (models w)) w).

(** [model(target=self, **kwargs)] or [model(target=self, domain=..., **kwargs)]
    for the entry registered under [qname]; the call is recorded. *)
Definition invoke (qname : string) (domain : option string) : M pyvalue :=
  spec <- models_lookup qname ;;
  modify (log_call qname) ;;
  w <- gets (fun w => w) ;;
  lift (model spec (items w) (name w) domain (kwargs spec)).

(** [vals.shape[1:]] of what a model returned. *)
Definition result_trailing (vals : pyvalue) : M (list nat) :=
  match vals with
  | PyArr a => ret (np.trailing a)
  | _ => raise AttributeError
  end.

Section Methods.
Variable self_getitem : string -> M pyvalue.
Variable self_setitem : string -> pyvalue -> M unit.

(** [run_model(propname, domain)] with [domain] given (the [else] branch). *)
Definition run_model_on (propname domain : string) : M unit :=
  let domain := Str.last_item (Str.split dot domain) in
  ep <- unpack2 (Str.split1 dot (hd "" (Str.split at_sign propname))) ;;
  let element := fst ep in
  let propname := element ++ "." ++ snd ep in
  vals <- invoke (propname ++ "@" ++ domain) (Some (element ++ "." ++ domain)) ;;
  keys <- gets (fun w => Dict.keys (items w)) ;;
  (if negb (Str.mem propname keys) then
     c <- Base2.Np ;;
     tr <- result_trailing vals ;;
     n <- as_dim c ;;
     self_setitem propname (PyArr (np.times_nan (np.ones (n :: tr))))
   else ret tt) ;;
  target <- self_getitem propname ;;
  locs <- self_getitem (element ++ "." ++ domain) ;;
  _ <- mask_assign propname target locs (np_array vals) ;;
  ret tt.

(** [run_model(propname, domain=None)].  The recursive calls of the source
    pass a domain, so they run the [else] branch, [run_model_on]. *)
Definition run_model (propname : string) (domain : option string) : M unit :=
  match domain with
  | None =>
      if Str.contains at_sign propname then
        ks <- gets (fun w => Dict.keys (models w)) ;;
        for_each ks (fun item =>
          if Str.startswith item propname
          then run_model_on propname (Str.last_item (Str.split at_sign item))
          else ret tt)
      else
        _ <- unpack2 (Str.split1 dot propname) ;;
        vals <- invoke propname None ;;
        self_setitem propname vals
  | Some domain => run_model_on propname domain
  end.

Definition regenerate_models : M unit :=
  ks <- gets (fun w => Dict.keys (models w)) ;;
  for_each ks (fun item => run_model item None).

End Methods.
End ModelMixin2.

(* ------------------------------------------------------------------ *)
(** ** class Domain(..., ModelMixin2, Base2) *)

Module Domain.

(** The array a domain write allocates for a property that is not stored
    yet: [n] rows shaped like those of [value], all [False] for a boolean
    [value], all NaN otherwise. *)
Definition seed_array (n : nat) (value : np.operand) : np.ndarray :=
  let temp := np.zeros_bool (n :: tl (np.operand_shape value)) in
  if negb (np.operand_is_bool value) then np.times_nan temp else temp.

Section Methods.
Variable self_getitem : string -> M pyvalue.
Variable self_setitem : string -> pyvalue -> M unit.

(** [super().__getitem__] and [super().__setitem__]. *)
Let super_getitem := Base2.__getitem__ self_getitem self_setitem.
Let super_setitem := Base2.__setitem__ self_setitem.

(** The pieces of a key [element.prop@domain]. *)
Definition parse (key : string) : M (string * string * string) :=
  ep <- unpack2 (Str.split1 dot (hd "" (Str.split at_sign key))) ;;
  match Str.item 1 (Str.split at_sign key) with
  | Some d => ret (fst ep, snd ep, Str.last_item (Str.split dot d))
  | None => raise IndexError (* [key.split('@')[1]] of a key without [@] *)
  end.

Definition __getitem__ (key : string) : M pyvalue :=
  if Str.contains at_sign key then
    p <- parse key ;;
    let '(element, prop, domain) := p in
    locs <- super_getitem (element ++ "." ++ domain) ;;
    vals <- super_getitem (element ++ "." ++ prop) ;;
    mask_read vals locs
  else super_getitem key.

Definition __setitem__ (key : string) (value : pyvalue) : M unit :=
  if Str.contains at_sign key then
    p <- parse key ;;
    let '(element, prop, domain) := p in
    locs <- super_getitem (element ++ "." ++ domain) ;;
    except_KeyError
      (vals <- self_getitem (element ++ "." ++ prop) ;;
       vals <- mask_assign (element ++ "." ++ prop) vals locs (np_array value) ;;
       self_setitem (element ++ "." ++ prop) (PyArr vals))
      (let value := np_array value in
       c <- Base2.Np ;;
       n <- as_dim c ;;
       let temp := seed_array n value in
       super_setitem (element ++ "." ++ prop) (PyArr temp) ;;
       target <- self_getitem (element ++ "." ++ prop) ;;
       _ <- mask_assign (element ++ "." ++ prop) target locs value ;;
       ret tt)
  else super_setitem key value.

End Methods.
End Domain.

(* ------------------------------------------------------------------ *)
(** ** Dynamic dispatch *)

(** The class of [self].  A call of [self[...]] made inside a method goes to
    the class's own accessor; [fuel] bounds the depth of such nested calls,
    as Python's recursion limit does. *)
Inductive cls : Type := CBase2 | CDomain.

Fixpoint getitem (c : cls) (fuel : nat) (key : string) : M pyvalue :=
  match fuel with
  | O => raise RecursionError
  | S f =>
      match c with
      | CBase2 => Base2.__getitem__ (getitem c f) (setitem c f) key
      | CDomain => Domain.__getitem__ (getitem c f) (setitem c f) key
      end
  end
with setitem (c : cls) (fuel : nat) (key : string) (value : pyvalue) : M unit :=
  match fuel with
  | O => raise RecursionError
  | S f =>
      match c with
      | CBase2 => Base2.__setitem__ (setitem c f) key value
      | CDomain => Domain.__setitem__ (getitem c f) (setitem c f) key value
      end
  end.

Definition delitem (c : cls) (fuel : nat) (key : string) : M unit :=
  match fuel with
  | O => raise RecursionError
  | S f => Base2.__delitem__ (getitem c f) key
  end.

(** The registry methods of a [Domain] object. *)
Definition run_model (fuel : nat) (propname : string) (domain : option string) : M unit :=
  ModelMixin2.run_model (getitem CDomain fuel) (setitem CDomain fuel) propname domain.

Definition regenerate_models (fuel : nat) : M unit :=
  ModelMixin2.regenerate_models (getitem CDomain fuel) (setitem CDomain fuel).

(* ------------------------------------------------------------------ *)
(** ** The vocabulary of the specification *)

(** The error classes of the specification, as the exceptions the code
    raises: a key that cannot be split at a dot, or whose element is refused
    (AddressingError); an array of the wrong length for a key (ShapeError);
    a key that is neither stored nor a group (KeyNotFoundError). *)
Definition AddressingError (e : exn) : Prop :=
  e = ValueError msg_unpack \/ e = Exception msg_prefix.
Definition ShapeError (key : string) (e : exn) : Prop :=
  e = Exception (msg_length key).
Definition KeyNotFoundError (key : string) (e : exn) : Prop :=
  e = KeyError key.

Definition kinds : list string := ["pore"; "throat"].
Definition exempt : list string := ["pore.coords"; "throat.conns"].

(** The state a call leaves the object in, and whether it raised. *)
Definition state_of {A} (r : result A) : obj :=
  match r with Ok _ w => w | Raise _ w => w end.
Definition raised {A} (r : result A) : option exn :=
  match r with Ok _ _ => None | Raise e _ => Some e end.

(** The entries of an array, whatever its dtype. *)
Inductive scalar : Type :=
| SBool (b : bool)
| SFloat (x : np.flt).

Definition elems (v : np.ndarray) : list scalar :=
  match v with
  | np.ABool a => map SBool (np.data a)
  | np.AFloat a => map SFloat (np.data a)
  end.

(** I2: for a kind with an established count [N], every stored array of the
    kind, the exempt keys apart, has leading length [N]. *)
Definition I2 (w : obj) : Prop :=
  forall element N,
    In element kinds ->
    Base2._count element w = Ok (Some N) w ->
    forall k v,
      In (k, v) (items w) ->
      Str.startswith k element = true ->
      Str.mem k exempt = false ->
      np.shape0 v = Val N.

(** I1: every stored key has element [pore] or [throat]. *)
Definition I1 (w : obj) : Prop :=
  forall k v, In (k, v) (items w) ->
    exists element prop,
      Str.split1 dot k = [element; prop] /\ In element kinds.

(** An array-like value: a scalar or an array. *)
Definition array_like (value : pyvalue) : Prop :=
  match value with
  | PyBool _ | PyFloat _ | PyArr _ => True
  | PyNone | PyDict _ => False
  end.

(** The first stored entry whose key starts with [element]: the one [_count]
    reads the count from. *)
Definition first_of (element : string) (d : Dict.t np.ndarray) : option (string * np.ndarray) :=
  find (fun kv => Str.startswith (fst kv) element) d.

(** Values whose write is covered by the length invariant: [None], scalars,
    and arrays that are one-dimensional or whose leading length is not 1. *)
Definition plain_value (value : pyvalue) : Prop :=
  match value with
  | PyNone | PyBool _ | PyFloat _ => True
  | PyArr a => length (np.shape_of a) = 1 \/ np.shape0 a <> Val 1
  | PyDict _ => False
  end.

(** The object after the two self-labels have been written: all-true
    arrays of lengths [n] and [m] under [pore.<name>] and [throat.<name>]. *)
Definition vivified (n m : nat) (w : obj) : obj :=
  set_items
    (Dict.update ("throat." ++ name w) (np.ABool (np.mk_arr [m] (repeat true m)))
       (Dict.update ("pore." ++ name w) (np.ABool (np.mk_arr [n] (repeat true n)))
          (items w)))
    w.

(** The stored entries whose key starts with [key + "."], as a read of the
    group [key] returns them. *)
Definition group_of (key : string) (w : obj) : list (string * pyvalue) :=
  map (fun kv : string * np.ndarray => (fst kv, PyArr (snd kv)))
      (filter (fun kv : string * np.ndarray => Str.startswith (fst kv) (key ++ "."))
              (items w)).

(** The rows of an array along its first axis. *)
Definition rows (v : np.ndarray) : list (list scalar) :=
  np.chunks (np.prod (np.trailing v)) (hd 0 (np.shape_of v)) (elems v).

(** What a domain write of [v] fills a fresh array with: [False] for a
    boolean [v], NaN otherwise. *)
Definition seed_of (v : np.ndarray) : scalar :=
  if np.is_bool v then SBool false else SFloat np.NaN.

(** A computation that leaves the registry and the record of calls alone. *)
Definition registry_frame {A} (m : M A) : Prop :=
  forall w, models (state_of (m w)) = models w /\ calls (state_of (m w)) = calls w.

(** The registry key a domain run of [propname] on [domain] looks up. *)
Definition qualified (propname domain : string) : option string :=
  match Str.split1 dot (hd "" (Str.split at_sign propname)) with
  | [element; prop] =>
      Some ((element ++ "." ++ prop) ++ "@" ++ Str.last_item (Str.split dot domain))
  | _ => None
  end.

Definition executed_on (propname domain : string) : list string :=
  match qualified propname domain with
  | Some q => [q]
  | None => []
  end.

(** The models [run_model(propname, domain)] calls, in order, when nothing
    raises, for a registry with keys [ks]. *)
Definition trace_run (ks : list string) (propname : string) (domain : option string)
  : list string :=
  match domain with
  | Some d => executed_on propname d
  | None =>
      if Str.contains at_sign propname then
        flat_map (fun item => executed_on propname (Str.last_item (Str.split at_sign item)))
                 (filter (fun item => Str.startswith item propname) ks)
      else [propname]
  end.

(** The models [regenerate_models()] calls, in order, when nothing raises. *)
Definition trace_regen (ks : list string) : list string :=
  flat_map (fun item => trace_run ks item None) ks.

(** A computation that calls models, run from [w]: it leaves the registry
    alone, and the calls it adds are an initial part of [expected], all of
    it when it returns. *)
Definition calls_within {A} (m : M A) (w : obj) (expected : list string) : Prop :=
  models (state_of (m w)) = models w
  /\ exists done rest,
       calls (state_of (m w)) = (calls w ++ done)%list
       /\ expected = (done ++ rest)%list
       /\ (raised (m w) = None -> rest = []).

(** A registry as [add_model] with a domain builds it, with no qualified
    name a prefix of another: the keys are distinct, every key with an [@]
    is the key its own run looks up, and it is a prefix of no other key. *)
Definition prefix_free (ks : list string) : Prop :=
  NoDup ks
  /\ forall item, In item ks -> Str.contains at_sign item = true ->
       qualified item (Str.last_item (Str.split at_sign item)) = Some item
       /\ forall item', In item' ks -> Str.startswith item' item = true -> item' = item.

(** The qualified name [add_model] registers a model under. *)
Definition registered_name (propname : string) (domain : option string) : string :=
  propname ++ match domain with
              | None => ""
              | Some d => "@" ++ Str.last_item (Str.split dot d)
              end.


(** [v] cast to the dtype of [target], as an assignment into [target] does. *)
Definition cast_like (target v : np.ndarray) : np.ndarray :=
  match target, v with
  | np.ABool _, np.ABool a => np.ABool a
  | np.ABool _, np.AFloat a => np.ABool (np.mk_arr (np.shape a) (map np.to_bool (np.data a)))
  | np.AFloat _, np.ABool a => np.AFloat (np.mk_arr (np.shape a) (map np.of_bool (np.data a)))
  | np.AFloat _, np.AFloat a => np.AFloat a
  end.

(* ------------------------------------------------------------------ *)
(** ** Masks and indices *)

(** An index argument after [np.array(..., ndmin=1)]: a one-dimensional
    array of integers (from an integer, a non-empty list of integers or an
    integer array) or of booleans. *)
Inductive index_array : Type :=
| IdxInt (l : list Z)
| IdxBool (l : list bool).

(** [mask[k] = True] for a position [k]. *)
Fixpoint set_true (k : nat) (mask : list bool) : list bool :=
  match mask, k with
  | [], _ => []
  | _ :: t, O => true :: t
  | b :: t, S k => b :: set_true k t
  end.

(** numpy's integer indexing into an axis of length [n]: an index [i] with
    [-n <= i < n] is in bounds, a negative one counts from the end. *)
Definition in_bounds (n : nat) (i : Z) : bool :=
  ((- Z.of_nat n <=? i) && (i <? Z.of_nat n))%Z.
Definition wrap (n : nat) (i : Z) : Z :=
  if (i <? 0)%Z then (i + Z.of_nat n)%Z else i.

(** [mask[indices] = True] for a one-dimensional boolean [mask]. *)
Definition assign_true (mask : list bool) (indices : index_array) : outcome (list bool) :=
  match indices with
  | IdxInt l =>
      if forallb (in_bounds (length mask)) l
      then Val (fold_left (fun m i => set_true (Z.to_nat (wrap (length mask) i)) m) l mask)
      else Err IndexError
  | IdxBool b =>
      if length b =? length mask
      then Val (map (fun p : bool * bool => fst p || snd p) (combine b mask))
      else Err IndexError
  end.

(** [to_mask(pores, throats)]. *)
Definition to_mask (pores throats : option index_array) : M np.ndarray :=
  match pores, throats with
  | Some indices, _ =>
      c <- Base2.Np ;;
      n <- as_dim c ;;
      mask <- lift (assign_true (repeat false n) indices) ;;
      ret (np.ABool (np.mk_arr [n] mask))
  | None, Some indices =>
      c <- Base2.Nt ;;
      n <- as_dim c ;;
      mask <- lift (assign_true (repeat false n) indices) ;;
      ret (np.ABool (np.mk_arr [n] mask))
  | None, None => raise (Exception "Must specify either pores or throats")
  end.

(** [np.where(mask)[0]] for a one-dimensional boolean [mask]: the positions
    of its true entries, counted from [i]. *)
Fixpoint where_true (i : Z) (mask : list bool) : list Z :=
  match mask with
  | [] => []
  | b :: t => if b then i :: where_true (i + 1) t else where_true (i + 1) t
  end.

(** [to_indices(mask)]; [np.array(mask, dtype=bool)] makes every non-zero
    integer [True]. *)
Definition to_indices (mask : index_array) : list Z :=
  where_true 0 (match mask with
                | IdxBool b => b
                | IdxInt l => map (fun i => negb (i =? 0)%Z) l
                end).

(** [np.arange(n)]. *)
Definition arange (n : nat) : list Z := map Z.of_nat (seq 0 n).

(** The properties [Ps] and [Ts]. *)
Definition Ps : M (list Z) :=
  c <- Base2._count "pore" ;;
  n <- as_dim c ;;
  ret (arange n).
Definition Ts : M (list Z) :=
  c <- Base2._count "throat" ;;
  n <- as_dim c ;;
  ret (arange n).

(** [props(element)] for a list [element] of kinds. *)
Definition props (element : list string) : M (list string) :=
  d <- gets items ;;
  ret (map fst
         (filter (fun kv : string * np.ndarray =>
                    negb (np.is_bool (snd kv))
                    && Str.mem (hd "" (Str.split1 dot (fst kv))) element)
                 d)).

(** A key whose element is [pore] or [throat]. *)
Definition kind_key (key : string) : Prop :=
  exists element prop, Str.split1 dot key = [element; prop] /\ In element kinds.

(** A computation that keeps I1, whether it returns or raises, and whose
    result, when it returns, satisfies [Q]. *)
Definition preserves {A} (Q : A -> Prop) (m : M A) : Prop :=
  forall w, I1 w ->
    match m w with
    | Ok a w' => I1 w' /\ Q a
    | Raise _ w' => I1 w'
    end.

(** What a read that returns tells about its key: on a key without [@] (on
    a plain [Base2], on every key) the element is a kind. *)
Definition read_key (c : cls) (key : string) : Prop :=
  c = CBase2 \/ Str.contains at_sign key = false -> kind_key key.

(** The array of shape [s] all of whose entries are the scalar [value]. *)
Definition constant (s : list nat) (value : pyvalue) : pyvalue :=
  match value with
  | PyFloat x => PyArr (np.AFloat (np.mk_arr s (repeat x (np.prod s))))
  | PyBool b => PyArr (np.ABool (np.mk_arr s (repeat b (np.prod s))))
  | v => v
  end.

(* ------------------------------------------------------------------ *)
(** ** Example objects *)

Module Examples.

Definition floats (l : list Q) : np.ndarray :=
  np.AFloat (np.mk_arr [length l] (map np.Fin l)).
Definition bools (l : list bool) : np.ndarray :=
  np.ABool (np.mk_arr [length l] l).

(** Three pores, two throats, labels [left] and [right] on the pores and
    [lab] on the throats; the object is named [bob]. *)
Definition g3 : obj :=
  mk_obj [("pore.coords", np.AFloat (np.mk_arr [3; 3] (repeat (np.Fin 0%Q) 9)));
          ("throat.conns", np.AFloat (np.mk_arr [2; 2] (repeat (np.Fin 0%Q) 4)));
          ("pore.left", bools [true; false; false]);
          ("pore.right", bools [false; false; true]);
          ("throat.lab", bools [true; false])]
         "bob" [] [].

(** The 3x3 network of the module's own test: nine pores, [left] on the
    first three and [right] on the last three. *)
Definition g9 : obj :=
  mk_obj [("pore.coords", np.AFloat (np.mk_arr [9; 3] (repeat (np.Fin 0%Q) 27)));
          ("throat.conns", np.AFloat (np.mk_arr [12; 2] (repeat (np.Fin 0%Q) 24)));
          ("pore.left", bools [true; true; true; false; false; false; false; false; false]);
          ("pore.right", bools [false; false; false; false; false; false; true; true; true])]
         "bob" [] [].

(** Two rows of coordinates. *)
Definition coords2 : np.ndarray :=
  np.AFloat (np.mk_arr [2; 3] (repeat (np.Fin 0%Q) 6)).

(** [g3] with a nested group under [pore.bob.x]. *)
Definition g3_group : obj :=
  mk_obj (items g3 ++ [("pore.bob.x.y", floats [1%Q; 2%Q; 3%Q]);
                       ("pore.nested.name1", floats [10%Q; 10%Q; 10%Q]);
                       ("pore.nested.name2", floats [20%Q; 20%Q; 20%Q])])%list
         "bob" [] [].

(** An object that has pores but no throat data. *)
Definition pores_only : obj :=
  mk_obj [("pore.coords", np.AFloat (np.mk_arr [3; 3] (repeat (np.Fin 0%Q) 9)))]
         "bob" [] [].

(** One pore and two throats. *)
Definition one_pore : obj :=
  mk_obj [("pore.coords", np.AFloat (np.mk_arr [1; 3] (repeat (np.Fin 0%Q) 3)));
          ("throat.conns", np.AFloat (np.mk_arr [2; 2] (repeat (np.Fin 0%Q) 4)));
          ("throat.lab", bools [true; false])]
         "bob" [] [].

(** A model that returns one value per selected entry, here a single one. *)
Definition one_value : callable :=
  fun _ _ _ _ => Val (PyArr (floats [7%Q])).

(** [g3] with a model registered for [throat.size] on the domain [lab]. *)
Definition g3_throat_model : obj :=
  mk_obj (items g3) "bob" [("throat.size@lab", mk_spec one_value "normal" [])] [].

(** [one_pore] with the same model. *)
Definition one_pore_model : obj :=
  mk_obj (items one_pore) "bob" [("throat.size@lab", mk_spec one_value "normal" [])] [].

(** A model in the manner of [random_seed]: one value, here always [x], per
    true entry of the label of the domain it is run on. *)
Definition seed_model (x : Q) : callable :=
  fun items _ domain _ =>
    match domain with
    | Some d =>
        match Dict.lookup d items with
        | Some (np.ABool a) =>
            Val (PyArr (np.AFloat
                   (np.mk_arr [np.count_true (np.data a)]
                              (repeat (np.Fin x) (np.count_true (np.data a))))))
        | _ => Err (KeyError d)
        end
    | None => Err TypeError
    end.

(** [factor]: the values of [prop], times [f]. *)
Definition factor (prop : string) (f : Q) : callable :=
  fun items _ _ _ =>
    match Dict.lookup prop items with
    | Some (np.AFloat a) =>
        Val (PyArr (np.AFloat (np.mk_arr (np.shape a) (map (np.fmul (np.Fin f)) (np.data a)))))
    | Some (np.ABool a) =>
        Val (PyArr (np.AFloat
               (np.mk_arr (np.shape a)
                          (map (fun b => np.fmul (np.Fin f) (np.of_bool b)) (np.data a)))))
    | None => Err (KeyError prop)
    end.

(** The registry of the module's own test: a seed on [left], a seed on
    [right], then ten times the seed. *)
Definition g9_models : obj :=
  mk_obj (items g9) "bob"
         [("pore.seed@left", mk_spec (seed_model (3 # 10)) "normal" []);
          ("pore.seed@right", mk_spec (seed_model (4 # 5)) "normal" []);
          ("pore.seedx", mk_spec (factor "pore.seed" 10) "normal" [])]
         [].

(** Only domain-qualified models for [pore.seed]. *)
Definition g9_domains_only : obj :=
  mk_obj (items g9) "bob"
         [("pore.seed@left", mk_spec (seed_model (3 # 10)) "normal" []);
          ("pore.seed@right", mk_spec (seed_model (4 # 5)) "normal" [])]
         [].

(** Two labels, and two models, the name of one a prefix of the other's. *)
Definition g3_prefix : obj :=
  mk_obj (items g3 ++ [("pore.left2", bools [false; true; false])])%list "bob"
         [("pore.seed@left", mk_spec (seed_model (3 # 10)) "normal" []);
          ("pore.seed@left2", mk_spec (seed_model (4 # 5)) "normal" [])]
         [].

(** A model that returns nothing. *)
Definition no_value : callable := fun _ _ _ _ => Val PyNone.

(** [g3] with a stored [pore.seed], a seed model on [left], ten times the
    seed as a global model, and a global model that returns nothing. *)
Definition g3_seeded : obj :=
  mk_obj (items g3 ++ [("pore.seed", floats [0%Q; 0%Q; 0%Q])])%list "bob"
         [("pore.seed@left", mk_spec (seed_model (3 # 10)) "normal" []);
          ("pore.seedx", mk_spec (factor "pore.seed" 10) "normal" []);
          ("pore.blank", mk_spec no_value "normal" [])]
         [].

(** [g9] after the boolean write [g['pore.seed@right'] = [True, True, True]]:
    [pore.seed] is a boolean array, true on the last three pores. *)
Definition g9_flagged : obj :=
  mk_obj (items g9 ++ [("pore.seed",
                        bools [false; false; false; false; false; false; true; true; true])])%list
         "bob" [] [].

(** Two models, the name of the first not the name its own run looks up. *)
Definition g3_unqualified : obj :=
  mk_obj (items g3) "bob"
         [("pore.seed@x.left", mk_spec (seed_model (3 # 10)) "normal" []);
          ("pore.seed@left", mk_spec (seed_model (4 # 5)) "normal" [])]
         [].

(** [g3] with a group of throat arrays under [throat.nested]. *)
Definition g3_throat_group : obj :=
  mk_obj (items g3 ++ [("throat.nested.a", floats [1%Q; 2%Q])])%list "bob" [] [].

End Examples.

(* ------------------------------------------------------------------ *)
(** * Properties *)

Unset Implicit Arguments.

(** ** The monad *)

Lemma bind_Ok A B (m : M A) (k : A -> M B) w a w' :
  m w = Ok a w' -> bind m k w = k a w'.
Proof. intros H. unfold bind. rewrite H. reflexivity. Qed.

Lemma bind_Raise A B (m : M A) (k : A -> M B) w e w' :
  m w = Raise e w' -> bind m k w = Raise e w'.
Proof. intros H. unfold bind. rewrite H. reflexivity. Qed.

Lemma bind_inv_Ok A B (m : M A) (k : A -> M B) w b w2 :
  bind m k w = Ok b w2 -> exists a w1, m w = Ok a w1 /\ k a w1 = Ok b w2.
Proof.
  unfold bind. destruct (m w) as [a w1|e w1]; intros H.
  - exists a, w1. split; [reflexivity | exact H].
  - discriminate.
Qed.

(** Without an [@] in the key, or on a plain [Base2], a write is
    [Base2.__setitem__]. *)
Lemma setitem_plain c fuel key value :
  c = CBase2 \/ Str.contains at_sign key = false ->
  setitem c (S fuel) key value = Base2.__setitem__ (setitem c fuel) key value.
Proof.
  intros [-> | H]; [reflexivity|].
  destruct c; [reflexivity|].
  simpl. unfold Domain.__setitem__. rewrite H. reflexivity.
Qed.

Lemma getitem_plain c fuel key :
  c = CBase2 \/ Str.contains at_sign key = false ->
  getitem c (S fuel) key = Base2.__getitem__ (getitem c fuel) (setitem c fuel) key.
Proof.
  intros [-> | H]; [reflexivity|].
  destruct c; [reflexivity|].
  simpl. unfold Domain.__getitem__. rewrite H. reflexivity.
Qed.

Lemma mem_kinds element :
  In element kinds -> Str.mem element ["pore"; "throat"] = true.
Proof.
  unfold kinds. simpl. intros [<- | [<- | []]]; reflexivity.
Qed.

Ltac mred := cbv beta iota; cbn [fst snd negb lift unpack2 as_dim count_shape].
Ltac mstep :=
  mred; erewrite bind_Ok by (first [eassumption | reflexivity]); mred.

(** The write of an array whose length is neither 1 nor the count. *)
Lemma write_array_wrong_length key element prop v N n0 w :
  Str.split1 dot key = [element; prop] ->
  In element kinds ->
  Str.mem key exempt = false ->
  Base2._count element w = Ok (Some N) w ->
  np.shape0 v = Val n0 ->
  n0 <> 1 -> n0 <> N ->
  Base2.write_array key v w = Raise (Exception (msg_length key)) w.
Proof.
  intros Hs Hk Hx Hc H0 H1 HN.
  unfold Base2.write_array.
  rewrite Hs. mstep.
  rewrite (mem_kinds _ Hk). unfold exempt in Hx. rewrite Hx. mred.
  mstep. rewrite H0. mstep.
  destruct (Nat.eqb_spec n0 1) as [E|_]; [contradiction|].
  mstep.
  destruct (Nat.eqb_spec n0 N) as [E|_]; [contradiction|].
  reflexivity.
Qed.

(** C9 (shape guard).  For a kind whose count [N] is established, writing
    to a non-exempt key of that kind an array whose leading length is
    neither 1 nor [N] raises the wrong-length error for that key, and the
    object is left exactly as it was: nothing is stored. *)
Theorem shape_guard c fuel key element prop v N n0 w :
  c = CBase2 \/ Str.contains at_sign key = false ->
  Str.split1 dot key = [element; prop] ->
  In element kinds ->
  Str.mem key exempt = false ->
  Base2._count element w = Ok (Some N) w ->
  np.shape0 v = Val n0 ->
  n0 <> 1 -> n0 <> N ->
  exists e, ShapeError key e /\ setitem c (S fuel) key (PyArr v) w = Raise e w.
Proof.
  intros Hc Hs Hk Hx HN H0 H1 H2.
  exists (Exception (msg_length key)). split; [reflexivity|].
  rewrite setitem_plain by exact Hc.
  simpl. eapply write_array_wrong_length; eauto.
Qed.

Lemma shape_guard_witness :
  exists e, ShapeError "pore.diameter" e
    /\ setitem CBase2 1 "pore.diameter" (PyArr (Examples.floats [1%Q; 2%Q])) Examples.g3
       = Raise e Examples.g3.
Proof.
  apply (shape_guard CBase2 0 "pore.diameter" "pore" "diameter"
           (Examples.floats [1%Q; 2%Q]) 3 2 Examples.g3);
    try reflexivity; try (left; reflexivity); lia.
Defined.

(** ** Strings *)

Lemma prefix_app p k : String.prefix p k = true -> exists r, k = p ++ r.
Proof.
  revert k. induction p as [|a p IH]; intros k H.
  - exists k. reflexivity.
  - destruct k as [|b k]; simpl in H; [discriminate|].
    destruct (Ascii.ascii_dec a b) as [->|]; [|discriminate].
    destruct (IH _ H) as [r ->]. exists r. reflexivity.
Qed.

Lemma prefix_app_true p r : String.prefix p (p ++ r) = true.
Proof.
  induction p as [|a p IH]; simpl.
  - destruct r; reflexivity.
  - destruct (Ascii.ascii_dec a a); [exact IH | congruence].
Qed.

Lemma app_assoc_str (a b c : string) : (a ++ b) ++ c = a ++ (b ++ c).
Proof. induction a; simpl; congruence. Qed.

Lemma split1_nonempty c s : Str.split1 c s <> [].
Proof.
  destruct s as [|a s]; simpl; [discriminate|].
  destruct (Ascii.eqb a c); [discriminate|].
  destruct (Str.split1 c s); discriminate.
Qed.

(** A key without the separator is not cut. *)
Lemma split1_none c s : Str.contains c s = false -> Str.split1 c s = [s].
Proof.
  induction s as [|a s IH]; simpl; [reflexivity|].
  destruct (Ascii.eqb a c); [discriminate|].
  intros H. rewrite (IH H). reflexivity.
Qed.

Lemma split_none c s : Str.contains c s = false -> Str.split c s = [s].
Proof.
  induction s as [|a s IH]; simpl; [reflexivity|].
  destruct (Ascii.eqb a c); [discriminate|].
  intros H. rewrite (IH H). reflexivity.
Qed.

(** The two pieces of a cut key give the key back. *)
Lemma split1_join s e p : Str.split1 dot s = [e; p] -> s = e ++ "." ++ p.
Proof.
  revert e. induction s as [|a s IH]; intros e; simpl; [discriminate|].
  destruct (Ascii.eqb_spec a dot) as [->|Hne].
  - intros H. injection H as <- <-. reflexivity.
  - destruct (Str.split1 dot s) as [|h [|h2 [|]]] eqn:E; try discriminate.
    intros H. injection H as <- <-.
    simpl. f_equal. apply IH. reflexivity.
Qed.

(** Appending to a cut key leaves its element. *)
Lemma split1_app s e p r : Str.split1 dot s = [e; p] -> Str.split1 dot (s ++ r) = [e; p ++ r].
Proof.
  revert e. induction s as [|a s IH]; intros e; simpl; [discriminate|].
  destruct (Ascii.eqb a dot).
  - intros H. injection H as <- <-. reflexivity.
  - destruct (Str.split1 dot s) as [|h [|h2 [|]]] eqn:E; try discriminate.
    intros H. injection H as <- <-.
    rewrite (IH h eq_refl). reflexivity.
Qed.

(** The part before the first [@] has no more dots than the key. *)
Lemma contains_hd_split c d s :
  Str.contains d s = false -> Str.contains d (hd "" (Str.split c s)) = false.
Proof.
  induction s as [|a s IH]; simpl; [reflexivity|].
  destruct (Ascii.eqb a d) eqn:Ead; [discriminate|].
  intros H. destruct (Ascii.eqb a c); [reflexivity|].
  specialize (IH H).
  destruct (Str.split c s) as [|h t]; simpl in *.
  - rewrite Ead. reflexivity.
  - rewrite Ead. exact IH.
Qed.

Lemma mem_false_iff x l : Str.mem x l = false <-> ~ In x l.
Proof.
  unfold Str.mem. induction l as [|y l IH]; simpl.
  - split; [intros _ []|reflexivity].
  - destruct (String.eqb_spec x y) as [->|Hne]; simpl.
    + split; [discriminate|]. intros H. exfalso. apply H. left. reflexivity.
    + rewrite IH. split; [intros H [E|E]; [congruence|auto] | intros H E; apply H; right; exact E].
Qed.

(** ** Dictionaries *)

Lemma lookup_In V k (v : V) d : Dict.lookup k d = Some v -> In (k, v) d.
Proof.
  induction d as [|[k' v'] d IH]; simpl; [discriminate|].
  destruct (String.eqb_spec k k') as [->|Hne].
  - intros H. injection H as ->. left. reflexivity.
  - intros H. right. apply IH, H.
Qed.

Lemma lookup_update_same V k (v : V) d : Dict.lookup k (Dict.update k v d) = Some v.
Proof.
  induction d as [|[k' v'] d IH]; simpl.
  - rewrite String.eqb_refl. reflexivity.
  - destruct (String.eqb_spec k k') as [->|Hne]; simpl.
    + rewrite String.eqb_refl. reflexivity.
    + destruct (String.eqb_spec k k'); [contradiction|]. exact IH.
Qed.

Lemma lookup_update_other V k k' (v : V) d :
  k' <> k -> Dict.lookup k' (Dict.update k v d) = Dict.lookup k' d.
Proof.
  intros Hne. induction d as [|[k0 v0] d IH]; simpl.
  - destruct (String.eqb_spec k' k); [contradiction|reflexivity].
  - destruct (String.eqb_spec k k0) as [->|Hne0]; simpl.
    + destruct (String.eqb_spec k' k0); [contradiction|reflexivity].
    + destruct (String.eqb_spec k' k0); [reflexivity|exact IH].
Qed.

Lemma In_update V k (v : V) d k' v' :
  In (k', v') (Dict.update k v d) -> (k' = k /\ v' = v) \/ In (k', v') d.
Proof.
  induction d as [|[k0 v0] d IH]; simpl.
  - intros [H|[]]. injection H as <- <-. left. split; reflexivity.
  - destruct (String.eqb_spec k k0) as [->|Hne]; simpl.
    + intros [H|H]; [injection H as <- <-; left; split; reflexivity | right; right; exact H].
    + intros [H|H]; [right; left; exact H|].
      destruct (IH H) as [E|E]; [left; exact E | right; right; exact E].
Qed.

(** ** numpy *)

Lemma Qmult_1_l_eq (q : Q) : Qmult 1 q = q.
Proof. destruct q as [n d]. unfold Qmult. simpl. destruct n; reflexivity. Qed.

Lemma fmul_one x : np.fmul (np.Fin 1%Q) x = x.
Proof. destruct x as [|q]; simpl; [reflexivity|]. rewrite Qmult_1_l_eq. reflexivity. Qed.

(** [np.ones((n,)) * v] for a one-dimensional [v] of length one: [n] copies
    of its entry. *)
Lemma ones_times_1d n v x :
  np.shape_of v = [1] -> elems v = [x] ->
  exists v', np.ones_times n v = Val v' /\ np.shape_of v' = [n]
             /\ elems v' = repeat x n /\ np.is_bool v' = np.is_bool v.
Proof.
  intros Hs He.
  destruct v as [[sh d]|[sh d]]; simpl in Hs, He; subst sh;
    destruct d as [|y [|]]; try discriminate; injection He as <-;
    unfold np.ones_times, np.ones_times_arr; cbn [np.shape np.data rev app];
    destruct (Nat.eqb_spec 1 n) as [<-|Hn];
    cbn [map flat_map]; rewrite ?fmul_one, ?app_nil_r;
    eexists; (split; [reflexivity|]);
    cbn [np.shape_of np.shape elems np.data np.is_bool map andb repeat];
    rewrite ?map_repeat; repeat split.
Qed.

(** The broadcast where the code performs it: for a kind whose count
    [N] is established, writing to a non-exempt key a one-dimensional array
    of length one stores a one-dimensional array of length [N] whose every
    entry is the value written. *)
Theorem broadcast_fill c fuel key element prop v x N w :
  c = CBase2 \/ Str.contains at_sign key = false ->
  Str.split1 dot key = [element; prop] ->
  In element kinds ->
  Str.mem key exempt = false ->
  Base2._count element w = Ok (Some N) w ->
  np.shape_of v = [1] -> elems v = [x] ->
  exists w' v',
    setitem c (S fuel) key (PyArr v) w = Ok tt w'
    /\ Dict.lookup key (items w') = Some v'
    /\ np.shape_of v' = [N] /\ elems v' = repeat x N.
Proof.
  intros Hc Hs Hk Hx HN Hsh He.
  destruct (ones_times_1d N v x Hsh He) as (v' & Hv' & Hs' & He' & _).
  exists (set_items (Dict.update key v' (items w)) w), v'.
  split; [|split; [apply lookup_update_same | split; assumption]].
  rewrite setitem_plain by exact Hc. simpl.
  unfold Base2.write_array.
  rewrite Hs. mstep.
  rewrite (mem_kinds _ Hk). unfold exempt in Hx. rewrite Hx. mred.
  mstep. unfold np.shape0. rewrite Hsh. mstep.
  change (1 =? 1) with true. mstep. mstep. rewrite Hv'. mstep.
  reflexivity.
Qed.

Lemma broadcast_fill_witness :
  exists w' v',
    setitem CBase2 1 "pore.diameter" (PyArr (Examples.floats [5%Q])) Examples.g3 = Ok tt w'
    /\ Dict.lookup "pore.diameter" (items w') = Some v'
    /\ np.shape_of v' = [3] /\ elems v' = repeat (SFloat (np.Fin 5%Q)) 3.
Proof.
  apply (@broadcast_fill CBase2 0 "pore.diameter" "pore" "diameter"
           (Examples.floats [5%Q]) (SFloat (np.Fin 5%Q)) 3 Examples.g3);
    try reflexivity.
  - left. reflexivity.
  - left. reflexivity.
Defined.

(** C8 (broadcast): the code at the failing input.  The test for a value to
    broadcast is [value.shape[0] == 1] (commented "If value is scalar"),
    which an array of shape (1, 1) passes too: with three pores, writing it
    stores an array of shape (1, 3), whose leading length is one and not
    the count, which the length check of the other branch refuses. *)
Lemma broadcast_of_2d_array :
  Base2._count "pore" Examples.g3 = Ok (Some 3) Examples.g3
  /\ np.shape0 (np.AFloat (np.mk_arr [1; 1] [np.Fin 5%Q])) = Val 1
  /\ raised (setitem CBase2 1 "pore.diameter"
               (PyArr (np.AFloat (np.mk_arr [1; 1] [np.Fin 5%Q]))) Examples.g3) = None
  /\ Dict.lookup "pore.diameter"
       (items (state_of (setitem CBase2 1 "pore.diameter"
               (PyArr (np.AFloat (np.mk_arr [1; 1] [np.Fin 5%Q]))) Examples.g3)))
     = Some (np.AFloat (np.mk_arr [1; 3] [np.Fin 5%Q; np.Fin 5%Q; np.Fin 5%Q])).
Proof. repeat split; vm_compute; reflexivity. Qed.


(** ** Writing [None] *)

(** On a plain [Base2], and for a key without [@], [None] is ignored. *)
Lemma setitem_None c fuel key w :
  c = CBase2 \/ Str.contains at_sign key = false ->
  setitem c (S fuel) key PyNone w = Ok tt w.
Proof.
  intros Hc. rewrite setitem_plain by exact Hc. reflexivity.
Qed.

(** C3, at the failing input.  [Base2.__setitem__] returns at once on
    [None], but the [@] branch of [Domain.__setitem__] has no such guard:
    writing [None] to ["pore.seed@left"] on an object that has the label
    [pore.left] and no [pore.seed] raises nothing and creates [pore.seed],
    a full-length array of NaN. *)
Theorem domain_write_of_None_creates_array (fuel : nat) :
  raised (setitem CDomain (S (S fuel)) "pore.seed@left" PyNone Examples.g3) = None
  /\ Dict.lookup "pore.seed" (items Examples.g3) = None
  /\ Dict.lookup "pore.seed"
       (items (state_of (setitem CDomain (S (S fuel)) "pore.seed@left" PyNone Examples.g3)))
     = Some (np.AFloat (np.mk_arr [3] [np.NaN; np.NaN; np.NaN])).
Proof. repeat split; vm_compute; reflexivity. Qed.

(** ** Keys that cannot be addressed *)

Lemma unpack2_no_dot key w :
  Str.contains dot key = false ->
  unpack2 (Str.split1 dot key) w = Raise (ValueError msg_unpack) w.
Proof. intros H. rewrite (split1_none _ _ H). reflexivity. Qed.

(** Reading any key without a dot. *)
Lemma getitem_no_dot c fuel key w :
  Str.contains dot key = false ->
  getitem c (S fuel) key w = Raise (ValueError msg_unpack) w.
Proof.
  intros H. destruct c; simpl.
  - unfold Base2.__getitem__. apply bind_Raise, unpack2_no_dot, H.
  - unfold Domain.__getitem__.
    destruct (Str.contains at_sign key).
    + unfold Domain.parse. apply bind_Raise, bind_Raise, unpack2_no_dot.
      apply contains_hd_split, H.
    + unfold Base2.__getitem__. apply bind_Raise, unpack2_no_dot, H.
Qed.

(** Writing anything but [None] to a key without a dot. *)
Lemma setitem_no_dot c fuel key value w :
  Str.contains dot key = false -> value <> PyNone ->
  setitem c (S fuel) key value w = Raise (ValueError msg_unpack) w.
Proof.
  intros H Hv.
  assert (HB : forall ss, Base2.__setitem__ ss key value w = Raise (ValueError msg_unpack) w).
  { intros ss. destruct value; try contradiction; simpl;
      try (unfold Base2.write_array); apply bind_Raise, unpack2_no_dot, H. }
  destruct c; simpl; [apply HB|].
  unfold Domain.__setitem__.
  destruct (Str.contains at_sign key); [|apply HB].
  unfold Domain.parse. apply bind_Raise, bind_Raise, unpack2_no_dot.
  apply contains_hd_split, H.
Qed.


(** Writing an array to a key whose element is refused. *)
Lemma setitem_bad_element c fuel key element prop value w :
  c = CBase2 \/ Str.contains at_sign key = false ->
  Str.split1 dot key = [element; prop] ->
  ~ In element kinds ->
  array_like value ->
  setitem c (S fuel) key value w = Raise (Exception msg_prefix) w.
Proof.
  intros Hc Hs Hk Hv. rewrite setitem_plain by exact Hc.
  apply mem_false_iff in Hk. unfold kinds in Hk.
  destruct value; try contradiction; simpl;
    unfold Base2.write_array; rewrite Hs; mstep; rewrite Hk; reflexivity.
Qed.

(** In a store whose keys all have a proper element, a key with another
    element is neither stored nor the prefix of a stored key. *)
Lemma I1_lookup_none w key element prop :
  I1 w -> Str.split1 dot key = [element; prop] -> ~ In element kinds ->
  Dict.lookup key (items w) = None.
Proof.
  intros HI Hs Hk.
  destruct (Dict.lookup key (items w)) as [v|] eqn:E; [|reflexivity].
  apply lookup_In in E. destruct (HI _ _ E) as (e' & p' & Hs' & Hk').
  rewrite Hs in Hs'. injection Hs' as <- <-. contradiction.
Qed.

Lemma I1_group_empty w key element prop :
  I1 w -> Str.split1 dot key = [element; prop] -> ~ In element kinds ->
  filter (fun kv : string * np.ndarray => Str.startswith (fst kv) (key ++ ".")) (items w) = [].
Proof.
  intros HI Hs Hk.
  destruct (filter _ (items w)) as [|[k v] r] eqn:E; [reflexivity|].
  exfalso.
  assert (Hin : In (k, v) (filter (fun kv : string * np.ndarray =>
                   Str.startswith (fst kv) (key ++ ".")) (items w)))
    by (rewrite E; left; reflexivity).
  apply filter_In in Hin. destruct Hin as [Hin Hp]. simpl in Hp.
  apply prefix_app in Hp. destruct Hp as [r' ->].
  destruct (HI _ _ Hin) as (e' & p' & Hs' & Hk').
  rewrite app_assoc_str in Hs'.
  rewrite (split1_app _ _ _ _ Hs) in Hs'. injection Hs' as <- _. contradiction.
Qed.

(** Reading a key whose element is neither [pore] nor [throat]: no element
    check is made, the key is simply not found. *)
Lemma getitem_bad_element c fuel key element prop w :
  c = CBase2 \/ Str.contains at_sign key = false ->
  I1 w ->
  Str.split1 dot key = [element; prop] ->
  ~ In element kinds ->
  Str.item 1 (Str.split dot key) <> Some (name w) ->
  getitem c (S fuel) key w = Raise (KeyError key) w.
Proof.
  intros Hc HI Hs Hk Hn. rewrite getitem_plain by exact Hc.
  unfold Base2.__getitem__. rewrite Hs. mstep. unfold gets at 1. mstep.
  rewrite (I1_lookup_none _ _ _ _ HI Hs Hk).
  unfold gets at 1. mstep.
  destruct (Str.item 1 (Str.split dot key)) as [s|] eqn:E.
  - destruct (String.eqb_spec s (name w)) as [->|Hne]; [contradiction|].
    unfold gets. mstep.
    rewrite (I1_group_empty _ _ _ _ HI Hs Hk). reflexivity.
  - unfold gets. mstep.
    rewrite (I1_group_empty _ _ _ _ HI Hs Hk). reflexivity.
Qed.


(** C7 (addressing errors), as amended.  A key without a dot makes every
    read, and every write of a value other than [None], fail with the
    addressing error, on either class.  For a key with a dot whose element
    is neither [pore] nor [throat] (on a [Domain]: a key without [@]), the
    write of a scalar or an array fails with the addressing error; a read
    checks no element: in a store whose keys all have a proper element, and
    unless the key's second segment is the object's name, it fails with the
    key-not-found error.  Writing [None] raises nothing, whatever the key
    (on a [Domain]: a key without [@]). *)
Theorem addressing_errors c fuel key w :
  (Str.contains dot key = false ->
     (exists e, AddressingError e /\ getitem c (S fuel) key w = Raise e w)
     /\ (forall value, value <> PyNone ->
           exists e, AddressingError e /\ setitem c (S fuel) key value w = Raise e w))
  /\ (forall element prop,
        c = CBase2 \/ Str.contains at_sign key = false ->
        Str.split1 dot key = [element; prop] ->
        ~ In element kinds ->
        (forall value, array_like value ->
           exists e, AddressingError e /\ setitem c (S fuel) key value w = Raise e w)
        /\ (I1 w -> Str.item 1 (Str.split dot key) <> Some (name w) ->
              exists e, KeyNotFoundError key e /\ getitem c (S fuel) key w = Raise e w))
  /\ (c = CBase2 \/ Str.contains at_sign key = false ->
      setitem c (S fuel) key PyNone w = Ok tt w).
Proof.
  split; [|split; [|apply setitem_None]].
  - intros Hd. split.
    + exists (ValueError msg_unpack). split; [left; reflexivity|].
      apply getitem_no_dot, Hd.
    + intros value Hv. exists (ValueError msg_unpack). split; [left; reflexivity|].
      apply setitem_no_dot; assumption.
  - intros element prop Hc Hs Hk. split.
    + intros value Hv. exists (Exception msg_prefix). split; [right; reflexivity|].
      eapply setitem_bad_element; eassumption.
    + intros HI Hn. exists (KeyError key). split; [reflexivity|].
      eapply getitem_bad_element; eassumption.
Qed.

Lemma g3_I1 : I1 Examples.g3.
Proof.
  intros k v Hin. simpl in Hin.
  repeat (destruct Hin as [Hin|Hin];
          [injection Hin as <- <-; do 2 eexists; split;
           [reflexivity | unfold kinds; simpl; tauto] |]).
  destruct Hin.
Qed.

Lemma not_kind_foo : ~ In "foo" kinds.
Proof. unfold kinds. simpl. intros [H|[H|[]]]; discriminate. Qed.

Lemma addressing_errors_witness :
  (exists e, AddressingError e /\ getitem CDomain 1 "pore" Examples.g3 = Raise e Examples.g3)
  /\ (exists e, AddressingError e
        /\ setitem CDomain 1 "foo.bar" (PyFloat (np.Fin 1%Q)) Examples.g3 = Raise e Examples.g3)
  /\ (exists e, KeyNotFoundError "foo.bar" e
        /\ getitem CDomain 1 "foo.bar" Examples.g3 = Raise e Examples.g3)
  /\ setitem CDomain 1 "foo" PyNone Examples.g3 = Ok tt Examples.g3.
Proof.
  split; [|split; [|split]].
  - apply (proj1 (addressing_errors CDomain 0 "pore" Examples.g3)). reflexivity.
  - apply (proj1 (proj2 (addressing_errors CDomain 0 "foo.bar" Examples.g3)) "foo" "bar");
      [right; reflexivity | reflexivity | exact not_kind_foo | exact I].
  - apply (proj1 (proj2 (addressing_errors CDomain 0 "foo.bar" Examples.g3)) "foo" "bar");
      [right; reflexivity | reflexivity | exact not_kind_foo | exact g3_I1 | discriminate].
  - apply (proj2 (proj2 (addressing_errors CDomain 0 "foo" Examples.g3))).
    right. reflexivity.
Defined.

(** C7 as stated fails in three ways: reading ["foo.bar"] raises the
    key-not-found error, which is no addressing error; writing [None] to
    ["foo"], a key without a dot, raises nothing; and on a [Domain] a key
    with an [@] is resolved against its label first, so that writing to
    ["foo.bar@left"] raises the key-not-found error for ["foo.left"]. *)
Lemma addressing_counterexample :
  Str.split1 dot "foo.bar" = ["foo"; "bar"]
  /\ ~ In "foo" kinds
  /\ getitem CBase2 1 "foo.bar" Examples.g3 = Raise (KeyError "foo.bar") Examples.g3
  /\ ~ AddressingError (KeyError "foo.bar")
  /\ Str.contains dot "foo" = false
  /\ setitem CBase2 1 "foo" PyNone Examples.g3 = Ok tt Examples.g3
  /\ setitem CDomain 1 "foo.bar@left" (PyFloat (np.Fin 1%Q)) Examples.g3
     = Raise (KeyError "foo.left") Examples.g3
  /\ ~ AddressingError (KeyError "foo.left").
Proof.
  split; [reflexivity|]. split; [exact not_kind_foo|].
  split; [reflexivity|]. split; [intros [H|H]; discriminate|].
  split; [reflexivity|]. split; [reflexivity|].
  split; [reflexivity|]. intros [H|H]; discriminate.
Qed.



(** ** Counts *)


Lemma count_Some element w N :
  Base2._count element w = Ok (Some N) w <->
  exists k v, first_of element (items w) = Some (k, v) /\ np.shape0 v = Val N.
Proof.
  unfold Base2._count, first_of.
  destruct (find _ (items w)) as [[k v]|].
  - destruct (np.shape0 v) as [n|e] eqn:E; split.
    + intros H. injection H as <-. exists k, v. split; [reflexivity | exact E].
    + intros (k' & v' & H & Hn). injection H as <- <-.
      rewrite E in Hn. injection Hn as <-. reflexivity.
    + discriminate.
    + intros (k' & v' & H & Hn). injection H as <- <-. rewrite E in Hn. discriminate.
  - split; [discriminate|]. intros (k' & v' & H & _). discriminate.
Qed.

Lemma count_None element w :
  Base2._count element w = Ok None w <-> first_of element (items w) = None.
Proof.
  unfold Base2._count, first_of.
  destruct (find _ (items w)) as [[k v]|].
  - destruct (np.shape0 v); split; discriminate.
  - split; reflexivity.
Qed.

(** [_count] reads the object and leaves it as it is. *)
Lemma count_cases element w :
  (exists N, Base2._count element w = Ok (Some N) w)
  \/ Base2._count element w = Ok None w
  \/ (exists e, Base2._count element w = Raise e w).
Proof.
  unfold Base2._count.
  destruct (find _ (items w)) as [[k v]|].
  - destruct (np.shape0 v) as [n|e]; [left; exists n | right; right; exists e]; reflexivity.
  - right. left. reflexivity.
Qed.

Lemma first_of_update_other element key v d :
  Str.startswith key element = false ->
  first_of element (Dict.update key v d) = first_of element d.
Proof.
  intros H. unfold first_of.
  induction d as [|[k0 v0] d IH]; simpl.
  - rewrite H. reflexivity.
  - destruct (String.eqb_spec key k0) as [->|Hne]; simpl.
    + rewrite H. reflexivity.
    + destruct (Str.startswith k0 element); [reflexivity | exact IH].
Qed.

Lemma first_of_update_same element key v d k0 v0 n :
  first_of element d = Some (k0, v0) -> np.shape0 v0 = Val n -> np.shape0 v = Val n ->
  exists k1 v1, first_of element (Dict.update key v d) = Some (k1, v1) /\ np.shape0 v1 = Val n.
Proof.
  unfold first_of. intros Hf H0 Hv.
  induction d as [|[k' v'] d IH]; simpl in *; [discriminate|].
  destruct (String.eqb_spec key k') as [->|Hne]; simpl.
  - destruct (Str.startswith k' element).
    + exists k', v. split; [reflexivity | exact Hv].
    + exists k0, v0. split; assumption.
  - destruct (Str.startswith k' element).
    + exists k0, v0. split; assumption.
    + apply IH, Hf.
Qed.

Lemma first_of_update_new element key v d :
  first_of element d = None -> Str.startswith key element = true ->
  first_of element (Dict.update key v d) = Some (key, v).
Proof.
  unfold first_of. intros Hf Hk.
  induction d as [|[k' v'] d IH]; simpl in *.
  - rewrite Hk. reflexivity.
  - destruct (Str.startswith k' element) eqn:E; [discriminate|].
    destruct (String.eqb_spec key k') as [->|Hne]; simpl.
    + congruence.
    + rewrite E. apply IH, Hf.
Qed.

Lemma first_of_None_In element d k v :
  first_of element d = None -> In (k, v) d -> Str.startswith k element = false.
Proof.
  unfold first_of. intros Hf Hin.
  apply (find_none _ _ Hf) in Hin. exact Hin.
Qed.

(** A key of one kind does not start with the name of the other. *)
Lemma startswith_kind key element prop :
  Str.split1 dot key = [element; prop] -> In element kinds ->
  forall e, In e kinds -> Str.startswith key e = true <-> e = element.
Proof.
  intros Hs Hk e He. apply split1_join in Hs. subst key.
  unfold kinds in *. simpl in Hk, He.
  destruct Hk as [<-|[<-|[]]]; destruct He as [<-|[<-|[]]];
    split; intros H; try reflexivity; try discriminate H.
Qed.

(** ** The length invariant *)

(** Storing, under a key of kind [element], an array whose leading length
    is the established count (or any array when no count is established)
    keeps I2. *)
Lemma I2_update w key element prop v :
  I2 w ->
  Str.split1 dot key = [element; prop] -> In element kinds ->
  (forall N, Base2._count element w = Ok (Some N) w -> np.shape0 v = Val N) ->
  (Base2._count element w = Ok None w
   \/ exists N, Base2._count element w = Ok (Some N) w) ->
  I2 (set_items (Dict.update key v (items w)) w).
Proof.
  intros HI Hs Hk Hlen Hcount e N He Hc k' v' Hin Hst Hex.
  simpl in Hin. apply (proj1 (count_Some _ _ _)) in Hc. simpl in Hc.
  destruct Hc as (k1 & v1 & Hf & Hn).
  pose proof (startswith_kind _ _ _ Hs Hk e He) as Hkind.
  destruct (String.eqb_spec e element) as [->|Hne].
  - (* the kind written *)
    assert (Hkey : Str.startswith key element = true) by (apply Hkind; reflexivity).
    destruct (count_cases element w) as [[n Hcn] | [Hcn | [ex Hcn]]].
    + pose proof (Hlen _ Hcn) as Hv.
      apply (proj1 (count_Some _ _ _)) in Hcn. destruct Hcn as (k0 & v0 & Hf0 & Hn0).
      destruct (first_of_update_same element key v _ _ _ n Hf0 Hn0 Hv) as (k2 & v2 & Hf2 & Hn2).
      rewrite Hf2 in Hf. injection Hf as <- <-.
      assert (N = n) by congruence. subst N.
      apply In_update in Hin. destruct Hin as [[-> ->] | Hin]; [exact Hv|].
      apply (HI element n Hk) with (k := k'); try assumption.
      apply (proj2 (count_Some _ _ _)). exists k0, v0. split; assumption.
    + apply (proj1 (count_None _ _)) in Hcn.
      rewrite (first_of_update_new element key v _ Hcn Hkey) in Hf.
      injection Hf as <- <-.
      apply In_update in Hin. destruct Hin as [[-> ->] | Hin]; [exact Hn|].
      rewrite (first_of_None_In _ _ _ _ Hcn Hin) in Hst. discriminate.
    + destruct Hcount as [H|[n H]]; rewrite H in Hcn; discriminate.
  - (* the other kind *)
    assert (Hkey : Str.startswith key e = false).
    { destruct (Str.startswith key e) eqn:E; [|reflexivity].
      exfalso. apply Hne, Hkind. reflexivity. }
    rewrite (first_of_update_other _ _ v _ Hkey) in Hf.
    apply In_update in Hin. destruct Hin as [[-> ->] | Hin]; [congruence|].
    apply (HI e N He) with (k := k'); try assumption.
    apply (proj2 (count_Some _ _ _)). exists k1, v1. split; assumption.
Qed.

Lemma ones_times_shape_1d n v :
  np.shape_of v = [1] ->
  exists v', np.ones_times n v = Val v' /\ np.shape_of v' = [n].
Proof.
  intros Hs.
  destruct v as [[sh d]|[sh d]]; simpl in Hs; subst sh;
    unfold np.ones_times, np.ones_times_arr; cbn [np.shape np.data rev app];
    destruct (Nat.eqb_spec 1 n) as [<-|Hn];
    eexists; (split; [reflexivity|]); reflexivity.
Qed.

Lemma shape0_1d v n : np.shape_of v = [n] -> np.shape0 v = Val n.
Proof. unfold np.shape0. intros ->. reflexivity. Qed.

Lemma shape_1d v : length (np.shape_of v) = 1 -> np.shape0 v = Val 1 -> np.shape_of v = [1].
Proof.
  unfold np.shape0. destruct (np.shape_of v) as [|n [|]]; try discriminate.
  intros _ H. injection H as ->. reflexivity.
Qed.

Lemma write_array_I2 key v w :
  I2 w -> Str.mem key exempt = false ->
  length (np.shape_of v) = 1 \/ np.shape0 v <> Val 1 ->
  I2 (state_of (Base2.write_array key v w)).
Proof.
  intros HI Hx Hv. unfold Base2.write_array.
  destruct (Str.split1 dot key) as [|element [|prop [|]]] eqn:Hs;
    try (cbn [unpack2]; exact HI).
  mstep.
  destruct (Str.mem element ["pore"; "throat"]) eqn:Hm; [|exact HI].
  assert (Hk : In element kinds).
  { destruct (in_dec string_dec element kinds) as [H|H]; [exact H|].
    apply mem_false_iff in H. unfold kinds in H. congruence. }
  unfold exempt in Hx. rewrite Hx. mred.
  destruct (count_cases element w) as [[N Hc] | [Hc | [ex Hc]]].
  - mstep.
    destruct (np.shape0 v) as [n0|e0] eqn:H0; [|exact HI].
    mstep.
    destruct (Nat.eqb_spec n0 1) as [->|Hn1].
    + destruct Hv as [Hv|Hv]; [|contradiction].
      destruct (ones_times_shape_1d N v (shape_1d _ Hv H0)) as (v' & Hv' & Hs').
      mstep. mstep. rewrite Hv'. mstep.
      apply (I2_update w key element prop v' HI Hs Hk).
      * intros N' HN'. rewrite Hc in HN'. injection HN' as <-.
        apply shape0_1d, Hs'.
      * right. exists N. exact Hc.
    + mstep.
      destruct (Nat.eqb_spec n0 N) as [->|HnN]; [|exact HI].
      apply (I2_update w key element prop v HI Hs Hk).
      * intros N' HN'. rewrite Hc in HN'. injection HN' as <-. exact H0.
      * right. exists N. exact Hc.
  - mstep.
    apply (I2_update w key element prop v HI Hs Hk).
    + intros N' HN'. rewrite Hc in HN'. discriminate.
    + left. exact Hc.
  - erewrite bind_Raise by exact Hc. exact HI.
Qed.

(** C5 (length invariant), as amended.  Every write through
    [Base2.__setitem__] to a non-exempt key of [None], of a scalar, or of an
    array that is one-dimensional or whose leading length is not 1 leaves
    I2 in force, whether the write succeeds or raises. *)
Theorem length_invariant_preserved c fuel key value w :
  c = CBase2 \/ Str.contains at_sign key = false ->
  I2 w ->
  Str.mem key exempt = false ->
  plain_value value ->
  I2 (state_of (setitem c (S fuel) key value w)).
Proof.
  intros Hc HI Hx Hv. rewrite setitem_plain by exact Hc.
  destruct value as [|b|x|a|d]; simpl in Hv |- *.
  - exact HI.
  - apply write_array_I2; [exact HI | exact Hx | left; reflexivity].
  - apply write_array_I2; [exact HI | exact Hx | left; reflexivity].
  - apply write_array_I2; assumption.
  - contradiction.
Qed.

Ltac in_cases H :=
  simpl in H;
  repeat (destruct H as [H|H];
          [injection H as <- <-; try discriminate; try reflexivity|]);
  try destruct H.

Lemma g3_I2 : I2 Examples.g3.
Proof.
  intros element N He Hc k v Hin Hst Hex.
  unfold kinds in He. destruct He as [<-|[<-|[]]];
    vm_compute in Hc; injection Hc as <-; in_cases Hin.
Qed.

Lemma length_invariant_preserved_witness :
  I2 (state_of (setitem CBase2 1 "pore.diameter" (PyFloat (np.Fin 5%Q)) Examples.g3)).
Proof.
  apply (length_invariant_preserved CBase2 0 "pore.diameter" (PyFloat (np.Fin 5%Q)) Examples.g3).
  - left. reflexivity.
  - exact g3_I2.
  - reflexivity.
  - exact I.
Defined.

(** C5 as stated fails for the exempt keys, which are stored unchecked:
    on three pores, all arrays of length 3, rewriting [pore.coords] with two
    rows succeeds and makes the pore count 2, while the label [pore.left]
    keeps its length 3. *)
Lemma exempt_write_counterexample :
  I2 Examples.g3
  /\ raised (setitem CBase2 1 "pore.coords" (PyArr Examples.coords2) Examples.g3) = None
  /\ ~ I2 (state_of (setitem CBase2 1 "pore.coords" (PyArr Examples.coords2) Examples.g3)).
Proof.
  split; [exact g3_I2|]. split; [reflexivity|].
  intros HI.
  specialize (HI "pore" 2 (or_introl eq_refl) eq_refl
                 "pore.left" (Examples.bools [true; false; false])).
  assert (H : np.shape0 (Examples.bools [true; false; false]) = Val 2).
  { apply HI; [|reflexivity|reflexivity]. simpl. tauto. }
  discriminate H.
Qed.


(** ** Reading a key that is not stored *)

Lemma ones_bool_1d n : np.ones_bool [n] = np.ABool (np.mk_arr [n] (repeat true n)).
Proof. unfold np.ones_bool. simpl. rewrite Nat.mul_1_r. reflexivity. Qed.

(** Writing an all-true array of the established length. *)
Lemma write_ones key element prop n w :
  Str.split1 dot key = [element; prop] -> In element kinds ->
  Base2._count element w = Ok (Some n) w ->
  Base2.write_array key (np.ones_bool [n]) w
  = Ok tt (set_items (Dict.update key (np.ABool (np.mk_arr [n] (repeat true n))) (items w)) w).
Proof.
  intros Hs Hk Hc. rewrite ones_bool_1d.
  unfold Base2.write_array. rewrite Hs. mstep.
  rewrite (mem_kinds _ Hk). mred.
  destruct (Str.mem key ["pore.coords"; "throat.conns"]); [reflexivity|].
  mstep. cbn [np.shape0 np.shape_of np.shape]. mstep.
  destruct (Nat.eqb_spec n 1) as [->|Hn].
  - mstep. mstep. reflexivity.
  - mstep. rewrite Nat.eqb_refl. reflexivity.
Qed.

Lemma count_update_other element key v w N :
  Str.startswith key element = false ->
  Base2._count element w = Ok (Some N) w ->
  Base2._count element (set_items (Dict.update key v (items w)) w)
  = Ok (Some N) (set_items (Dict.update key v (items w)) w).
Proof.
  intros Hk Hc. apply (proj1 (count_Some _ _ _)) in Hc.
  apply (proj2 (count_Some _ _ _)). simpl.
  rewrite first_of_update_other by exact Hk. exact Hc.
Qed.

Lemma count_update_same element key v w N :
  np.shape0 v = Val N ->
  Base2._count element w = Ok (Some N) w ->
  Base2._count element (set_items (Dict.update key v (items w)) w)
  = Ok (Some N) (set_items (Dict.update key v (items w)) w).
Proof.
  intros Hv Hc. apply (proj1 (count_Some _ _ _)) in Hc.
  destruct Hc as (k0 & v0 & Hf & Hn).
  apply (proj2 (count_Some _ _ _)). simpl.
  eapply first_of_update_same; eassumption.
Qed.

Lemma contains_app c a b :
  Str.contains c (a ++ b) = Str.contains c a || Str.contains c b.
Proof.
  induction a as [|x a IH]; simpl; [reflexivity|].
  destruct (Ascii.eqb x c); [reflexivity | exact IH].
Qed.

(** One round of self-label creation: when the key's second segment is the
    object's name and both counts are established, the read writes the two
    labels and starts again on the same key. *)
Lemma getitem_vivify c f key e p n m w :
  c = CBase2 \/ (Str.contains at_sign key = false /\ Str.contains at_sign (name w) = false) ->
  Str.split1 dot key = [e; p] ->
  Dict.lookup key (items w) = None ->
  Str.item 1 (Str.split dot key) = Some (name w) ->
  Base2.Np w = Ok (Some n) w ->
  Base2.Nt w = Ok (Some m) w ->
  getitem c (S (S f)) key w = getitem c (S f) key (vivified n m w).
Proof.
  intros Hc Hs Hl Hi Hn Hm.
  assert (Hck : c = CBase2 \/ Str.contains at_sign key = false) by tauto.
  assert (Hcn : forall pre, Str.contains at_sign pre = false ->
                c = CBase2 \/ Str.contains at_sign (pre ++ name w) = false).
  { intros pre Hp. destruct Hc as [->|[_ H]]; [left; reflexivity|].
    right. rewrite contains_app, Hp, H. reflexivity. }
  rewrite (getitem_plain c (S f) key Hck).
  unfold Base2.__getitem__ at 1. rewrite Hs. mstep. unfold gets at 1. mstep.
  rewrite Hl. unfold gets at 1. mstep. rewrite Hi, String.eqb_refl.
  mstep.
  rewrite (setitem_plain c f ("pore." ++ name w) _ (Hcn "pore." eq_refl)).
  cbn [Base2.__setitem__].
  erewrite bind_Ok
    by (apply (write_ones ("pore." ++ name w) "pore" (name w) n w);
        [reflexivity | left; reflexivity | exact Hn]).
  mred.
  erewrite bind_Ok
    by (apply (count_update_other "throat" ("pore." ++ name w)); [reflexivity | exact Hm]).
  mred.
  rewrite (setitem_plain c f ("throat." ++ name w) _ (Hcn "throat." eq_refl)).
  cbn [Base2.__setitem__].
  erewrite bind_Ok
    by (apply (write_ones ("throat." ++ name w) "throat" (name w) m);
        [reflexivity | right; left; reflexivity
         | apply (count_update_other "throat" ("pore." ++ name w)); [reflexivity | exact Hm]]).
  reflexivity.
Qed.

(** A stored key is read back as it is. *)
Lemma getitem_hit c f key e p v w :
  c = CBase2 \/ Str.contains at_sign key = false ->
  Str.split1 dot key = [e; p] ->
  Dict.lookup key (items w) = Some v ->
  getitem c (S f) key w = Ok (PyArr v) w.
Proof.
  intros Hc Hs Hl. rewrite getitem_plain by exact Hc.
  unfold Base2.__getitem__. rewrite Hs. mstep. unfold gets. mstep.
  rewrite Hl. reflexivity.
Qed.

(** A key that is neither stored nor a self-label is read as a group. *)
Lemma getitem_group c f key e p w :
  c = CBase2 \/ Str.contains at_sign key = false ->
  Str.split1 dot key = [e; p] ->
  Dict.lookup key (items w) = None ->
  Str.item 1 (Str.split dot key) <> Some (name w) ->
  getitem c (S f) key w
  = match group_of key w with
    | [] => Raise (KeyError key) w
    | g => Ok (PyDict g) w
    end.
Proof.
  intros Hc Hs Hl Hi. rewrite getitem_plain by exact Hc.
  unfold Base2.__getitem__. rewrite Hs. mstep. unfold gets at 1. mstep.
  rewrite Hl. unfold gets at 1. mstep.
  assert (E : match Str.item 1 (Str.split dot key) with
              | Some s => String.eqb s (name w) | None => false end = false).
  { destruct (Str.item 1 (Str.split dot key)) as [s|]; [|reflexivity].
    destruct (String.eqb_spec s (name w)) as [->|]; [contradiction | reflexivity]. }
  rewrite E. unfold gets. mstep. unfold group_of.
  destruct (filter _ (items w)) as [|kv r]; reflexivity.
Qed.

Lemma split_pore nm : Str.contains dot nm = false ->
  Str.item 1 (Str.split dot ("pore." ++ nm)) = Some nm.
Proof. intros H. simpl. rewrite (split_none _ _ H). reflexivity. Qed.

Lemma split_throat nm : Str.contains dot nm = false ->
  Str.item 1 (Str.split dot ("throat." ++ nm)) = Some nm.
Proof. intros H. simpl. rewrite (split_none _ _ H). reflexivity. Qed.

(** C2 (reading a missing key), as amended.  For a key that has a dot and
    is not stored, read through [Base2.__getitem__] (on a [Domain]: a key
    without [@], in an object whose name has none).  When the key is
    [pore.<name>] or [throat.<name>], the name having no dot (so that the
    remainder after the first dot is the name), and both counts are
    established, the read writes the two self-labels, all-true arrays of
    lengths [Np] and [Nt], and returns the one asked for.  When the
    remainder after the first dot differs from the name, and so does the
    key's second dot-separated segment, the read returns the mapping of the
    stored keys that start with [key + "."], and fails with the
    key-not-found error when there is none. *)
Theorem read_of_missing_key c f key e p w :
  c = CBase2 \/ (Str.contains at_sign key = false /\ Str.contains at_sign (name w) = false) ->
  Str.split1 dot key = [e; p] ->
  Dict.lookup key (items w) = None ->
  (Str.contains dot (name w) = false ->
   forall n m, Base2.Np w = Ok (Some n) w -> Base2.Nt w = Ok (Some m) w ->
     (key = "pore." ++ name w ->
        getitem c (S (S f)) key w
        = Ok (PyArr (np.ABool (np.mk_arr [n] (repeat true n)))) (vivified n m w))
     /\ (key = "throat." ++ name w ->
           getitem c (S (S f)) key w
           = Ok (PyArr (np.ABool (np.mk_arr [m] (repeat true m)))) (vivified n m w)))
  /\ (p <> name w ->
      Str.item 1 (Str.split dot key) <> Some (name w) ->
        getitem c (S f) key w
        = match group_of key w with
          | [] => Raise (KeyError key) w
          | g => Ok (PyDict g) w
          end
        /\ (group_of key w = [] ->
              exists err, KeyNotFoundError key err /\ getitem c (S f) key w = Raise err w)).
Proof.
  intros Hc Hs Hl.
  assert (Hck : c = CBase2 \/ Str.contains at_sign key = false) by tauto.
  split.
  - intros Hd n m Hn Hm.
    split; intros Hkey.
    + assert (Hi : Str.item 1 (Str.split dot key) = Some (name w))
        by (rewrite Hkey; apply split_pore, Hd).
      rewrite (getitem_vivify c f key e p n m w Hc Hs Hl Hi Hn Hm).
      apply (getitem_hit c f key e p _ _ Hck Hs).
      unfold vivified. cbn [items set_items]. subst key.
      rewrite lookup_update_other by discriminate.
      apply lookup_update_same.
    + assert (Hi : Str.item 1 (Str.split dot key) = Some (name w))
        by (rewrite Hkey; apply split_throat, Hd).
      rewrite (getitem_vivify c f key e p n m w Hc Hs Hl Hi Hn Hm).
      apply (getitem_hit c f key e p _ _ Hck Hs).
      unfold vivified. cbn [items set_items]. subst key.
      apply lookup_update_same.
  - intros _ Hi.
    pose proof (getitem_group c f key e p w Hck Hs Hl Hi) as Hg.
    split; [exact Hg|].
    intros He. exists (KeyError key). split; [reflexivity|].
    rewrite Hg, He. reflexivity.
Qed.

Lemma read_of_missing_key_witness :
  getitem CDomain 2 "pore.bob" Examples.g3
  = Ok (PyArr (np.ABool (np.mk_arr [3] (repeat true 3)))) (vivified 3 2 Examples.g3)
  /\ getitem CDomain 1 "pore.nested" Examples.g3_group
     = Ok (PyDict [("pore.nested.name1", PyArr (Examples.floats [10%Q; 10%Q; 10%Q]));
                   ("pore.nested.name2", PyArr (Examples.floats [20%Q; 20%Q; 20%Q]))])
          Examples.g3_group
  /\ (exists err, KeyNotFoundError "pore.nested.fail" err
        /\ getitem CDomain 1 "pore.nested.fail" Examples.g3_group = Raise err Examples.g3_group).
Proof.
  split; [|split].
  - apply (proj1 (read_of_missing_key CDomain 0 "pore.bob" "pore" "bob" Examples.g3
                    (or_intror (conj eq_refl eq_refl)) eq_refl eq_refl)
                 eq_refl 3 2 eq_refl eq_refl).
    reflexivity.
  - apply (proj2 (read_of_missing_key CDomain 0 "pore.nested" "pore" "nested" Examples.g3_group
                    (or_intror (conj eq_refl eq_refl)) eq_refl eq_refl));
      discriminate.
  - apply (proj2 (read_of_missing_key CDomain 0 "pore.nested.fail" "pore" "nested.fail"
                    Examples.g3_group
                    (or_intror (conj eq_refl eq_refl)) eq_refl eq_refl)).
    + discriminate.
    + discriminate.
    + reflexivity.
Defined.

Lemma vivified_steps n m w :
  vivified n m w
  = set_items
      (Dict.update ("throat." ++ name w) (np.ABool (np.mk_arr [m] (repeat true m)))
         (items (set_items
                   (Dict.update ("pore." ++ name w)
                      (np.ABool (np.mk_arr [n] (repeat true n))) (items w)) w)))
      (set_items
         (Dict.update ("pore." ++ name w)
            (np.ABool (np.mk_arr [n] (repeat true n))) (items w)) w).
Proof. reflexivity. Qed.

(** The test for the self-label looks at the key's second dot-separated
    segment, not at the remainder after the first dot.  So reading
    ["pore.bob.x"] on an object named [bob] that does not store the key
    (both counts established) writes the self-labels and starts again on
    the same key for ever, whatever the recursion budget. *)
Lemma vivify_loop fuel : forall w,
  name w = "bob" ->
  Dict.lookup "pore.bob.x" (items w) = None ->
  Base2.Np w = Ok (Some 3) w ->
  Base2.Nt w = Ok (Some 2) w ->
  raised (getitem CBase2 fuel "pore.bob.x" w) = Some RecursionError.
Proof.
  induction fuel as [|f IH]; intros w Hname Hl Hn Hm; [reflexivity|].
  destruct f as [|f].
  - cbn [getitem]. unfold Base2.__getitem__.
    change (Str.split1 dot "pore.bob.x") with ["pore"; "bob.x"].
    mstep. unfold gets at 1. mstep. rewrite Hl. unfold gets at 1. mstep.
    rewrite Hname. change (Str.item 1 (Str.split dot "pore.bob.x")) with (Some "bob").
    mred. rewrite String.eqb_refl. mstep. reflexivity.
  - rewrite (getitem_vivify CBase2 f "pore.bob.x" "pore" "bob.x" 3 2 w
               (or_introl eq_refl) eq_refl Hl).
    + apply IH.
      * reflexivity || exact Hname.
      * unfold vivified. cbn [items set_items]. rewrite Hname.
        rewrite !lookup_update_other by discriminate. exact Hl.
      * rewrite vivified_steps, Hname. unfold Base2.Np.
        apply (count_update_other "pore" "throat.bob"); [reflexivity|].
        apply (count_update_same "pore" "pore.bob"); [reflexivity | exact Hn].
      * rewrite vivified_steps, Hname. unfold Base2.Nt.
        apply (count_update_same "throat" "throat.bob"); [reflexivity|].
        apply (count_update_other "throat" "pore.bob"); [reflexivity | exact Hm].
    + rewrite Hname. reflexivity.
    + exact Hn.
    + exact Hm.
Qed.

(** C2 as stated fails, by design, in two ways.  The key is cut at its
    first dot before any lookup, so a key without a dot is refused although
    stored keys start with [key + "."].  And on a [Domain] a key with an
    [@] is never a key of the store, yet reading it raises nothing: it is
    resolved to the rows of a property under a label. *)
Lemma read_counterexample :
  (Dict.lookup "pore" (items Examples.g3) = None
   /\ group_of "pore" Examples.g3 <> []
   /\ getitem CBase2 1 "pore" Examples.g3 = Raise (ValueError msg_unpack) Examples.g3)
  /\ (Dict.lookup "pore.coords@left" (items Examples.g9) = None
      /\ group_of "pore.coords@left" Examples.g9 = []
      /\ raised (getitem CDomain 1 "pore.coords@left" Examples.g9) = None).
Proof.
  split.
  - split; [reflexivity|]. split; [discriminate | reflexivity].
  - split; [reflexivity|]. split; reflexivity.
Qed.


(** ** Masked reads and writes on arrays *)

Section MaskLemmas.
Variable A : Type.

Lemma chunks_length c n (l : list A) : length (np.chunks c n l) = n.
Proof. revert l. induction n as [|n IH]; intros l; simpl; [reflexivity|]. rewrite IH. reflexivity. Qed.

(** Cutting the concatenation of rows of equal length gives the rows back. *)
Lemma chunks_concat c (rows : list (list A)) :
  Forall (fun r => length r = c) rows ->
  np.chunks c (length rows) (concat rows) = rows.
Proof.
  induction 1 as [|r rows Hr _ IH]; simpl; [reflexivity|].
  assert (H1 : firstn c (r ++ concat rows) = r).
  { rewrite <- Hr, firstn_app, Nat.sub_diag, firstn_all, firstn_O, app_nil_r. reflexivity. }
  assert (H2 : skipn c (r ++ concat rows) = concat rows).
  { rewrite <- Hr, skipn_app, Nat.sub_diag, skipn_all, skipn_O. reflexivity. }
  rewrite H1, H2, IH. reflexivity.
Qed.

Lemma concat_chunks c n (l : list A) :
  length l = n * c -> concat (np.chunks c n l) = l.
Proof.
  revert l. induction n as [|n IH]; intros l H; simpl in *.
  - destruct l; [reflexivity | discriminate].
  - rewrite IH; [apply firstn_skipn|].
    rewrite length_skipn. lia.
Qed.

Lemma chunks_Forall c n (l : list A) :
  length l = n * c -> Forall (fun r => length r = c) (np.chunks c n l).
Proof.
  revert l. induction n as [|n IH]; intros l H; simpl in *; constructor.
  - rewrite length_firstn. lia.
  - apply IH. rewrite length_skipn. lia.
Qed.

Lemma chunks_repeat c n (x : A) :
  np.chunks c n (repeat x (n * c)) = repeat (repeat x c) n.
Proof.
  induction n as [|n IH]; simpl; [reflexivity|].
  rewrite repeat_app, firstn_app, repeat_length, Nat.sub_diag, firstn_O, app_nil_r.
  rewrite firstn_all2 by (rewrite repeat_length; lia).
  rewrite skipn_app, repeat_length, Nat.sub_diag, skipn_O.
  rewrite skipn_all2 by (rewrite repeat_length; lia).
  simpl. rewrite IH. reflexivity.
Qed.

End MaskLemmas.

Section SelectLemmas.
Variable X : Type.

Lemma put_length m (l new : list X) : length (np.put m l new) = length l.
Proof.
  revert l new. induction m as [|b m IH]; intros [|x l] new; simpl; try reflexivity.
  destruct b; [destruct new|]; simpl; rewrite IH; reflexivity.
Qed.

Lemma put_Forall (P : X -> Prop) m l new :
  Forall P l -> Forall P new -> Forall P (np.put m l new).
Proof.
  revert l new. induction m as [|b m IH]; intros [|x l] new Hl Hn; simpl; try assumption.
  inversion Hl; subst.
  destruct b; [destruct new as [|y new]|].
  - constructor; [assumption | apply IH; assumption].
  - inversion Hn; subst. constructor; [assumption | apply IH; assumption].
  - constructor; [assumption | apply IH; assumption].
Qed.

(** What was written under the mask is what is read under the mask. *)
Lemma select_put m (l new : list X) :
  length l = length m -> length new = np.count_true m ->
  np.select m (np.put m l new) = new.
Proof.
  revert l new. induction m as [|b m IH]; intros [|x l] new Hl Hn; simpl in *; try discriminate.
  - destruct new; [reflexivity | discriminate].
  - destruct b; simpl in *.
    + destruct new as [|y new]; [discriminate|]. simpl. f_equal.
      apply IH; [lia|]. unfold np.count_true in *. simpl in Hn. lia.
    + apply IH; [lia | exact Hn].
Qed.

(** Outside the mask nothing changes. *)
Lemma select_neg_put m (l new : list X) :
  np.select (map negb m) (np.put m l new) = np.select (map negb m) l.
Proof.
  revert l new. induction m as [|b m IH]; intros [|x l] new; simpl; try reflexivity.
  destruct b; simpl.
  - destruct new; simpl; apply IH.
  - f_equal. apply IH.
Qed.

Lemma select_repeat m (x : X) :
  np.select m (repeat x (length m)) = repeat x (np.count_true m).
Proof.
  unfold np.count_true. induction m as [|b m IH]; simpl; [reflexivity|].
  destruct b; simpl; rewrite IH; reflexivity.
Qed.

Lemma select_map (Y : Type) (f : X -> Y) m l :
  np.select m (map f l) = map f (np.select m l).
Proof.
  revert l. induction m as [|b m IH]; intros [|x l]; simpl; try reflexivity.
  destruct b; simpl; rewrite IH; reflexivity.
Qed.

End SelectLemmas.

Lemma count_true_negb m :
  np.count_true (map negb m) = length m - np.count_true m.
Proof.
  unfold np.count_true. induction m as [|b m IH]; [reflexivity|].
  pose proof (filter_length_le (fun b => b) m) as Hle.
  destruct b; cbn [map negb filter length]; rewrite IH; lia.
Qed.

Lemma chunks_map (A B : Type) (f : A -> B) c n l :
  np.chunks c n (map f l) = map (map f) (np.chunks c n l).
Proof.
  revert l. induction n as [|n IH]; intros l; simpl; [reflexivity|].
  rewrite firstn_map, skipn_map, IH. reflexivity.
Qed.

(** Broadcasting data to its own shape changes nothing. *)
Lemma broadcast_aligned_same (A : Type) s : forall d : list A,
  length d = np.prod s -> np.broadcast_aligned s s d = Some d.
Proof.
  induction s as [|f fs IH]; intros d Hd; simpl; [reflexivity|].
  simpl in Hd.
  assert (Hmap : map (np.broadcast_aligned fs fs) (np.chunks (np.prod fs) f d)
                 = map Some (np.chunks (np.prod fs) f d)).
  { apply map_ext_in. intros r Hr. apply IH.
    pose proof (chunks_Forall A (np.prod fs) f d Hd) as HF.
    rewrite Forall_forall in HF. apply HF, Hr. }
  rewrite Hmap.
  assert (Hall : forall l : list (list A),
            forallb (fun p : option (list A) => match p with Some _ => true | None => false end)
                    (map Some l) = true)
    by (induction l; simpl; auto).
  rewrite Hall.
  assert (Hflat : forall l : list (list A),
            flat_map (fun p : option (list A) => match p with Some x => [x] | None => [] end)
                     (map Some l) = l)
    by (induction l as [|x l IHl]; simpl; [reflexivity | rewrite IHl; reflexivity]).
  rewrite Hflat, Nat.eqb_refl.
  rewrite concat_chunks by exact Hd. reflexivity.
Qed.

Lemma broadcast_to_same (A : Type) s (d : list A) :
  length d = np.prod s -> np.broadcast_to s s d = Some d.
Proof.
  intros Hd. unfold np.broadcast_to.
  rewrite Nat.leb_refl, Nat.sub_diag. simpl. apply broadcast_aligned_same, Hd.
Qed.

Lemma mask_fits_1d n tr : np.mask_fits [n] (n :: tr) = true.
Proof.
  unfold np.mask_fits. cbn [length firstn].
  destruct (list_eq_dec Nat.eq_dec [n] [n]); [reflexivity | contradiction].
Qed.

(** Writing [k] rows under a mask with [k] true entries into a fresh array
    of [n] equal rows. *)
Lemma scatter_fresh (A : Type) (seed : A) m tr (vdata : list A) n :
  length m = n ->
  length vdata = np.count_true m * np.prod tr ->
  np.scatter (np.mk_arr (n :: tr) (repeat seed (n * np.prod tr))) (np.mk_arr [n] m)
             (np.count_true m :: tr) vdata
  = Val (np.mk_arr (n :: tr)
           (concat (np.put m (repeat (repeat seed (np.prod tr)) n)
                           (np.chunks (np.prod tr) (np.count_true m) vdata)))).
Proof.
  intros Hm Hv. unfold np.scatter. cbn [np.shape np.data].
  rewrite mask_fits_1d. unfold np.block. cbn [length skipn].
  rewrite broadcast_to_same by (simpl; exact Hv).
  rewrite Hm, chunks_repeat. reflexivity.
Qed.

(** Reading back under the same mask. *)
Lemma gather_scattered (A : Type) m tr (rows new : list (list A)) n :
  length m = n -> length rows = n -> length new = np.count_true m ->
  Forall (fun r => length r = np.prod tr) rows ->
  Forall (fun r => length r = np.prod tr) new ->
  np.gather (np.mk_arr (n :: tr) (concat (np.put m rows new))) (np.mk_arr [n] m)
  = Val (np.mk_arr (np.count_true m :: tr) (concat new)).
Proof.
  intros Hm Hr Hn HFr HFn. unfold np.gather. cbn [np.shape np.data].
  rewrite mask_fits_1d. unfold np.block. cbn [length skipn].
  replace (length m) with (length (np.put m rows new)) by (rewrite put_length; lia).
  rewrite chunks_concat by (apply put_Forall; assumption).
  rewrite select_put by lia. reflexivity.
Qed.


(** ** Domain writes and reads *)

Lemma except_KeyError_caught A (m h : M A) w k w' :
  m w = Raise (KeyError k) w' -> except_KeyError m h w = h w'.
Proof. intros H. unfold except_KeyError. rewrite H. reflexivity. Qed.

Lemma Base2_getitem_hit sg ss key e p v w :
  Str.split1 dot key = [e; p] ->
  Dict.lookup key (items w) = Some v ->
  Base2.__getitem__ sg ss key w = Ok (PyArr v) w.
Proof.
  intros Hs Hl. unfold Base2.__getitem__. rewrite Hs. mstep. unfold gets. mstep.
  rewrite Hl. reflexivity.
Qed.

(** Multiplying by a row of ones of length one changes nothing. *)
Lemma ones_times_arr_one (A : Type) (one_times : A -> A) (a : np.arr A) :
  np.shape a <> [] ->
  (forall x, one_times x = x) ->
  np.ones_times_arr one_times 1 a = Val a.
Proof.
  intros Hs H1. unfold np.ones_times_arr.
  assert (Hmap : map one_times (np.data a) = np.data a).
  { rewrite (map_ext _ (fun x => x) H1). apply map_id. }
  destruct (rev (np.shape a)) as [|t rpre] eqn:E.
  - exfalso. apply Hs. rewrite <- (rev_involutive (np.shape a)), E. reflexivity.
  - rewrite Hmap. destruct a as [sh d]. simpl.
    destruct (t =? 1); [reflexivity|]. reflexivity.
Qed.

Lemma ones_times_one v : np.shape_of v <> [] -> np.ones_times 1 v = Val v.
Proof.
  intros Hs. destruct v as [a|a]; simpl in *.
  - rewrite ones_times_arr_one; [reflexivity | exact Hs | intros x; reflexivity].
  - rewrite ones_times_arr_one; [reflexivity | exact Hs | exact fmul_one].
Qed.

(** Storing an array whose leading length is the established count. *)
Lemma write_array_exact key element prop v N w :
  Str.split1 dot key = [element; prop] -> In element kinds ->
  Str.mem key exempt = false ->
  Base2._count element w = Ok (Some N) w ->
  np.shape0 v = Val N ->
  Base2.write_array key v w = Ok tt (set_items (Dict.update key v (items w)) w).
Proof.
  intros Hs Hk Hx Hc H0.
  unfold Base2.write_array. rewrite Hs. mstep.
  rewrite (mem_kinds _ Hk). unfold exempt in Hx. rewrite Hx. mred.
  mstep. rewrite H0. mstep.
  destruct (Nat.eqb_spec N 1) as [->|Hn].
  - mstep. mstep. rewrite ones_times_one; [reflexivity|].
    unfold np.shape0 in H0. destruct (np.shape_of v); discriminate.
  - mstep. rewrite Nat.eqb_refl. reflexivity.
Qed.

Lemma set_items_items d w : items (set_items d w) = d.
Proof. reflexivity. Qed.

(** The rows of a fresh array after a masked write: those written under the
    mask, the seed elsewhere. *)
Lemma rows_scattered (A : Type) (inj : A -> scalar) (seed : A) m tr (d : list A) :
  length d = np.count_true m * np.prod tr ->
  np.select m
    (np.chunks (np.prod tr) (length m)
       (map inj (concat (np.put m (repeat (repeat seed (np.prod tr)) (length m))
                               (np.chunks (np.prod tr) (np.count_true m) d)))))
  = np.chunks (np.prod tr) (np.count_true m) (map inj d)
  /\ np.select (map negb m)
       (np.chunks (np.prod tr) (length m)
          (map inj (concat (np.put m (repeat (repeat seed (np.prod tr)) (length m))
                                  (np.chunks (np.prod tr) (np.count_true m) d)))))
     = repeat (repeat (inj seed) (np.prod tr)) (length m - np.count_true m).
Proof.
  intros Hd.
  assert (HF : Forall (fun r : list A => length r = np.prod tr)
                 (np.put m (repeat (repeat seed (np.prod tr)) (length m))
                         (np.chunks (np.prod tr) (np.count_true m) d))).
  { apply put_Forall.
    - apply Forall_forall. intros r Hr. apply repeat_spec in Hr. subst r.
      apply repeat_length.
    - apply chunks_Forall, Hd. }
  rewrite !chunks_map.
  replace (length m) with
    (length (np.put m (repeat (repeat seed (np.prod tr)) (length m))
               (np.chunks (np.prod tr) (np.count_true m) d))) at 1 3
    by (rewrite put_length, repeat_length; reflexivity).
  rewrite (chunks_concat _ _ _ HF).
  rewrite !select_map.
  rewrite select_put by (rewrite ?repeat_length, ?chunks_length; reflexivity).
  split; [reflexivity|].
  rewrite select_neg_put.
  rewrite <- (length_map negb m) at 1.
  rewrite select_repeat, count_true_negb, !map_repeat. reflexivity.
Qed.

(** C4 (domain scatter/gather), as amended.  On an object with [N] pores
    and a boolean label [pore.left] of length [N], where [pore.seed] is not
    stored yet (no stored key starts with [pore.seed.], and the object is
    not named [seed]), so that the write is the first one, writing under
    ["pore.seed@left"] an array [v] with one row per true entry of the label
    succeeds; reading ["pore.seed@left"] afterwards returns exactly [v]; and
    the full array [pore.seed] has [N] rows, those of [v] where the label is
    true and rows of the seed value (False for a boolean [v], NaN otherwise)
    everywhere else. *)
Theorem domain_round_trip fuel w N m tr v :
  Base2.Np w = Ok (Some N) w ->
  Dict.lookup "pore.left" (items w) = Some (np.ABool (np.mk_arr [N] m)) ->
  length m = N ->
  Dict.lookup "pore.seed" (items w) = None ->
  group_of "pore.seed" w = [] ->
  name w <> "seed" ->
  np.shape_of v = np.count_true m :: tr ->
  np.wf v ->
  exists w' full,
    setitem CDomain (S (S fuel)) "pore.seed@left" (PyArr v) w = Ok tt w'
    /\ getitem CDomain (S fuel) "pore.seed@left" w' = Ok (PyArr v) w'
    /\ getitem CDomain (S fuel) "pore.seed" w' = Ok (PyArr full) w'
    /\ np.shape_of full = N :: tr
    /\ np.select m (rows full) = rows v
    /\ np.select (map negb m) (rows full)
       = repeat (repeat (seed_of v) (np.prod tr)) (N - np.count_true m).
Proof.
  intros HN Hleft Hm Hseed Hgroup Hname Hshape Hwf.
  (* the array the write allocates, and the one it leaves *)
  set (temp := Domain.seed_array N (np_array (PyArr v))).
  set (w1 := set_items (Dict.update "pore.seed" temp (items w)) w).
  assert (Htemp0 : np.shape0 temp = Val N).
  { unfold temp, Domain.seed_array. destruct v as [a|a]; reflexivity. }
  assert (Hmiss : getitem CDomain (S fuel) "pore.seed" w = Raise (KeyError "pore.seed") w).
  { rewrite (getitem_group CDomain fuel "pore.seed" "pore" "seed" w
               (or_intror eq_refl) eq_refl Hseed).
    - rewrite Hgroup. reflexivity.
    - simpl. intros H. injection H as H. apply Hname. symmetry. exact H. }
  assert (Hwrite : Base2.write_array "pore.seed" temp w = Ok tt w1).
  { apply (write_array_exact "pore.seed" "pore" "seed" temp N w);
      [reflexivity | left; reflexivity | reflexivity | exact HN | exact Htemp0]. }
  assert (Hleft1 : forall d, Dict.lookup "pore.left" (Dict.update "pore.seed" d (items w))
                             = Some (np.ABool (np.mk_arr [N] m))).
  { intros d. rewrite lookup_update_other by discriminate. exact Hleft. }
  (* the masked assignment, by dtype *)
  assert (Hset : exists full,
             np.setmask temp (np.ABool (np.mk_arr [N] m)) (np.OArr v) = Val full
             /\ np.getmask full (np.ABool (np.mk_arr [N] m)) = Val v
             /\ np.shape_of full = N :: tr
             /\ np.select m (rows full) = rows v
             /\ np.select (map negb m) (rows full)
                = repeat (repeat (seed_of v) (np.prod tr)) (N - np.count_true m)).
  { unfold temp, Domain.seed_array. clear temp w1 Htemp0 Hwrite. subst N.
    assert (HFseed : forall (A : Type) (x : A),
              Forall (fun r : list A => length r = np.prod tr)
                     (repeat (repeat x (np.prod tr)) (length m))).
    { intros A x. apply Forall_forall. intros r Hr. apply repeat_spec in Hr.
      subst r. apply repeat_length. }
    destruct v as [[sh d]|[sh d]]; unfold np.wf in Hwf; simpl in Hshape, Hwf; subst sh;
      simpl in Hwf; cbn [np_array np.operand_is_bool np.operand_shape np.is_bool negb
                         np.shape_of np.shape tl].
    - (* boolean *)
      eexists. split.
      + unfold np.zeros_bool. cbn [np.prod fold_right].
        unfold np.setmask. cbn [np.shape np.data]. rewrite mask_fits_1d.
        cbn [np.as_bool_data np.data np.operand_shape np.shape_of np.shape].
        change (fold_right Nat.mul 1 tr) with (np.prod tr).
        rewrite scatter_fresh by (reflexivity || exact Hwf). reflexivity.
      + cbn [np.shape_of np.shape]. split; [|split; [reflexivity|]].
        * unfold np.getmask.
          rewrite gather_scattered;
            [ rewrite concat_chunks by exact Hwf; reflexivity
            | reflexivity | apply repeat_length | apply chunks_length
            | apply HFseed | apply chunks_Forall; exact Hwf ].
        * unfold rows, seed_of.
          cbn [np.trailing np.shape_of np.shape tl hd elems np.data np.is_bool].
          apply (rows_scattered bool SBool false m tr d Hwf).
    - (* float *)
      eexists. split.
      + unfold np.zeros_bool, np.times_nan. cbn [np.prod fold_right np.shape np.data].
        rewrite map_repeat.
        change (np.fmul (np.of_bool false) np.NaN) with np.NaN.
        unfold np.setmask. cbn [np.shape np.data]. rewrite mask_fits_1d.
        cbn [np.as_float_data np.data np.operand_shape np.shape_of np.shape].
        change (fold_right Nat.mul 1 tr) with (np.prod tr).
        rewrite scatter_fresh by (reflexivity || exact Hwf). reflexivity.
      + cbn [np.shape_of np.shape]. split; [|split; [reflexivity|]].
        * unfold np.getmask.
          rewrite gather_scattered;
            [ rewrite concat_chunks by exact Hwf; reflexivity
            | reflexivity | apply repeat_length | apply chunks_length
            | apply HFseed | apply chunks_Forall; exact Hwf ].
        * unfold rows, seed_of.
          cbn [np.trailing np.shape_of np.shape tl hd elems np.data np.is_bool].
          apply (rows_scattered np.flt SFloat np.NaN m tr d Hwf). }
  destruct Hset as (full & Hsm & Hgm & Hfs & Hrows & Hrest).
  set (w2 := set_items (Dict.update "pore.seed" full (items w1)) w1).
  exists w2, full.
  assert (Hleft2 : Dict.lookup "pore.left" (items w2) = Some (np.ABool (np.mk_arr [N] m))).
  { unfold w2, w1. cbn [items set_items].
    rewrite !lookup_update_other by discriminate. exact Hleft. }
  assert (Hseed2 : Dict.lookup "pore.seed" (items w2) = Some full).
  { unfold w2. cbn [items set_items]. apply lookup_update_same. }
  split; [|split; [|split; [|split; [exact Hfs | split; [exact Hrows | exact Hrest]]]]].
  - (* the write *)
    cbn [setitem]. unfold Domain.__setitem__.
    change (Str.contains at_sign "pore.seed@left") with true. cbv iota zeta.
    erewrite bind_Ok by reflexivity. mred.
    erewrite bind_Ok
      by (apply (Base2_getitem_hit _ _ "pore.left" "pore" "left" _ w eq_refl Hleft)).
    erewrite except_KeyError_caught by (apply bind_Raise; exact Hmiss).
    fold temp.
    erewrite bind_Ok by exact HN. mstep.
    unfold Base2.__setitem__. fold temp.
    erewrite bind_Ok by exact Hwrite.
    erewrite bind_Ok
      by (apply (getitem_hit CDomain fuel "pore.seed" "pore" "seed" temp w1
                   (or_intror eq_refl) eq_refl); apply lookup_update_same).
    unfold mask_assign. change (np_array (PyArr v)) with (np.OArr v).
    rewrite Hsm. mstep. reflexivity.
  - (* the masked read *)
    cbn [getitem]. unfold Domain.__getitem__.
    change (Str.contains at_sign "pore.seed@left") with true. cbv iota zeta.
    erewrite bind_Ok by reflexivity. mred.
    erewrite bind_Ok
      by (apply (Base2_getitem_hit _ _ "pore.left" "pore" "left" _ w2 eq_refl Hleft2)).
    erewrite bind_Ok
      by (apply (Base2_getitem_hit _ _ "pore.seed" "pore" "seed" _ w2 eq_refl Hseed2)).
    unfold mask_read. rewrite Hgm. reflexivity.
  - (* the full read *)
    apply (getitem_hit CDomain fuel "pore.seed" "pore" "seed" full w2
             (or_intror eq_refl) eq_refl Hseed2).
Qed.

Lemma domain_round_trip_witness :
  exists w' full,
    setitem CDomain 2 "pore.seed@left"
      (PyArr (Examples.floats [1 # 5; 3 # 10; 2 # 5]%Q)) Examples.g9 = Ok tt w'
    /\ getitem CDomain 1 "pore.seed@left" w'
       = Ok (PyArr (Examples.floats [1 # 5; 3 # 10; 2 # 5]%Q)) w'
    /\ getitem CDomain 1 "pore.seed" w' = Ok (PyArr full) w'
    /\ np.shape_of full = [9]
    /\ np.select [true; true; true; false; false; false; false; false; false] (rows full)
       = rows (Examples.floats [1 # 5; 3 # 10; 2 # 5]%Q)
    /\ np.select (map negb [true; true; true; false; false; false; false; false; false])
         (rows full)
       = repeat (repeat (seed_of (Examples.floats [1 # 5; 3 # 10; 2 # 5]%Q)) (np.prod [])) (9 - 3).
Proof.
  apply (domain_round_trip 0 Examples.g9 9
           [true; true; true; false; false; false; false; false; false] []
           (Examples.floats [1 # 5; 3 # 10; 2 # 5]%Q));
    try reflexivity.
  discriminate.
Defined.

(** C4 as stated fails when [pore.seed] exists already with another dtype:
    the values written are cast to it.  After a boolean write on [right] has
    created [pore.seed] as a boolean array, the write of three floats on
    [left] succeeds, but reading ["pore.seed@left"] returns three [True], not
    the floats written. *)
Lemma domain_cast_counterexample :
  state_of (setitem CDomain 2 "pore.seed@right"
              (PyArr (Examples.bools [true; true; true])) Examples.g9)
  = Examples.g9_flagged
  /\ raised (setitem CDomain 2 "pore.seed@left"
               (PyArr (Examples.floats [1 # 5; 3 # 10; 2 # 5]%Q)) Examples.g9_flagged) = None
  /\ getitem CDomain 1 "pore.seed@left"
       (state_of (setitem CDomain 2 "pore.seed@left"
                    (PyArr (Examples.floats [1 # 5; 3 # 10; 2 # 5]%Q)) Examples.g9_flagged))
     = Ok (PyArr (Examples.bools [true; true; true]))
          (state_of (setitem CDomain 2 "pore.seed@left"
                       (PyArr (Examples.floats [1 # 5; 3 # 10; 2 # 5]%Q)) Examples.g9_flagged))
  /\ Examples.bools [true; true; true] <> Examples.floats [1 # 5; 3 # 10; 2 # 5]%Q.
Proof.
  split; [vm_compute; reflexivity|].
  split; [vm_compute; reflexivity|].
  split; [vm_compute; reflexivity|].
  discriminate.
Qed.


(** ** Keys with a domain *)

Lemma split_app_sep c a b :
  Str.contains c a = false -> Str.split c (a ++ String c b) = a :: Str.split c b.
Proof.
  induction a as [|x a IH]; simpl.
  - intros _. rewrite Ascii.eqb_refl. reflexivity.
  - destruct (Ascii.eqb x c); [discriminate|].
    intros H. rewrite (IH H). reflexivity.
Qed.

(** The key [throat.<prop>@<domain>] is read as its three pieces. *)
Lemma parse_throat prop domain w :
  Str.contains at_sign prop = false ->
  Str.contains at_sign domain = false ->
  Str.contains dot domain = false ->
  Domain.parse ("throat." ++ prop ++ "@" ++ domain) w = Ok ("throat", prop, domain) w.
Proof.
  intros Hp Hd Hdd. unfold Domain.parse.
  replace ("throat." ++ prop ++ "@" ++ domain)
    with (("throat." ++ prop) ++ String at_sign domain)
    by (rewrite app_assoc_str; reflexivity).
  rewrite split_app_sep by (rewrite contains_app, Hp; reflexivity).
  rewrite (split_none _ _ Hd). cbn [hd Str.item nth_error].
  change (Str.split1 dot ("throat." ++ prop)) with ["throat"; prop].
  mstep. rewrite (split_none _ _ Hdd). reflexivity.
Qed.

Lemma contains_throat_key prop domain :
  Str.contains at_sign ("throat." ++ prop ++ "@" ++ domain) = true.
Proof.
  rewrite !contains_app. simpl. rewrite Bool.orb_true_r. reflexivity.
Qed.

Lemma lookup_None_mem V k (d : Dict.t V) :
  Dict.lookup k d = None -> Str.mem k (Dict.keys d) = false.
Proof.
  unfold Str.mem, Dict.keys.
  induction d as [|[k' v'] d IH]; simpl; [reflexivity|].
  destruct (String.eqb k k'); [discriminate | exact IH].
Qed.

(** A fresh array of [N] rows is refused for a kind whose count is neither
    [N] nor such that [N] is 1. *)
Lemma write_fresh_wrong_kind key element prop temp N T w :
  Str.split1 dot key = [element; prop] -> In element kinds ->
  Str.mem key exempt = false ->
  Base2._count element w = Ok (Some T) w ->
  np.shape0 temp = Val N -> N <> 1 -> N <> T ->
  Base2.write_array key temp w = Raise (Exception (msg_length key)) w.
Proof. intros. eapply write_array_wrong_length; eassumption. Qed.

(** C10 (throat arrays sized by the pore count), as amended.  When a
    domain-qualified write, or a model run on a domain, targets a throat
    property [throat.<prop>] on a stored label, the property being not
    stored yet, no group (no stored key starts with [throat.<prop>.]), not
    the object's self-label (the second dot-segment of [throat.<prop>] is
    not the object's name) and not the exempt [throat.conns], the array it
    allocates has [Np] rows; whenever [Np] is established, differs from the
    established throat count [Nt] and is not 1, handing that array to
    [Base2.__setitem__] raises the wrong-length error and no throat array is
    created (the model, in the second case, has been called by then). *)
Theorem throat_domain_write_wrong_length fuel w prop domain lab N T :
  Str.contains at_sign prop = false ->
  Str.contains at_sign domain = false ->
  Str.contains dot domain = false ->
  Dict.lookup ("throat." ++ domain) (items w) = Some lab ->
  Dict.lookup ("throat." ++ prop) (items w) = None ->
  group_of ("throat." ++ prop) w = [] ->
  Str.item 1 (Str.split dot ("throat." ++ prop)) <> Some (name w) ->
  Str.mem ("throat." ++ prop) exempt = false ->
  Base2.Np w = Ok (Some N) w ->
  Base2.Nt w = Ok (Some T) w ->
  N <> T -> N <> 1 ->
  (forall value tr,
     np.shape0 (Domain.seed_array N (np_array value)) = Val N
     /\ np.shape0 (np.times_nan (np.ones (N :: tr))) = Val N)
  /\ (forall value,
     exists e, ShapeError ("throat." ++ prop) e
       /\ setitem CDomain (S (S fuel)) ("throat." ++ prop ++ "@" ++ domain) value w
          = Raise e w)
  /\ (forall spec vals,
        Dict.lookup ("throat." ++ prop ++ "@" ++ domain) (models w) = Some spec ->
        model spec (items w) (name w) (Some ("throat." ++ domain)) (kwargs spec)
        = Val (PyArr vals) ->
        exists e, ShapeError ("throat." ++ prop) e
          /\ run_model (S fuel) ("throat." ++ prop) (Some domain) w
             = Raise e (log_call ("throat." ++ prop ++ "@" ++ domain) w)).
Proof.
  intros Hp Hd Hdd Hlab Hmiss Hgroup Hname Hex HN HT HNT HN1.
  assert (Hpk : Str.contains at_sign ("throat." ++ prop) = false)
    by (rewrite contains_app, Hp; reflexivity).
  split; [|split].
  - intros value tr. split; [|reflexivity].
    unfold Domain.seed_array.
    destruct (np.operand_is_bool (np_array value)); reflexivity.
  - intros value. exists (Exception (msg_length ("throat." ++ prop))).
    split; [reflexivity|].
    cbn [setitem]. unfold Domain.__setitem__.
    rewrite contains_throat_key. cbv iota zeta.
    erewrite bind_Ok by (apply parse_throat; assumption). mred.
    change ("throat" ++ "." ++ domain) with ("throat." ++ domain).
    change ("throat" ++ "." ++ prop) with ("throat." ++ prop).
    erewrite bind_Ok
      by (apply (Base2_getitem_hit _ _ ("throat." ++ domain) "throat" domain lab w
                   eq_refl Hlab)).
    erewrite except_KeyError_caught.
    2:{ apply bind_Raise.
        rewrite (getitem_group CDomain fuel ("throat." ++ prop) "throat" prop w
                   (or_intror Hpk) eq_refl Hmiss Hname).
        rewrite Hgroup. reflexivity. }
    erewrite bind_Ok by exact HN. mstep.
    unfold Base2.__setitem__.
    apply bind_Raise.
    apply (write_fresh_wrong_kind ("throat." ++ prop) "throat" prop _ N T w);
      try assumption; try reflexivity.
    + right. left. reflexivity.
    + unfold Domain.seed_array.
      destruct (np.operand_is_bool (np_array value)); reflexivity.
  - intros spec vals Hspec Hmodel.
    exists (Exception (msg_length ("throat." ++ prop))). split; [reflexivity|].
    unfold run_model, ModelMixin2.run_model, ModelMixin2.run_model_on.
    rewrite (split_none _ _ Hdd). cbn [Str.last_item last].
    rewrite (split_none _ _ Hpk). cbn [hd].
    change (Str.split1 dot ("throat." ++ prop)) with ["throat"; prop].
    mstep.
    change ("throat" ++ "." ++ domain) with ("throat." ++ domain).
    change ("throat" ++ "." ++ prop) with ("throat." ++ prop).
    replace (("throat." ++ prop) ++ "@" ++ domain) with ("throat." ++ prop ++ "@" ++ domain)
      by (rewrite app_assoc_str; reflexivity).
    set (q := "throat." ++ prop ++ "@" ++ domain).
    assert (Hinv : ModelMixin2.invoke q (Some ("throat." ++ domain)) w
                   = Ok (PyArr vals) (log_call q w)).
    { unfold ModelMixin2.invoke, ModelMixin2.models_lookup, bind at 1.
      fold q in Hspec. rewrite Hspec. unfold modify, gets. mred.
      unfold bind. cbn [items name log_call]. rewrite Hmodel. reflexivity. }
    erewrite bind_Ok by exact Hinv.
    unfold gets at 1. mstep. cbn [items log_call].
    rewrite (lookup_None_mem _ _ _ Hmiss). mred.
    apply bind_Raise.
    erewrite bind_Ok by (unfold Base2.Np in *; unfold Base2._count in *;
                         cbn [items log_call]; destruct (find _ (items w)) as [[k0 v0]|];
                         [destruct (np.shape0 v0); inversion HN; reflexivity | discriminate]).
    mstep. mstep.
    rewrite (setitem_plain CDomain fuel ("throat." ++ prop) _ (or_intror Hpk)).
    unfold Base2.__setitem__.
    apply (write_fresh_wrong_kind ("throat." ++ prop) "throat" prop _ N T);
      try assumption; try reflexivity.
    + right. left. reflexivity.
    + unfold Base2.Nt in *; unfold Base2._count in *;
        cbn [items log_call]; destruct (find _ (items w)) as [[k0 v0]|];
        [destruct (np.shape0 v0); inversion HT; reflexivity | discriminate].
Qed.

Lemma throat_domain_write_wrong_length_witness :
  (exists e, ShapeError "throat.size" e
     /\ setitem CDomain 2 "throat.size@lab" (PyFloat (np.Fin 1%Q)) Examples.g3_throat_model
        = Raise e Examples.g3_throat_model)
  /\ (exists e, ShapeError "throat.size" e
        /\ run_model 1 "throat.size" (Some "lab") Examples.g3_throat_model
           = Raise e (log_call "throat.size@lab" Examples.g3_throat_model)).
Proof.
  destruct (throat_domain_write_wrong_length 0 Examples.g3_throat_model "size" "lab"
              (Examples.bools [true; false]) 3 2
              eq_refl eq_refl eq_refl eq_refl eq_refl eq_refl) as [_ [Hset Hrun]];
    try reflexivity; try discriminate.
  split.
  - apply Hset.
  - apply (Hrun (mk_spec Examples.one_value "normal" []) (Examples.floats [7%Q]));
      reflexivity.
Defined.

(** C10 as stated fails in three ways.  With a single pore the one-row
    array is broadcast by [Base2.__setitem__] to the throat count, so with
    one pore and two throats both the domain write and the model run succeed
    and create [throat.size] with two rows.  When the property is the
    object's self-label, [throat.bob] on the object [bob], the read in the
    write creates the label with [Nt] rows and the write succeeds, three
    pores and two throats notwithstanding.  And when the property is a group
    of stored keys, the read returns a mapping and the write raises a type
    error, not the wrong-length one. *)
Lemma one_pore_counterexample :
  (Base2.Np Examples.one_pore = Ok (Some 1) Examples.one_pore
   /\ Base2.Nt Examples.one_pore = Ok (Some 2) Examples.one_pore
   /\ Dict.lookup "throat.size" (items Examples.one_pore) = None
   /\ raised (setitem CDomain 2 "throat.size@lab" (PyArr (Examples.floats [7%Q]))
                Examples.one_pore) = None
   /\ Dict.lookup "throat.size"
        (items (state_of (setitem CDomain 2 "throat.size@lab"
                            (PyArr (Examples.floats [7%Q])) Examples.one_pore)))
      = Some (np.AFloat (np.mk_arr [2] [np.Fin 7%Q; np.NaN]))
   /\ raised (run_model 1 "throat.size" (Some "lab") Examples.one_pore_model) = None
   /\ Dict.lookup "throat.size"
        (items (state_of (run_model 1 "throat.size" (Some "lab") Examples.one_pore_model)))
      = Some (np.AFloat (np.mk_arr [2] [np.Fin 7%Q; np.NaN])))
  /\ (Base2.Np Examples.g3 = Ok (Some 3) Examples.g3
      /\ Base2.Nt Examples.g3 = Ok (Some 2) Examples.g3
      /\ Dict.lookup "throat.bob" (items Examples.g3) = None
      /\ raised (setitem CDomain 4 "throat.bob@lab" (PyBool false) Examples.g3) = None
      /\ Dict.lookup "throat.bob"
           (items (state_of (setitem CDomain 4 "throat.bob@lab" (PyBool false) Examples.g3)))
         = Some (Examples.bools [false; true]))
  /\ (Dict.lookup "throat.nested" (items Examples.g3_throat_group) = None
      /\ setitem CDomain 2 "throat.nested@lab" (PyFloat (np.Fin 1%Q)) Examples.g3_throat_group
         = Raise TypeError Examples.g3_throat_group).
Proof. repeat split; vm_compute; reflexivity. Qed.



(** ** The store methods leave the registry alone *)

Lemma frame_ret A (a : A) : registry_frame (ret a).
Proof. intros w. split; reflexivity. Qed.

Lemma frame_raise A e : registry_frame (@raise A e).
Proof. intros w. split; reflexivity. Qed.

Lemma frame_lift A (o : outcome A) : registry_frame (lift o).
Proof. destruct o; [apply frame_ret | apply frame_raise]. Qed.

Lemma frame_gets A (f : obj -> A) : registry_frame (gets f).
Proof. intros w. split; reflexivity. Qed.

Lemma frame_bind A B (m : M A) (k : A -> M B) :
  registry_frame m -> (forall a, registry_frame (k a)) -> registry_frame (bind m k).
Proof.
  intros Hm Hk w. unfold bind. specialize (Hm w).
  destruct (m w) as [a w1|e w1]; simpl in Hm.
  - destruct (Hk a w1) as [H1 H2]. destruct Hm as [H3 H4].
    split; congruence.
  - exact Hm.
Qed.

Lemma frame_dict_update key v : registry_frame (dict_update key v).
Proof. intros w. split; reflexivity. Qed.

Lemma frame_remove key :
  registry_frame (modify (fun w => set_items (Dict.remove key (items w)) w)).
Proof. intros w. split; reflexivity. Qed.

Lemma frame_except A (m h : M A) :
  registry_frame m -> registry_frame h -> registry_frame (except_KeyError m h).
Proof.
  intros Hm Hh w. unfold except_KeyError. specialize (Hm w).
  destruct (m w) as [a w1|e w1]; simpl in Hm; [exact Hm|].
  destruct e; try exact Hm.
  destruct (Hh w1) as [H1 H2]. destruct Hm as [H3 H4]. split; congruence.
Qed.

Lemma frame_for_each X (l : list X) body :
  (forall x, registry_frame (body x)) -> registry_frame (for_each l body).
Proof.
  intros Hb. induction l as [|x l IH]; simpl.
  - apply frame_ret.
  - apply frame_bind; [apply Hb | intros _; exact IH].
Qed.

Lemma frame_unpack2 l : registry_frame (unpack2 l).
Proof.
  destruct l as [|a [|b [|]]]; simpl;
    first [apply frame_ret | apply frame_raise].
Qed.

Lemma frame_as_dim c : registry_frame (as_dim c).
Proof. destruct c; [apply frame_ret | apply frame_raise]. Qed.

Lemma frame_count element : registry_frame (Base2._count element).
Proof.
  intros w. unfold Base2._count.
  destruct (find _ (items w)) as [[k v]|]; [destruct (np.shape0 v)|]; split; reflexivity.
Qed.

Ltac frame_tac :=
  repeat first
    [ apply frame_ret | apply frame_raise | apply frame_lift | apply frame_gets
    | apply frame_dict_update | apply frame_remove | apply frame_unpack2
    | apply frame_as_dim | apply frame_count
    | apply frame_bind; [|intros ?]
    | apply frame_for_each; intros ?
    | apply frame_except
    | match goal with
      | H : forall k, registry_frame (?f k) |- registry_frame (?f _) => apply H
      | H : forall k v, registry_frame (?f k v) |- registry_frame (?f _ _) => apply H
      | |- registry_frame (if ?b then _ else _) => destruct b
      | |- registry_frame (match ?x with _ => _ end) => destruct x
      | |- registry_frame (let _ := _ in _) => cbv zeta
      end ].

Lemma frame_write_array key v : registry_frame (Base2.write_array key v).
Proof. unfold Base2.write_array. frame_tac. Qed.

Lemma frame_Base2_setitem ss key value :
  (forall k v, registry_frame (ss k v)) -> registry_frame (Base2.__setitem__ ss key value).
Proof.
  intros Hss. unfold Base2.__setitem__.
  destruct value; try apply frame_write_array; frame_tac.
Qed.

Lemma frame_Base2_getitem sg ss key :
  (forall k, registry_frame (sg k)) -> (forall k v, registry_frame (ss k v)) ->
  registry_frame (Base2.__getitem__ sg ss key).
Proof.
  intros Hsg Hss. unfold Base2.__getitem__, Base2.Np, Base2.Nt. frame_tac.
Qed.

Lemma frame_mask_assign key vals locs value :
  registry_frame (mask_assign key vals locs value).
Proof. unfold mask_assign. frame_tac. Qed.

Lemma frame_mask_read vals locs : registry_frame (mask_read vals locs).
Proof. unfold mask_read. frame_tac. Qed.

Lemma frame_parse key : registry_frame (Domain.parse key).
Proof. unfold Domain.parse. frame_tac. Qed.

Lemma frame_Domain_getitem sg ss key :
  (forall k, registry_frame (sg k)) -> (forall k v, registry_frame (ss k v)) ->
  registry_frame (Domain.__getitem__ sg ss key).
Proof.
  intros Hsg Hss. unfold Domain.__getitem__. cbv zeta.
  destruct (Str.contains at_sign key); [|apply frame_Base2_getitem; assumption].
  apply frame_bind; [apply frame_parse|]. intros [[element prop] domain].
  apply frame_bind; [apply frame_Base2_getitem; assumption|]. intros locs.
  apply frame_bind; [apply frame_Base2_getitem; assumption|]. intros vals.
  apply frame_mask_read.
Qed.

Lemma frame_Domain_setitem sg ss key value :
  (forall k, registry_frame (sg k)) -> (forall k v, registry_frame (ss k v)) ->
  registry_frame (Domain.__setitem__ sg ss key value).
Proof.
  intros Hsg Hss. unfold Domain.__setitem__. cbv zeta.
  destruct (Str.contains at_sign key); [|apply frame_Base2_setitem; assumption].
  apply frame_bind; [apply frame_parse|]. intros [[element prop] domain].
  apply frame_bind; [apply frame_Base2_getitem; assumption|]. intros locs.
  apply frame_except.
  - apply frame_bind; [apply Hsg|]. intros vals.
    apply frame_bind; [apply frame_mask_assign|]. intros vals'. apply Hss.
  - apply frame_bind; [apply frame_count|]. intros c.
    apply frame_bind; [apply frame_as_dim|]. intros n.
    apply frame_bind; [apply frame_Base2_setitem; assumption|]. intros _.
    apply frame_bind; [apply Hsg|]. intros target.
    apply frame_bind; [apply frame_mask_assign|]. intros _. apply frame_ret.
Qed.

(** Reads and writes, at every depth and for both classes. *)
Lemma frame_accessors fuel c :
  (forall key, registry_frame (getitem c fuel key))
  /\ (forall key value, registry_frame (setitem c fuel key value)).
Proof.
  induction fuel as [|f [IHg IHs]]; (split; [intros key | intros key value]);
    try apply frame_raise; destruct c; cbn [getitem setitem].
  - apply frame_Base2_getitem; assumption.
  - apply frame_Domain_getitem; assumption.
  - apply frame_Base2_setitem; assumption.
  - apply frame_Domain_setitem; assumption.
Qed.

(** ** The calls a run makes *)

Lemma cw_frame A (m : M A) w : registry_frame m -> calls_within m w [].
Proof.
  intros H. destruct (H w) as [H1 H2]. split; [exact H1|].
  exists [], []. rewrite app_nil_r. repeat split. exact H2.
Qed.

Lemma cw_bind A B (m : M A) (k : A -> M B) w e1 e2 :
  calls_within m w e1 ->
  (forall a w1, m w = Ok a w1 -> calls_within (k a) w1 e2) ->
  calls_within (bind m k) w (e1 ++ e2).
Proof.
  intros (Hm & d1 & r1 & Hc1 & He1 & Hr1) Hk. unfold calls_within, bind.
  destruct (m w) as [a w1|e w1] eqn:E; simpl in *.
  - destruct (Hk a w1 eq_refl) as (Hm2 & d2 & r2 & Hc2 & He2 & Hr2).
    split; [congruence|].
    exists (d1 ++ d2)%list, r2. rewrite (Hr1 eq_refl) in He1. rewrite app_nil_r in He1.
    subst e1 e2. repeat split.
    + rewrite Hc2, Hc1, app_assoc. reflexivity.
    + rewrite app_assoc. reflexivity.
    + exact Hr2.
  - split; [exact Hm|].
    exists d1, (r1 ++ e2)%list. subst e1. repeat split.
    + exact Hc1.
    + rewrite app_assoc. reflexivity.
    + discriminate.
Qed.

Lemma cw_frame_bind A B (m : M A) (k : A -> M B) w e :
  registry_frame m ->
  (forall a w1, m w = Ok a w1 -> calls_within (k a) w1 e) ->
  calls_within (bind m k) w e.
Proof.
  intros Hm Hk. change e with ([] ++ e)%list.
  apply cw_bind; [apply cw_frame, Hm | exact Hk].
Qed.

Lemma cw_bind_frame A B (m : M A) (k : A -> M B) w e :
  calls_within m w e -> (forall a, registry_frame (k a)) ->
  calls_within (bind m k) w e.
Proof.
  intros Hm Hk. rewrite <- (app_nil_r e).
  apply cw_bind; [exact Hm | intros a w1 _; apply cw_frame, Hk].
Qed.

Lemma cw_for_each X (l : list X) body (t : X -> list string) w0 :
  (forall x w, models w = models w0 -> calls_within (body x) w (t x)) ->
  forall w, models w = models w0 -> calls_within (for_each l body) w (flat_map t l).
Proof.
  intros Hb. induction l as [|x l IH]; intros w Hw; simpl.
  - apply cw_frame, frame_ret.
  - apply cw_bind; [apply Hb, Hw|].
    intros a w1 E. apply IH.
    destruct (Hb x w Hw) as [Hm _]. rewrite E in Hm. simpl in Hm. congruence.
Qed.

(** Calling the model registered under [q]. *)
Lemma cw_invoke q d w : calls_within (ModelMixin2.invoke q d) w [q].
Proof.
  unfold ModelMixin2.invoke, ModelMixin2.models_lookup, bind, modify, gets, calls_within.
  destruct (Dict.lookup q (models w)) as [spec|]; simpl.
  - destruct (model spec (items w) (name w) d (kwargs spec)) as [v|e]; simpl;
      (split; [reflexivity|]); exists [q], []; repeat split.
  - split; [reflexivity|]. exists [], [q]. rewrite app_nil_r. repeat split. discriminate.
Qed.

Section Runs.
Variable sg : string -> M pyvalue.
Variable ss : string -> pyvalue -> M unit.
Hypothesis Hsg : forall k, registry_frame (sg k).
Hypothesis Hss : forall k v, registry_frame (ss k v).

Lemma cw_run_model_on propname domain w :
  calls_within (ModelMixin2.run_model_on sg ss propname domain) w
               (executed_on propname domain).
Proof.
  unfold ModelMixin2.run_model_on, executed_on, qualified. cbv zeta.
  destruct (Str.split1 dot (hd "" (Str.split at_sign propname))) as [|e [|p [|]]];
    try (apply cw_frame; cbn [unpack2]; frame_tac).
  cbn [unpack2]. apply cw_frame_bind; [apply frame_ret|].
  intros a w1 E. injection E as <- <-. cbn [fst snd].
  apply cw_bind_frame; [apply cw_invoke|].
  intros vals. unfold ModelMixin2.result_trailing, Base2.Np.
  repeat first [apply frame_mask_assign | progress frame_tac].
Qed.

Lemma flat_map_filter X Y (f : X -> list Y) (p : X -> bool) l :
  flat_map (fun x => if p x then f x else []) l = flat_map f (filter p l).
Proof.
  induction l as [|x l IH]; simpl; [reflexivity|].
  destruct (p x); simpl; rewrite IH; reflexivity.
Qed.

Lemma cw_run_model propname domain w :
  calls_within (ModelMixin2.run_model sg ss propname domain) w
               (trace_run (Dict.keys (models w)) propname domain).
Proof.
  unfold ModelMixin2.run_model, trace_run.
  destruct domain as [d|]; [apply cw_run_model_on|].
  destruct (Str.contains at_sign propname).
  - unfold bind, gets. rewrite <- flat_map_filter.
    apply (cw_for_each _ _ _ _ w); [|reflexivity].
    intros item w' _. destruct (Str.startswith item propname).
    + apply cw_run_model_on.
    + apply cw_frame, frame_ret.
  - apply cw_frame_bind; [apply frame_unpack2|]. intros _ w1 _.
    apply cw_bind_frame; [apply cw_invoke | intros vals; apply Hss].
Qed.

Lemma cw_regenerate_models w :
  calls_within (ModelMixin2.regenerate_models sg ss) w
               (trace_regen (Dict.keys (models w))).
Proof.
  unfold ModelMixin2.regenerate_models, trace_regen, bind, gets.
  apply (cw_for_each _ _ _ _ w); [|reflexivity].
  intros item w' Hw'. rewrite <- Hw'. apply cw_run_model.
Qed.

End Runs.

(** ** Registries without prefix clashes *)

Lemma startswith_refl s : Str.startswith s s = true.
Proof.
  unfold Str.startswith. induction s as [|a s IH]; simpl; [reflexivity|].
  destruct (Ascii.ascii_dec a a); [exact IH | congruence].
Qed.

Lemma filter_single (p : string -> bool) x l :
  NoDup l -> In x l -> p x = true -> (forall y, In y l -> p y = true -> y = x) ->
  filter p l = [x].
Proof.
  induction l as [|y l IH]; intros Hnd Hin Hpx Huniq; [destruct Hin|].
  inversion Hnd as [|? ? Hny Hnd']; subst. simpl.
  assert (Hnone : forall l', (forall z, In z l' -> p z = true -> z = x) -> ~ In x l' ->
                             filter p l' = []).
  { induction l' as [|z l' IH']; intros Hu Hn; simpl; [reflexivity|].
    destruct (p z) eqn:Ez.
    - exfalso. apply Hn. left. apply Hu; [left; reflexivity | exact Ez].
    - apply IH'; [intros z' Hz'; apply Hu; right; exact Hz' | intros H; apply Hn; right; exact H]. }
  destruct Hin as [->|Hin].
  - rewrite Hpx. f_equal. apply Hnone; [|exact Hny].
    intros z Hz. apply Huniq. right. exact Hz.
  - destruct (p y) eqn:Ey.
    + assert (y = x) by (apply Huniq; [left; reflexivity | exact Ey]). subst y.
      contradiction.
    + apply IH; try assumption. intros z Hz. apply Huniq. right. exact Hz.
Qed.

(** In a registry without prefix clashes every registered name is run once,
    in registration order. *)
Lemma trace_regen_prefix_free ks : prefix_free ks -> trace_regen ks = ks.
Proof.
  intros [Hnd Hcan]. unfold trace_regen.
  assert (H : forall item, In item ks -> trace_run ks item None = [item]).
  { intros item Hin. unfold trace_run.
    destruct (Str.contains at_sign item) eqn:E; [|reflexivity].
    destruct (Hcan item Hin E) as [Hq Hu].
    rewrite (filter_single (fun item' => Str.startswith item' item) item ks Hnd Hin
               (startswith_refl item) Hu).
    simpl. unfold executed_on. rewrite Hq. reflexivity. }
  clear Hnd Hcan.
  assert (G : forall l, (forall item, In item l -> trace_run ks item None = [item]) ->
                        flat_map (fun item => trace_run ks item None) l = l).
  { induction l as [|x l IH]; intros Hl; cbn [flat_map]; [reflexivity|].
    rewrite (Hl x (or_introl eq_refl)). cbn [app]. f_equal.
    apply IH. intros item Hi. apply Hl. right. exact Hi. }
  apply G, H.
Qed.

Lemma for_each_filter X (p : X -> bool) (f : X -> M unit) l w :
  for_each l (fun x => if p x then f x else ret tt) w = for_each (filter p l) f w.
Proof.
  revert w. induction l as [|x l IH]; intros w; simpl; [reflexivity|].
  destruct (p x); simpl.
  - unfold bind. destruct (f x w); [apply IH | reflexivity].
  - unfold bind at 1. simpl. apply IH.
Qed.

(** C1 (lazy fan-out), as amended.  With [domain=None], the fan-out is the
    branch taken when the property name contains an [@]: for every
    registered qualified name that starts with the given name, in
    registration order, [run_model] calls itself with that entry's domain
    (the text after its last [@]), so the models called are those lookups,
    in that order, up to the first call that raises.  A bare name (no [@])
    under which nothing is registered is looked up as it is: the run raises
    the missing-key error (or the addressing error, when the name has no
    dot), calls no model and changes nothing, whatever [@]-qualified
    entries exist. *)
Theorem run_model_fan_out fuel propname w :
  (Str.contains at_sign propname = true ->
   run_model fuel propname None w
   = for_each (filter (fun item => Str.startswith item propname) (Dict.keys (models w)))
       (fun item => run_model fuel propname (Some (Str.last_item (Str.split at_sign item)))) w
   /\ calls_within (run_model fuel propname None) w
        (flat_map (fun item => executed_on propname (Str.last_item (Str.split at_sign item)))
           (filter (fun item => Str.startswith item propname) (Dict.keys (models w)))))
  /\ (Str.contains at_sign propname = false ->
      Dict.lookup propname (models w) = None ->
      state_of (run_model fuel propname None w) = w
      /\ (raised (run_model fuel propname None w) = Some (KeyError propname)
          \/ raised (run_model fuel propname None w) = Some (ValueError msg_unpack))).
Proof.
  split.
  - intros Hat. split.
    + unfold run_model, ModelMixin2.run_model. rewrite Hat.
      unfold bind at 1, gets. apply for_each_filter.
    + pose proof (cw_run_model (getitem CDomain fuel) (setitem CDomain fuel)
                    (proj1 (frame_accessors fuel CDomain))
                    (proj2 (frame_accessors fuel CDomain)) propname None w) as H.
      unfold trace_run in H. rewrite Hat in H. exact H.
  - intros Hat Hl. unfold run_model, ModelMixin2.run_model. rewrite Hat.
    destruct (Str.split1 dot propname) as [|e [|p [|]]];
      try (split; [reflexivity | right; reflexivity]).
    cbn [unpack2].
    unfold ModelMixin2.invoke, ModelMixin2.models_lookup, bind, ret. rewrite Hl.
    split; [reflexivity | left; reflexivity].
Qed.

Lemma run_model_fan_out_witness :
  calls_within (run_model 3 "pore.seed@" None) Examples.g9_domains_only
               ["pore.seed@left"; "pore.seed@right"]
  /\ state_of (run_model 3 "pore.seedx" None Examples.g9_domains_only)
     = Examples.g9_domains_only.
Proof.
  split.
  - apply (proj1 (run_model_fan_out 3 "pore.seed@" Examples.g9_domains_only)). reflexivity.
  - apply (proj2 (run_model_fan_out 3 "pore.seedx" Examples.g9_domains_only));
      reflexivity.
Defined.

(** C1 as stated fails: with only the [@]-qualified entries
    [pore.seed@left] and [pore.seed@right] registered, running the bare name
    [pore.seed] raises the missing-key error and calls no model. *)
Lemma bare_name_counterexample :
  Dict.keys (models Examples.g9_domains_only) = ["pore.seed@left"; "pore.seed@right"]
  /\ Str.contains at_sign "pore.seed" = false
  /\ forall fuel,
       run_model fuel "pore.seed" None Examples.g9_domains_only
       = Raise (KeyError "pore.seed") Examples.g9_domains_only.
Proof. repeat split. Qed.

(** C6 (regeneration order), as amended.  [regenerate_models()] calls
    [run_model(item)] for each registered name, in registration order and
    with no reordering.  The call for a name without [@] calls the model
    registered under it, once.  The call for a name with [@] goes through
    the registered names that start with it, and for each calls the model
    registered under [element.prop] of the name called, [@], the last
    dot-segment of what follows the last [@] of the name found.  The
    models called are this sequence ([trace_regen]), up to the first call
    that raises.  When the registered names are distinct, every name with
    an [@] is the name its own run looks up (the form [element.prop@domain]
    that [add_model] gives it, the domain without dot or [@]) and is a
    prefix of no other registered name, the sequence is the registered
    names themselves, each once. *)
Theorem regenerate_models_in_order fuel w :
  regenerate_models fuel w
  = for_each (Dict.keys (models w)) (fun item => run_model fuel item None) w
  /\ calls_within (regenerate_models fuel) w (trace_regen (Dict.keys (models w)))
  /\ (prefix_free (Dict.keys (models w)) ->
      trace_regen (Dict.keys (models w)) = Dict.keys (models w)).
Proof.
  split; [reflexivity|]. split.
  - apply cw_regenerate_models; apply frame_accessors.
  - apply trace_regen_prefix_free.
Qed.

Lemma g9_models_prefix_free : prefix_free (Dict.keys (models Examples.g9_models)).
Proof.
  split.
  - repeat constructor; simpl; intuition discriminate.
  - intros item Hin Hat. simpl in Hin.
    destruct Hin as [<-|[<-|[<-|[]]]]; try discriminate Hat;
      (split; [reflexivity|]);
      intros item' Hin' Hst; simpl in Hin';
      destruct Hin' as [<-|[<-|[<-|[]]]]; try reflexivity; discriminate Hst.
Qed.

Lemma regenerate_models_in_order_witness :
  raised (regenerate_models 3 Examples.g9_models) = None
  /\ calls (state_of (regenerate_models 3 Examples.g9_models))
     = ["pore.seed@left"; "pore.seed@right"; "pore.seedx"].
Proof.
  assert (Hr : raised (regenerate_models 3 Examples.g9_models) = None)
    by (vm_compute; reflexivity).
  split; [exact Hr|].
  destruct (regenerate_models_in_order 3 Examples.g9_models)
    as (_ & (_ & done & rest & Hc & He & Hrest) & Hpf).
  rewrite (Hpf g9_models_prefix_free), (Hrest Hr), app_nil_r in He.
  rewrite Hc, <- He. reflexivity.
Defined.

(** C6 as stated fails in two ways.  When a qualified name is a prefix of
    another: with [pore.seed@left] and [pore.seed@left2] registered,
    regeneration runs [pore.seed@left2] twice, once from the fan-out of
    [pore.seed@left] and once for itself.  And when a name is not the one
    its own run looks up: with [pore.seed@x.left] and [pore.seed@left]
    registered, neither a prefix of the other, the run of the first looks
    up [pore.seed@left], which is so called twice, and the model registered
    under [pore.seed@x.left] is never called. *)
Lemma prefix_counterexample :
  (Dict.keys (models Examples.g3_prefix) = ["pore.seed@left"; "pore.seed@left2"]
   /\ raised (regenerate_models 3 Examples.g3_prefix) = None
   /\ calls (state_of (regenerate_models 3 Examples.g3_prefix))
      = ["pore.seed@left"; "pore.seed@left2"; "pore.seed@left2"]
   /\ count_occ string_dec (calls (state_of (regenerate_models 3 Examples.g3_prefix)))
        "pore.seed@left2" = 2)
  /\ (Dict.keys (models Examples.g3_unqualified) = ["pore.seed@x.left"; "pore.seed@left"]
      /\ Str.startswith "pore.seed@left" "pore.seed@x.left" = false
      /\ Str.startswith "pore.seed@x.left" "pore.seed@left" = false
      /\ raised (regenerate_models 3 Examples.g3_unqualified) = None
      /\ calls (state_of (regenerate_models 3 Examples.g3_unqualified))
         = ["pore.seed@left"; "pore.seed@left"]).
Proof. repeat split; vm_compute; reflexivity. Qed.


(** The names [add_model] builds for a property [element.prop] and a domain
    are in the form [prefix_free] asks for: running such a name looks up the
    name itself. *)
Lemma qualified_of_add_model propname e p d :
  Str.contains at_sign propname = false ->
  Str.split1 dot propname = [e; p] ->
  Str.contains at_sign d = false ->
  Str.contains dot d = false ->
  qualified (propname ++ "@" ++ d)
            (Str.last_item (Str.split at_sign (propname ++ "@" ++ d)))
  = Some (propname ++ "@" ++ d).
Proof.
  intros Hp Hs Hd Hdd. unfold qualified.
  change (propname ++ "@" ++ d) with (propname ++ String at_sign d).
  rewrite (split_app_sep _ _ _ Hp), (split_none _ _ Hd).
  cbn [hd Str.last_item last]. rewrite Hs, (split_none _ _ Hdd).
  cbn [Str.last_item last].
  rewrite <- (split1_join _ _ _ Hs). reflexivity.
Qed.


(* ------------------------------------------------------------------ *)
(** * Further properties of the store *)

(** ** Deleting keys *)

Lemma keys_update_NoDup V k (v : V) d :
  NoDup (Dict.keys d) -> NoDup (Dict.keys (Dict.update k v d)).
Proof.
  unfold Dict.keys. induction d as [|[k0 v0] d IH]; simpl; intros Hnd.
  - constructor; [intros [] | constructor].
  - inversion Hnd as [|? ? Hn Hnd']; subst.
    destruct (String.eqb_spec k k0) as [->|Hne]; simpl.
    + constructor; assumption.
    + constructor; [|apply IH, Hnd'].
      intros Hin. apply in_map_iff in Hin. destruct Hin as [[k1 v1] [E Hin]].
      simpl in E. subst k1. apply In_update in Hin.
      destruct Hin as [[E _] | Hin]; [congruence|].
      apply Hn. apply in_map_iff. exists (k0, v1). split; [reflexivity | exact Hin].
Qed.

(** With distinct keys, [del d[k]] keeps exactly the entries whose key is
    not [k], in their order. *)
Lemma remove_filter V k (d : Dict.t V) :
  NoDup (Dict.keys d) ->
  Dict.remove k d = filter (fun kv => negb (String.eqb k (fst kv))) d.
Proof.
  unfold Dict.keys. induction d as [|[k0 v0] d IH]; simpl; intros Hnd; [reflexivity|].
  inversion Hnd as [|? ? Hn Hnd']; subst.
  destruct (String.eqb_spec k k0) as [->|Hne]; simpl.
  - symmetry. apply forallb_filter_id.
    apply forallb_forall. intros [k1 v1] Hin. simpl.
    destruct (String.eqb_spec k0 k1) as [->|]; [|reflexivity].
    exfalso. apply Hn. apply in_map_iff. exists (k1, v1). split; [reflexivity | exact Hin].
  - rewrite (IH Hnd'). reflexivity.
Qed.

Lemma lookup_filter_key V (p : string -> bool) k (d : Dict.t V) :
  Dict.lookup k (filter (fun kv => p (fst kv)) d)
  = if p k then Dict.lookup k d else None.
Proof.
  induction d as [|[k0 v0] d IH]; simpl; [destruct (p k); reflexivity|].
  destruct (p k0) eqn:E0; simpl.
  - destruct (String.eqb_spec k k0) as [->|Hne]; [rewrite E0; reflexivity | exact IH].
  - destruct (String.eqb_spec k k0) as [->|Hne]; [rewrite E0 in *; exact IH | exact IH].
Qed.

Lemma filter_NoDup_keys V (p : string * V -> bool) (d : Dict.t V) :
  NoDup (Dict.keys d) -> NoDup (Dict.keys (filter p d)).
Proof.
  unfold Dict.keys. induction d as [|[k0 v0] d IH]; simpl; intros Hnd; [constructor|].
  inversion Hnd as [|? ? Hn Hnd']; subst.
  destruct (p (k0, v0)); simpl; [|apply IH, Hnd'].
  constructor; [|apply IH, Hnd'].
  intros Hin. apply Hn. apply in_map_iff in Hin. destruct Hin as [kv [E Hin]].
  apply filter_In in Hin. apply in_map_iff. exists kv. split; [exact E | apply Hin].
Qed.

(** Deleting a stored key removes that entry and nothing else: the other
    entries keep their values and their order, and no error is raised. *)
Theorem delete_stored_key c fuel key v w :
  NoDup (Dict.keys (items w)) ->
  Dict.lookup key (items w) = Some v ->
  delitem c (S fuel) key w
  = Ok tt (set_items (filter (fun kv => negb (String.eqb key (fst kv))) (items w)) w)
  /\ Dict.lookup key (items (state_of (delitem c (S fuel) key w))) = None
  /\ forall k', k' <> key ->
       Dict.lookup k' (items (state_of (delitem c (S fuel) key w)))
       = Dict.lookup k' (items w).
Proof.
  intros Hnd Hl.
  assert (E : delitem c (S fuel) key w
              = Ok tt (set_items (filter (fun kv => negb (String.eqb key (fst kv)))
                                         (items w)) w)).
  { cbn [delitem]. unfold Base2.__delitem__, gets. mstep. rewrite Hl.
    unfold modify. rewrite (remove_filter _ key (items w) Hnd). reflexivity. }
  rewrite E. split; [reflexivity|]. cbn [state_of items set_items]. split.
  - rewrite (lookup_filter_key _ (fun k => negb (String.eqb key k))).
    rewrite String.eqb_refl. reflexivity.
  - intros k' Hne.
    rewrite (lookup_filter_key _ (fun k => negb (String.eqb key k))).
    destruct (String.eqb_spec key k'); [congruence | reflexivity].
Qed.

Lemma g3_group_NoDup : NoDup (Dict.keys (items Examples.g3_group)).
Proof. repeat constructor; simpl; intuition discriminate. Qed.

Lemma delete_stored_key_witness :
  delitem CDomain 1 "pore.nested.name1" Examples.g3_group
  = Ok tt (set_items (filter (fun kv => negb (String.eqb "pore.nested.name1" (fst kv)))
                             (items Examples.g3_group)) Examples.g3_group)
  /\ Dict.lookup "pore.nested.name1"
       (items (state_of (delitem CDomain 1 "pore.nested.name1" Examples.g3_group))) = None
  /\ forall k', k' <> "pore.nested.name1" ->
       Dict.lookup k' (items (state_of (delitem CDomain 1 "pore.nested.name1" Examples.g3_group)))
       = Dict.lookup k' (items Examples.g3_group).
Proof.
  apply (delete_stored_key CDomain 0 "pore.nested.name1"
           (Examples.floats [10%Q; 10%Q; 10%Q]) Examples.g3_group g3_group_NoDup).
  reflexivity.
Defined.

(** A loop of state changes is the fold of the changes. *)
Lemma for_each_modify X (l : list X) (g : X -> obj -> obj) w :
  for_each l (fun x => modify (g x)) w = Ok tt (fold_left (fun acc x => g x acc) l w).
Proof.
  revert w. induction l as [|x l IH]; intros w; simpl; [reflexivity|].
  unfold bind, modify at 1. apply IH.
Qed.

Lemma filter_twice X (p q : X -> bool) l :
  filter p (filter q l) = filter (fun x => q x && p x) l.
Proof.
  induction l as [|x l IH]; simpl; [reflexivity|].
  destruct (q x); simpl; [destruct (p x)|]; rewrite ?IH; reflexivity.
Qed.

Lemma fold_remove_filter V (ks : list string) : forall d : Dict.t V,
  NoDup (Dict.keys d) ->
  fold_left (fun acc k => Dict.remove k acc) ks d
  = filter (fun kv => negb (Str.mem (fst kv) ks)) d.
Proof.
  induction ks as [|k ks IH]; intros d Hnd; simpl.
  - symmetry. apply forallb_filter_id. apply forallb_forall. intros; reflexivity.
  - rewrite IH by (rewrite remove_filter by exact Hnd; apply filter_NoDup_keys, Hnd).
    rewrite remove_filter by exact Hnd.
    rewrite filter_twice. apply filter_ext. intros [k0 v0]. cbn [fst].
    unfold Str.mem. cbn [existsb].
    rewrite (String.eqb_sym k0 k).
    destruct (String.eqb k k0); reflexivity.
Qed.

Lemma fold_remove_items (ks : list string) w :
  fold_left (fun acc k => set_items (Dict.remove k (items acc)) acc) ks w
  = set_items (fold_left (fun d k => Dict.remove k d) ks (items w)) w.
Proof.
  revert w. induction ks as [|k ks IH]; intros w; simpl.
  - destruct w; reflexivity.
  - rewrite IH. reflexivity.
Qed.

Lemma fold_left_keys X Y (f : obj -> Y -> obj) (g : X -> Y) l w :
  fold_left (fun acc x => f acc (g x)) l w = fold_left f (map g l) w.
Proof. revert w. induction l as [|x l IH]; intros w; simpl; [reflexivity | apply IH]. Qed.

Lemma mem_keys_filter (P : string -> bool) (d : Dict.t np.ndarray) k v :
  In (k, v) d ->
  Str.mem k (map fst (filter (fun kv => P (fst kv)) d)) = P k.
Proof.
  intros Hin. unfold Str.mem.
  destruct (P k) eqn:E.
  - apply existsb_exists. exists k. split; [|apply String.eqb_refl].
    apply in_map_iff. exists (k, v). split; [reflexivity|].
    apply filter_In. split; [exact Hin | exact E].
  - destruct (existsb (String.eqb k) _) eqn:Ex; [|reflexivity].
    apply existsb_exists in Ex. destruct Ex as [k' [Hin' Heq]].
    apply String.eqb_eq in Heq. subst k'.
    apply in_map_iff in Hin'. destruct Hin' as [[k1 v1] [E1 Hf]].
    simpl in E1. subst k1. apply filter_In in Hf. simpl in Hf. destruct Hf as [_ Hf].
    congruence.
Qed.

(** Deleting a group.  In a store with distinct keys, for a key with a dot
    (on a [Domain]: without [@]) that is not stored, whose second
    dot-separated segment is not the object's name, and under which stored
    keys lie (they start with [key + "."]): the deletion removes every
    stored entry whose key starts with [key + "."], and nothing else. *)
Theorem delete_group c fuel key e p w :
  c = CBase2 \/ Str.contains at_sign key = false ->
  NoDup (Dict.keys (items w)) ->
  Str.split1 dot key = [e; p] ->
  Dict.lookup key (items w) = None ->
  Str.item 1 (Str.split dot key) <> Some (name w) ->
  group_of key w <> [] ->
  delitem c (S (S fuel)) key w
  = Ok tt (set_items
             (filter (fun kv => negb (Str.startswith (fst kv) (key ++ "."))) (items w)) w).
Proof.
  intros Hc Hnd Hs Hl Hi Hg.
  cbn [delitem]. unfold Base2.__delitem__, gets at 1. mstep. rewrite Hl.
  rewrite (bind_Ok _ _ _ _ w (PyDict (group_of key w)) w).
  2:{ rewrite (getitem_group c fuel key e p w Hc Hs Hl Hi).
      destruct (group_of key w); [contradiction | reflexivity]. }
  rewrite (for_each_modify _ _ (fun kv acc => set_items (Dict.remove (fst kv) (items acc)) acc)).
  f_equal.
  rewrite (fold_left_keys _ _ (fun acc k => set_items (Dict.remove k (items acc)) acc) fst).
  rewrite fold_remove_items, fold_remove_filter by exact Hnd.
  f_equal. unfold group_of. rewrite map_map.
  rewrite (map_ext (fun kv : string * np.ndarray => fst (fst kv, PyArr (snd kv))) fst)
    by reflexivity.
  apply filter_ext_in. intros [k v] Hin. cbn [fst].
  rewrite (mem_keys_filter (fun k => Str.startswith k (key ++ ".")) _ k v Hin).
  reflexivity.
Qed.

Lemma delete_group_witness :
  delitem CDomain 2 "pore.nested" Examples.g3_group
  = Ok tt (set_items
             (filter (fun kv => negb (Str.startswith (fst kv) ("pore.nested" ++ ".")))
                     (items Examples.g3_group)) Examples.g3_group).
Proof.
  apply (delete_group CDomain 0 "pore.nested" "pore" "nested" Examples.g3_group);
    try reflexivity; try discriminate.
  - right. reflexivity.
  - exact g3_group_NoDup.
Defined.

(** Deleting, on a [Base2] or with a key without [@] on a [Domain], a key
    that is neither stored nor a group fails and changes nothing: with the
    key-not-found error when the key has a dot and its second dot-separated
    segment is not the object's name, with the unpack error when it has no
    dot. *)
Theorem delete_missing c fuel key w :
  c = CBase2 \/ Str.contains at_sign key = false ->
  Dict.lookup key (items w) = None ->
  (forall e p, Str.split1 dot key = [e; p] ->
     Str.item 1 (Str.split dot key) <> Some (name w) ->
     group_of key w = [] ->
     delitem c (S (S fuel)) key w = Raise (KeyError key) w)
  /\ (Str.contains dot key = false ->
      delitem c (S (S fuel)) key w = Raise (ValueError msg_unpack) w).
Proof.
  intros Hc Hl. split.
  - intros e p Hs Hi Hg.
    cbn [delitem]. unfold Base2.__delitem__, gets at 1. mstep. rewrite Hl.
    apply bind_Raise.
    rewrite (getitem_group c fuel key e p w Hc Hs Hl Hi), Hg. reflexivity.
  - intros Hd.
    cbn [delitem]. unfold Base2.__delitem__, gets at 1. mstep. rewrite Hl.
    apply bind_Raise. apply getitem_no_dot, Hd.
Qed.

Lemma delete_missing_witness :
  delitem CDomain 2 "pore.nested.fail" Examples.g3_group
  = Raise (KeyError "pore.nested.fail") Examples.g3_group
  /\ delitem CDomain 2 "pore" Examples.g3_group
     = Raise (ValueError msg_unpack) Examples.g3_group.
Proof.
  split.
  - apply (proj1 (delete_missing CDomain 0 "pore.nested.fail" Examples.g3_group
                    (or_intror eq_refl) eq_refl) "pore" "nested.fail");
      [reflexivity | discriminate | reflexivity].
  - apply (proj2 (delete_missing CDomain 0 "pore" Examples.g3_group
                    (or_intror eq_refl) eq_refl)).
    reflexivity.
Defined.


(** ** Registering models *)

Lemma keys_update V k (v : V) d :
  Dict.keys (Dict.update k v d)
  = match Dict.lookup k d with
    | Some _ => Dict.keys d
    | None => (Dict.keys d ++ [k])%list
    end.
Proof.
  unfold Dict.keys. induction d as [|[k0 v0] d IH]; simpl; [reflexivity|].
  destruct (String.eqb_spec k k0) as [->|Hne]; simpl; [reflexivity|].
  rewrite IH. destruct (Dict.lookup k d); reflexivity.
Qed.

Lemma update_update V k (v1 v2 : V) d :
  Dict.update k v2 (Dict.update k v1 d) = Dict.update k v2 d.
Proof.
  induction d as [|[k0 v0] d IH]; simpl.
  - rewrite String.eqb_refl. reflexivity.
  - destruct (String.eqb_spec k k0) as [->|Hne]; simpl.
    + rewrite String.eqb_refl. reflexivity.
    + destruct (String.eqb_spec k k0); [contradiction|]. rewrite IH. reflexivity.
Qed.

(** [add_model] never raises and touches the registry only: the entry of
    the qualified name becomes the given specification, every other entry
    is as before, and the order of registration is kept: a name registered
    before keeps its place, a new name goes last. *)
Theorem add_model_registers propname mdl domain mode kw w :
  let q := registered_name propname domain in
  let w' := state_of (ModelMixin2.add_model propname mdl domain mode kw w) in
  raised (ModelMixin2.add_model propname mdl domain mode kw w) = None
  /\ Dict.lookup q (models w') = Some (mk_spec mdl mode kw)
  /\ (forall q', q' <> q -> Dict.lookup q' (models w') = Dict.lookup q' (models w))
  /\ Dict.keys (models w')
     = match Dict.lookup q (models w) with
       | Some _ => Dict.keys (models w)
       | None => (Dict.keys (models w) ++ [q])%list
       end
  /\ items w' = items w /\ calls w' = calls w /\ name w' = name w.
Proof.
  cbv zeta. unfold ModelMixin2.add_model, registered_name, modify.
  cbn [state_of raised models set_models items calls name].
  split; [reflexivity|]. split; [apply lookup_update_same|].
  split; [intros q' Hne; apply lookup_update_other, Hne|].
  split; [apply keys_update|]. repeat split.
Qed.

(** Registering twice under the same qualified name leaves one entry, the
    second one: the first registration is replaced wholesale. *)
Theorem add_model_twice propname m1 m2 domain r1 r2 k1 k2 w :
  ModelMixin2.add_model propname m2 domain r2 k2
    (state_of (ModelMixin2.add_model propname m1 domain r1 k1 w))
  = ModelMixin2.add_model propname m2 domain r2 k2 w.
Proof.
  unfold ModelMixin2.add_model, modify. cbn [state_of set_models models items name calls].
  rewrite update_update. reflexivity.
Qed.

(** ** Domains, in full and abbreviated *)

Lemma split_two c a b : exists h t, Str.split c (a ++ String c b) = h :: t /\ t <> [].
Proof.
  induction a as [|x a IH]; simpl.
  - rewrite Ascii.eqb_refl. exists "", (Str.split c b). split; [reflexivity|].
    destruct b as [|y b]; simpl; [discriminate|].
    destruct (Ascii.eqb y c); [discriminate|].
    destruct (Str.split c b); discriminate.
  - destruct IH as (h & t & E & Ht). rewrite E.
    destruct (Ascii.eqb x c).
    + exists "", (h :: t). split; [reflexivity | discriminate].
    + exists (String x h), t. split; [reflexivity | exact Ht].
Qed.

(** Only the text after the last dot of a domain counts. *)
Lemma last_item_split_app c a b :
  Str.last_item (Str.split c (a ++ String c b)) = Str.last_item (Str.split c b).
Proof.
  unfold Str.last_item. induction a as [|x a IH]; simpl.
  - rewrite Ascii.eqb_refl.
    destruct (Str.split c b) eqn:E; [|reflexivity].
    exfalso. destruct b as [|y b]; simpl in E; [discriminate|].
    destruct (Ascii.eqb y c); [discriminate|].
    destruct (Str.split c b); discriminate.
  - destruct (split_two c a b) as (h & t & E & Ht). rewrite E in *.
    destruct (Ascii.eqb x c).
    + exact IH.
    + rewrite <- IH. destruct t; [contradiction | reflexivity].
Qed.

(** A domain may be given in full ([pore.left]) or abbreviated ([left]):
    only its last dot-separated segment is used, so both forms register
    under the same name, run the same model, and address the same entries. *)
Theorem domain_abbreviation pre d :
  (forall propname mdl mode kw,
     ModelMixin2.add_model propname mdl (Some (pre ++ "." ++ d)) mode kw
     = ModelMixin2.add_model propname mdl (Some d) mode kw)
  /\ (forall fuel propname,
        run_model fuel propname (Some (pre ++ "." ++ d))
        = run_model fuel propname (Some d))
  /\ (forall fuel a,
        Str.contains at_sign a = false ->
        Str.contains at_sign pre = false ->
        Str.contains at_sign d = false ->
        (forall w, getitem CDomain (S fuel) (a ++ "@" ++ pre ++ "." ++ d) w
                   = getitem CDomain (S fuel) (a ++ "@" ++ d) w)
        /\ (forall value w,
              setitem CDomain (S fuel) (a ++ "@" ++ pre ++ "." ++ d) value w
              = setitem CDomain (S fuel) (a ++ "@" ++ d) value w)).
Proof.
  assert (Hlast : Str.last_item (Str.split dot (pre ++ "." ++ d))
                  = Str.last_item (Str.split dot d))
    by (apply (last_item_split_app dot pre d)).
  split; [|split].
  - intros. unfold ModelMixin2.add_model. rewrite Hlast. reflexivity.
  - intros. unfold run_model, ModelMixin2.run_model, ModelMixin2.run_model_on.
    rewrite Hlast. reflexivity.
  - intros fuel a Ha Hpre Hd.
    assert (Hc1 : Str.contains at_sign (a ++ "@" ++ pre ++ "." ++ d) = true).
    { rewrite contains_app. simpl. apply Bool.orb_true_r. }
    assert (Hc2 : Str.contains at_sign (a ++ "@" ++ d) = true).
    { rewrite contains_app. simpl. apply Bool.orb_true_r. }
    assert (Hparse : forall w, Domain.parse (a ++ "@" ++ pre ++ "." ++ d) w
                               = Domain.parse (a ++ "@" ++ d) w).
    { intros w. unfold Domain.parse.
      change (a ++ "@" ++ pre ++ "." ++ d) with (a ++ String at_sign (pre ++ "." ++ d)).
      change (a ++ "@" ++ d) with (a ++ String at_sign d).
      rewrite !(split_app_sep _ _ _ Ha).
      rewrite (split_none at_sign (pre ++ "." ++ d))
        by (rewrite contains_app, Hpre; simpl; exact Hd).
      rewrite (split_none at_sign d Hd).
      cbn [hd Str.item nth_error]. rewrite Hlast. reflexivity. }
    split.
    + intros w. cbn [getitem]. unfold Domain.__getitem__. rewrite Hc1, Hc2.
      unfold bind at 1 4. rewrite Hparse. reflexivity.
    + intros value w. cbn [setitem]. unfold Domain.__setitem__. rewrite Hc1, Hc2.
      unfold bind at 1. unfold bind at 7. rewrite Hparse. reflexivity.
Qed.


(** ** Masked writes into an existing array *)

Section SelectMore.
Variable X : Type.



End SelectMore.

(** Writing [k] rows under a mask of [n] entries, [k] of them true, into an
    array of [n] rows: the rows under the mask become the rows written, in
    order, the others stay, and reading under the mask gives the rows
    written back. *)
Lemma scatter_rows (A : Type) (inj : A -> scalar) (a : np.arr A) m tr (vdata : list A) :
  np.shape a = length m :: tr ->
  length (np.data a) = length m * np.prod tr ->
  length vdata = np.count_true m * np.prod tr ->
  exists r,
    np.scatter a (np.mk_arr [length m] m) (np.count_true m :: tr) vdata = Val r
    /\ np.shape r = np.shape a
    /\ np.gather r (np.mk_arr [length m] m) = Val (np.mk_arr (np.count_true m :: tr) vdata)
    /\ np.select m (np.chunks (np.prod tr) (length m) (map inj (np.data r)))
       = np.chunks (np.prod tr) (np.count_true m) (map inj vdata)
    /\ np.select (map negb m) (np.chunks (np.prod tr) (length m) (map inj (np.data r)))
       = np.select (map negb m) (np.chunks (np.prod tr) (length m) (map inj (np.data a))).
Proof.
  intros Hs Ha Hv. destruct a as [sh d]. cbn [np.shape np.data] in *. subst sh.
  set (old := np.chunks (np.prod tr) (length m) d).
  set (new := np.chunks (np.prod tr) (np.count_true m) vdata).
  assert (HFo : Forall (fun r : list A => length r = np.prod tr) old)
    by (apply chunks_Forall, Ha).
  assert (HFn : Forall (fun r : list A => length r = np.prod tr) new)
    by (apply chunks_Forall, Hv).
  assert (HF : Forall (fun r : list A => length r = np.prod tr) (np.put m old new))
    by (apply put_Forall; assumption).
  assert (Hlo : length old = length m) by apply chunks_length.
  assert (Hln : length new = np.count_true m) by apply chunks_length.
  exists (np.mk_arr (length m :: tr) (concat (np.put m old new))).
  split; [|split; [reflexivity|split; [|split]]].
  - unfold np.scatter. cbn [np.shape np.data]. rewrite mask_fits_1d.
    unfold np.block. cbn [length skipn].
    rewrite broadcast_to_same by (simpl; exact Hv). reflexivity.
  - rewrite (gather_scattered A m tr old new (length m) eq_refl Hlo Hln HFo HFn).
    unfold new. rewrite concat_chunks by exact Hv. reflexivity.
  - cbn [np.data]. rewrite !chunks_map.
    replace (length m) with (length (np.put m old new)) at 1
      by (rewrite put_length; exact Hlo).
    rewrite (chunks_concat _ _ _ HF), select_map, select_put by assumption.
    reflexivity.
  - cbn [np.data]. rewrite !chunks_map.
    replace (length m) with (length (np.put m old new)) at 1
      by (rewrite put_length; exact Hlo).
    rewrite (chunks_concat _ _ _ HF), !select_map, select_neg_put. reflexivity.
Qed.

(** The same for numpy arrays of either dtype: the value is cast to the
    dtype of the array written into, whose shape and dtype stay. *)
Lemma setmask_rows old v m tr :
  np.shape_of old = length m :: tr -> np.wf old ->
  np.shape_of v = np.count_true m :: tr -> np.wf v ->
  exists full,
    np.setmask old (np.ABool (np.mk_arr [length m] m)) (np.OArr v) = Val full
    /\ np.shape_of full = np.shape_of old
    /\ np.is_bool full = np.is_bool old
    /\ np.getmask full (np.ABool (np.mk_arr [length m] m)) = Val (cast_like old v)
    /\ np.select m (rows full) = rows (cast_like old v)
    /\ np.select (map negb m) (rows full) = np.select (map negb m) (rows old).
Proof.
  intros Hso Hwo Hsv Hwv. unfold np.wf in *.
  destruct old as [a|a], v as [[vs vd]|[vs vd]];
    cbn [np.shape_of np.size_of np.shape np.data] in *; subst vs;
    cbn [np.prod fold_right] in Hwo, Hwv; rewrite Hso in Hwo;
    cbn [np.prod fold_right] in Hwo;
    change (fold_right Nat.mul 1 tr) with (np.prod tr) in *.
  - destruct (scatter_rows bool SBool a m tr vd Hso Hwo Hwv)
      as (r & Hsc & Hsh & Hga & Hin & Hout).
    exists (np.ABool r). unfold np.setmask, np.getmask, rows, cast_like.
    cbn [np.as_bool_data np.operand_shape np.shape_of np.shape np.data np.is_bool
         elems tl hd].
    rewrite Hso, mask_fits_1d, Hsc, Hga. unfold np.trailing.
    cbn [np.shape_of np.shape np.data]. rewrite ?Hsh, ?Hso. cbn [tl hd].
    repeat split; assumption.
  - assert (Hwv' : length (map np.to_bool vd) = np.count_true m * np.prod tr)
      by (rewrite length_map; exact Hwv).
    destruct (scatter_rows bool SBool a m tr (map np.to_bool vd) Hso Hwo Hwv')
      as (r & Hsc & Hsh & Hga & Hin & Hout).
    exists (np.ABool r). unfold np.setmask, np.getmask, rows, cast_like.
    cbn [np.as_bool_data np.operand_shape np.shape_of np.shape np.data np.is_bool
         elems tl hd].
    rewrite Hso, mask_fits_1d, Hsc, Hga. unfold np.trailing.
    cbn [np.shape_of np.shape np.data]. rewrite ?Hsh, ?Hso. cbn [tl hd].
    repeat split; assumption.
  - assert (Hwv' : length (map np.of_bool vd) = np.count_true m * np.prod tr)
      by (rewrite length_map; exact Hwv).
    destruct (scatter_rows np.flt SFloat a m tr (map np.of_bool vd) Hso Hwo Hwv')
      as (r & Hsc & Hsh & Hga & Hin & Hout).
    exists (np.AFloat r). unfold np.setmask, np.getmask, rows, cast_like.
    cbn [np.as_float_data np.operand_shape np.shape_of np.shape np.data np.is_bool
         elems tl hd].
    rewrite Hso, mask_fits_1d, Hsc, Hga. unfold np.trailing.
    cbn [np.shape_of np.shape np.data]. rewrite ?Hsh, ?Hso. cbn [tl hd].
    repeat split; assumption.
  - destruct (scatter_rows np.flt SFloat a m tr vd Hso Hwo Hwv)
      as (r & Hsc & Hsh & Hga & Hin & Hout).
    exists (np.AFloat r). unfold np.setmask, np.getmask, rows, cast_like.
    cbn [np.as_float_data np.operand_shape np.shape_of np.shape np.data np.is_bool
         elems tl hd].
    rewrite Hso, mask_fits_1d, Hsc, Hga. unfold np.trailing.
    cbn [np.shape_of np.shape np.data]. rewrite ?Hsh, ?Hso. cbn [tl hd].
    repeat split; assumption.
Qed.


(** ** Domain keys on stored properties *)

Lemma split1_kind element prop :
  In element kinds -> Str.split1 dot (element ++ "." ++ prop) = [element; prop].
Proof. unfold kinds. simpl. intros [<-|[<-|[]]]; reflexivity. Qed.

Lemma contains_kind_key element prop :
  In element kinds -> Str.contains at_sign prop = false ->
  Str.contains at_sign (element ++ "." ++ prop) = false.
Proof. unfold kinds. simpl. intros [<-|[<-|[]]] H; simpl; exact H. Qed.

Lemma contains_domain_key element prop domain :
  Str.contains at_sign (element ++ "." ++ prop ++ "@" ++ domain) = true.
Proof.
  rewrite !contains_app. simpl. rewrite !Bool.orb_true_r. reflexivity.
Qed.

(** The key [element.prop@domain] is read as its three pieces. *)
Lemma parse_key element prop domain w :
  In element kinds ->
  Str.contains at_sign prop = false ->
  Str.contains at_sign domain = false ->
  Str.contains dot domain = false ->
  Domain.parse (element ++ "." ++ prop ++ "@" ++ domain) w = Ok (element, prop, domain) w.
Proof.
  intros Hk Hp Hd Hdd. unfold Domain.parse.
  replace (element ++ "." ++ prop ++ "@" ++ domain)
    with ((element ++ "." ++ prop) ++ String at_sign domain)
    by (rewrite !app_assoc_str; reflexivity).
  rewrite split_app_sep by (apply contains_kind_key; assumption).
  rewrite (split_none _ _ Hd). cbn [hd Str.item nth_error].
  rewrite (split1_kind _ _ Hk).
  mstep. rewrite (split_none _ _ Hdd). reflexivity.
Qed.

(** Storing an array whose leading length is the established count, under
    any key of the kind. *)
Lemma write_array_store key element prop v N w :
  Str.split1 dot key = [element; prop] -> In element kinds ->
  Base2._count element w = Ok (Some N) w ->
  np.shape0 v = Val N ->
  Base2.write_array key v w = Ok tt (set_items (Dict.update key v (items w)) w).
Proof.
  intros Hs Hk Hc H0.
  destruct (Str.mem key exempt) eqn:Hx.
  - unfold Base2.write_array. rewrite Hs. mstep.
    rewrite (mem_kinds _ Hk). unfold exempt in Hx. rewrite Hx. reflexivity.
  - apply (write_array_exact key element prop v N w); assumption.
Qed.

Lemma except_KeyError_Ok A (m h : M A) w a w' :
  m w = Ok a w' -> except_KeyError m h w = Ok a w'.
Proof. intros H. unfold except_KeyError. rewrite H. reflexivity. Qed.

Lemma setitem_domain fuel key value :
  setitem CDomain (S fuel) key value
  = Domain.__setitem__ (getitem CDomain fuel) (setitem CDomain fuel) key value.
Proof. reflexivity. Qed.

Lemma getitem_domain fuel key :
  getitem CDomain (S fuel) key
  = Domain.__getitem__ (getitem CDomain fuel) (setitem CDomain fuel) key.
Proof. reflexivity. Qed.

Lemma shape0_of v n tr : np.shape_of v = n :: tr -> np.shape0 v = Val n.
Proof. intros H. unfold np.shape0. rewrite H. reflexivity. Qed.






(** ** Domain keys on what is not stored *)

Lemma Base2_getitem_miss sg ss key e p w :
  Str.split1 dot key = [e; p] ->
  Dict.lookup key (items w) = None ->
  Str.item 1 (Str.split dot key) <> Some (name w) ->
  Base2.__getitem__ sg ss key w
  = match group_of key w with
    | [] => Raise (KeyError key) w
    | g => Ok (PyDict g) w
    end.
Proof.
  intros Hs Hl Hi.
  unfold Base2.__getitem__. rewrite Hs. mstep. unfold gets at 1. mstep.
  rewrite Hl. unfold gets at 1. mstep.
  assert (E : match Str.item 1 (Str.split dot key) with
              | Some s => String.eqb s (name w) | None => false end = false).
  { destruct (Str.item 1 (Str.split dot key)) as [s|]; [|reflexivity].
    destruct (String.eqb_spec s (name w)) as [->|]; [contradiction | reflexivity]. }
  rewrite E. unfold gets. mstep. unfold group_of.
  destruct (filter _ (items w)) as [|kv r]; reflexivity.
Qed.

Lemma item1_kind element nm :
  In element kinds -> Str.contains dot nm = false ->
  Str.item 1 (Str.split dot (element ++ "." ++ nm)) = Some nm.
Proof.
  unfold kinds. simpl. intros [<-|[<-|[]]] H;
    [apply split_pore | apply split_throat]; exact H.
Qed.

(** A key [element.prop@domain] whose label [element.domain] is not stored
    (and is no group, nor the object's own label): reading it, and writing
    anything to it, raises the missing-key error for the label and changes
    nothing; no array is allocated for the property. *)
Theorem domain_unknown_label fuel w element prop domain value :
  In element kinds ->
  Str.contains at_sign prop = false ->
  Str.contains at_sign domain = false ->
  Str.contains dot domain = false ->
  Dict.lookup (element ++ "." ++ domain) (items w) = None ->
  group_of (element ++ "." ++ domain) w = [] ->
  domain <> name w ->
  getitem CDomain (S fuel) (element ++ "." ++ prop ++ "@" ++ domain) w
    = Raise (KeyError (element ++ "." ++ domain)) w
  /\ setitem CDomain (S fuel) (element ++ "." ++ prop ++ "@" ++ domain) value w
    = Raise (KeyError (element ++ "." ++ domain)) w.
Proof.
  intros Hk Hp Hd Hdd Hlab Hg Hn.
  assert (Hmiss : forall sg ss,
            Base2.__getitem__ sg ss (element ++ "." ++ domain) w
            = Raise (KeyError (element ++ "." ++ domain)) w).
  { intros sg ss.
    rewrite (Base2_getitem_miss sg ss _ element domain w (split1_kind _ _ Hk) Hlab).
    - rewrite Hg. reflexivity.
    - rewrite (item1_kind _ _ Hk Hdd). intros E. injection E as E. exact (Hn E). }
  split.
  - rewrite getitem_domain. unfold Domain.__getitem__.
    rewrite contains_domain_key. cbv iota.
    erewrite bind_Ok by (apply parse_key; assumption). mred.
    apply bind_Raise, Hmiss.
  - rewrite setitem_domain. unfold Domain.__setitem__.
    rewrite contains_domain_key. cbv iota.
    erewrite bind_Ok by (apply parse_key; assumption). mred.
    apply bind_Raise, Hmiss.
Qed.

Lemma domain_unknown_label_witness :
  getitem CDomain 1 "pore.seed@top" Examples.g9 = Raise (KeyError "pore.top") Examples.g9
  /\ setitem CDomain 1 "pore.seed@top" PyNone Examples.g9
     = Raise (KeyError "pore.top") Examples.g9.
Proof.
  apply (domain_unknown_label 0 Examples.g9 "pore" "seed" "top" PyNone);
    try reflexivity.
  - left; reflexivity.
  - discriminate.
Defined.

(** Reading [element.prop@domain] for a stored label and a property that is
    not stored, the second dot-separated segment of [element.prop] not being
    the object's name, allocates nothing: it raises the missing-key error
    for the property, or, when [element.prop] is a group of stored keys, the
    type error of indexing a mapping by an array. *)
Theorem domain_read_missing_property fuel w element prop domain lab :
  In element kinds ->
  Str.contains at_sign prop = false ->
  Str.contains at_sign domain = false ->
  Str.contains dot domain = false ->
  Dict.lookup (element ++ "." ++ domain) (items w) = Some lab ->
  Dict.lookup (element ++ "." ++ prop) (items w) = None ->
  Str.item 1 (Str.split dot (element ++ "." ++ prop)) <> Some (name w) ->
  getitem CDomain (S fuel) (element ++ "." ++ prop ++ "@" ++ domain) w
  = match group_of (element ++ "." ++ prop) w with
    | [] => Raise (KeyError (element ++ "." ++ prop)) w
    | _ => Raise TypeError w
    end.
Proof.
  intros Hk Hp Hd Hdd Hlab Hprop Hn.
  rewrite getitem_domain. unfold Domain.__getitem__.
  rewrite contains_domain_key. cbv iota.
  erewrite bind_Ok by (apply parse_key; assumption). mred.
  erewrite bind_Ok
    by (apply (Base2_getitem_hit _ _ _ _ _ _ w (split1_kind _ _ Hk) Hlab)).
  pose proof (Base2_getitem_miss (getitem CDomain fuel) (setitem CDomain fuel)
                _ element prop w (split1_kind _ _ Hk) Hprop Hn) as Hm.
  destruct (group_of (element ++ "." ++ prop) w) as [|kv g].
  - apply bind_Raise, Hm.
  - erewrite bind_Ok by exact Hm. reflexivity.
Qed.

Lemma domain_read_missing_property_witness :
  getitem CDomain 1 "pore.nested@left" Examples.g3_group = Raise TypeError Examples.g3_group.
Proof.
  apply (domain_read_missing_property 0 Examples.g3_group "pore" "nested" "left"
           (Examples.bools [true; false; false]));
    try reflexivity.
  - left; reflexivity.
  - discriminate.
Defined.


(** ** Running one model *)

Lemma count_log_call element q c w :
  Base2._count element w = Ok c w ->
  Base2._count element (log_call q w) = Ok c (log_call q w).
Proof.
  unfold Base2._count. cbn [items log_call].
  destruct (find _ (items w)) as [[k0 v0]|].
  - destruct (np.shape0 v0); intros H; inversion H; reflexivity.
  - intros H; inversion H; reflexivity.
Qed.


Lemma invoke_result q domain spec w :
  Dict.lookup q (models w) = Some spec ->
  ModelMixin2.invoke q domain w
  = match model spec (items w) (name w) domain (kwargs spec) with
    | Val r => Ok r (log_call q w)
    | Err e => Raise e (log_call q w)
    end.
Proof.
  intros Hspec.
  unfold ModelMixin2.invoke, ModelMixin2.models_lookup, bind at 1.
  rewrite Hspec. unfold modify, gets. mred.
  unfold bind. cbn [items name log_call].
  destruct (model spec (items w) (name w) domain (kwargs spec)); reflexivity.
Qed.




(** Running a model registered without a domain: the model is called once
    and the array it returns, when its leading length is the count of its
    kind, is stored whole under the property name, where a read finds it. *)
Theorem run_model_global_stores fuel w propname element prop spec a N :
  Str.contains at_sign propname = false ->
  Str.split1 dot propname = [element; prop] ->
  In element kinds ->
  Dict.lookup propname (models w) = Some spec ->
  model spec (items w) (name w) None (kwargs spec) = Val (PyArr a) ->
  Base2._count element w = Ok (Some N) w ->
  np.shape0 a = Val N ->
  let w' := set_items (Dict.update propname a (items w)) (log_call propname w) in
  run_model (S fuel) propname None w = Ok tt w'
  /\ getitem CDomain (S fuel) propname w' = Ok (PyArr a) w'.
Proof.
  intros Hc Hs Hk Hspec Hmodel HN Ha. cbv zeta. split.
  - unfold run_model, ModelMixin2.run_model. rewrite Hc, Hs. mstep.
    erewrite bind_Ok
      by (rewrite (invoke_result propname None spec w Hspec), Hmodel; reflexivity).
    rewrite (setitem_plain CDomain fuel propname _ (or_intror Hc)).
    unfold Base2.__setitem__.
    apply (write_array_store propname element prop a N (log_call propname w) Hs Hk);
      [apply count_log_call; exact HN | exact Ha].
  - apply (getitem_hit CDomain fuel propname element prop a _ (or_intror Hc) Hs).
    cbn [items set_items]. apply lookup_update_same.
Qed.

Lemma run_model_global_stores_witness :
  run_model 1 "pore.seedx" None Examples.g3_seeded
  = Ok tt (set_items (Dict.update "pore.seedx" (Examples.floats [0%Q; 0%Q; 0%Q])
                        (items Examples.g3_seeded))
             (log_call "pore.seedx" Examples.g3_seeded))
  /\ getitem CDomain 1 "pore.seedx"
       (set_items (Dict.update "pore.seedx" (Examples.floats [0%Q; 0%Q; 0%Q])
                     (items Examples.g3_seeded))
          (log_call "pore.seedx" Examples.g3_seeded))
     = Ok (PyArr (Examples.floats [0%Q; 0%Q; 0%Q]))
          (set_items (Dict.update "pore.seedx" (Examples.floats [0%Q; 0%Q; 0%Q])
                        (items Examples.g3_seeded))
             (log_call "pore.seedx" Examples.g3_seeded)).
Proof.
  apply (run_model_global_stores 0 Examples.g3_seeded "pore.seedx" "pore" "seedx"
           (mk_spec (Examples.factor "pore.seed" 10) "normal" [])
           (Examples.floats [0%Q; 0%Q; 0%Q]) 3);
    try reflexivity.
  left; reflexivity.
Defined.

(** A model registered without a domain that returns nothing, or raises:
    the call is made and recorded, nothing is stored, and the run returns,
    respectively raises what the model raised. *)
Theorem run_model_global_no_result fuel w propname element prop spec :
  Str.contains at_sign propname = false ->
  Str.split1 dot propname = [element; prop] ->
  Dict.lookup propname (models w) = Some spec ->
  (model spec (items w) (name w) None (kwargs spec) = Val PyNone ->
   run_model (S fuel) propname None w = Ok tt (log_call propname w))
  /\ (forall e,
       model spec (items w) (name w) None (kwargs spec) = Err e ->
       run_model fuel propname None w = Raise e (log_call propname w)).
Proof.
  intros Hc Hs Hspec.
  pose proof (invoke_result propname None spec w Hspec) as Hinv.
  split.
  - intros Hm. rewrite Hm in Hinv.
    unfold run_model, ModelMixin2.run_model. rewrite Hc, Hs. mstep.
    erewrite bind_Ok by exact Hinv.
    rewrite (setitem_plain CDomain fuel propname _ (or_intror Hc)). reflexivity.
  - intros e Hm. rewrite Hm in Hinv.
    unfold run_model, ModelMixin2.run_model. rewrite Hc, Hs. mstep.
    apply bind_Raise. exact Hinv.
Qed.

Lemma run_model_global_no_result_witness :
  run_model 1 "pore.blank" None Examples.g3_seeded
  = Ok tt (log_call "pore.blank" Examples.g3_seeded).
Proof.
  apply (proj1 (run_model_global_no_result 0 Examples.g3_seeded "pore.blank" "pore" "blank"
                  (mk_spec Examples.no_value "normal" []) eq_refl eq_refl eq_refl)).
  reflexivity.
Defined.


(** ** Properties of masks and indices *)

Lemma set_true_length k m : length (set_true k m) = length m.
Proof.
  revert k. induction m as [|b m IH]; intros [|k]; simpl; try reflexivity.
  rewrite IH. reflexivity.
Qed.

Lemma set_true_app p b r :
  set_true (length p) (p ++ b :: r)%list = (p ++ true :: r)%list.
Proof. induction p as [|x p IH]; simpl; [reflexivity | rewrite IH; reflexivity]. Qed.

Lemma set_true_nth k m j :
  k < length m ->
  nth j (set_true k m) false = nth j m false || (k =? j).
Proof.
  revert k j. induction m as [|b m IH]; intros k j Hk; simpl in Hk; [lia|].
  destruct k as [|k], j as [|j]; simpl.
  - rewrite Bool.orb_true_r. reflexivity.
  - rewrite Bool.orb_false_r. reflexivity.
  - rewrite Bool.orb_false_r. reflexivity.
  - apply IH. lia.
Qed.

Lemma wrap_bounds n i :
  in_bounds n i = true -> (0 <= wrap n i < Z.of_nat n)%Z.
Proof.
  unfold in_bounds, wrap. intros H. apply andb_prop in H as [H1 H2].
  apply Z.leb_le in H1. apply Z.ltb_lt in H2.
  destruct (Z.ltb_spec i 0); lia.
Qed.

Lemma wrap_nonneg n i : (0 <= i)%Z -> wrap n i = i.
Proof. unfold wrap. intros H. destruct (Z.ltb_spec i 0); [lia | reflexivity]. Qed.

(** The positions listed by [where_true]. *)
Lemma where_true_In o m j :
  In j (where_true o m) <->
  exists k, j = (o + Z.of_nat k)%Z /\ nth k m false = true.
Proof.
  revert o. induction m as [|b m IH]; intros o; simpl.
  - split; [intros [] | intros (k & _ & H)]. destruct k; discriminate.
  - assert (R : In j (where_true (o + 1) m) <->
                exists k, j = (o + Z.of_nat (S k))%Z /\ nth k m false = true).
    { rewrite IH. split; intros (k & -> & H); exists k; split; (lia || exact H). }
    destruct b; simpl; rewrite R; split.
    + intros [<- | (k & -> & H)]; [exists 0; split; [lia | reflexivity]|].
      exists (S k). split; [reflexivity | exact H].
    + intros ([|k] & -> & H); [left; lia|]. right. exists k. split; [reflexivity | exact H].
    + intros (k & -> & H). exists (S k). split; [reflexivity | exact H].
    + intros ([|k] & -> & H); [discriminate|]. exists k. split; [reflexivity | exact H].
Qed.

Lemma where_true_sorted o m : StronglySorted Z.lt (where_true o m).
Proof.
  revert o. induction m as [|b m IH]; intros o; simpl; [constructor|].
  destruct b; [|apply IH].
  constructor; [apply IH|].
  apply Forall_forall. intros j Hj. apply where_true_In in Hj as (k & -> & _). lia.
Qed.

Lemma where_true_bounds n o m :
  (0 <= o)%Z -> (o + Z.of_nat (length m) <= Z.of_nat n)%Z ->
  forallb (in_bounds n) (where_true o m) = true.
Proof.
  revert o. induction m as [|b m IH]; intros o Ho Hn; simpl in *; [reflexivity|].
  assert (IH' : forallb (in_bounds n) (where_true (o + 1) m) = true)
    by (apply IH; lia).
  destruct b; simpl; [|exact IH']. rewrite IH', Bool.andb_true_r.
  unfold in_bounds. apply andb_true_intro. split; [apply Z.leb_le | apply Z.ltb_lt]; lia.
Qed.

(** Setting the listed positions of a mask gives the mask back. *)
Lemma fold_where_true n p m :
  fold_left (fun acc i => set_true (Z.to_nat (wrap n i)) acc)
            (where_true (Z.of_nat (length p)) m)
            (p ++ repeat false (length m))%list
  = (p ++ m)%list.
Proof.
  revert p. induction m as [|b m IH]; intros p; simpl; [reflexivity|].
  assert (E : (Z.of_nat (length p) + 1)%Z = Z.of_nat (length (p ++ [b])%list))
    by (rewrite length_app; simpl; lia).
  rewrite E.
  destruct b; simpl.
  - rewrite wrap_nonneg by lia. rewrite Nat2Z.id, set_true_app.
    replace (p ++ true :: repeat false (length m))%list
      with ((p ++ [true]) ++ repeat false (length m))%list
      by (rewrite <- app_assoc; reflexivity).
    rewrite IH, <- app_assoc. reflexivity.
  - replace (p ++ false :: repeat false (length m))%list
      with ((p ++ [false]) ++ repeat false (length m))%list
      by (rewrite <- app_assoc; reflexivity).
    rewrite IH, <- app_assoc. reflexivity.
Qed.

Lemma fold_set_true_length n l m :
  length (fold_left (fun acc i => set_true (Z.to_nat (wrap n i)) acc) l m) = length m.
Proof.
  revert m. induction l as [|i l IH]; intros m; simpl; [reflexivity|].
  rewrite IH, set_true_length. reflexivity.
Qed.

Lemma fold_set_true_nth l m j :
  forallb (in_bounds (length m)) l = true ->
  nth j (fold_left (fun acc i => set_true (Z.to_nat (wrap (length m) i)) acc) l m) false
  = nth j m false || existsb (fun i => Z.to_nat (wrap (length m) i) =? j) l.
Proof.
  set (n := length m). assert (Hn : length m = n) by reflexivity. clearbody n.
  revert m Hn. induction l as [|i l IH]; intros m Hn Hb; simpl in *.
  - rewrite Bool.orb_false_r. reflexivity.
  - apply andb_prop in Hb as [Hi Hl].
    rewrite IH by (rewrite ?set_true_length; assumption).
    rewrite set_true_nth by (pose proof (wrap_bounds n i Hi); lia).
    rewrite Bool.orb_assoc. reflexivity.
Qed.

(** Setting the positions of the true entries of a mask, in a mask of the
    same length that is false everywhere, gives the mask. *)
Lemma assign_where_true m :
  assign_true (repeat false (length m)) (IdxInt (to_indices (IdxBool m))) = Val m.
Proof.
  unfold assign_true, to_indices. rewrite repeat_length.
  rewrite where_true_bounds by lia.
  f_equal. exact (fold_where_true (length m) [] m).
Qed.

(** Round trip from a mask: the indices of a mask that has one entry per
    pore (per throat) give the mask back. *)
Theorem to_mask_of_to_indices w m :
  (Base2.Np w = Ok (Some (length m)) w ->
   forall throats,
     to_mask (Some (IdxInt (to_indices (IdxBool m)))) throats w
     = Ok (np.ABool (np.mk_arr [length m] m)) w)
  /\ (Base2.Nt w = Ok (Some (length m)) w ->
      to_mask None (Some (IdxInt (to_indices (IdxBool m)))) w
      = Ok (np.ABool (np.mk_arr [length m] m)) w).
Proof.
  split.
  - intros HN throats. unfold to_mask. mstep. mstep.
    rewrite assign_where_true. reflexivity.
  - intros HN. unfold to_mask. mstep. mstep.
    rewrite assign_where_true. reflexivity.
Qed.

Lemma to_mask_of_to_indices_witness :
  to_mask (Some (IdxInt (to_indices (IdxBool [true; false; true])))) None Examples.g3
  = Ok (np.ABool (np.mk_arr [3] [true; false; true])) Examples.g3.
Proof.
  apply (proj1 (to_mask_of_to_indices Examples.g3 [true; false; true]) eq_refl None).
Defined.

(** The mask of a list of pore indices, all within bounds: it has one entry
    per pore, and its true entries are exactly the positions named by the
    indices, a negative index counting from the end; the indices of that
    mask are those positions in increasing order, each once.  The throats
    argument is not looked at when pores are given. *)
Theorem to_mask_of_indices w N l throats :
  Base2.Np w = Ok (Some N) w ->
  (forall i, In i l -> in_bounds N i = true) ->
  exists mask,
    to_mask (Some (IdxInt l)) throats w = Ok (np.ABool (np.mk_arr [N] mask)) w
    /\ length mask = N
    /\ (forall j, In j (to_indices (IdxBool mask)) <-> exists i, In i l /\ j = wrap N i)
    /\ StronglySorted Z.lt (to_indices (IdxBool mask)).
Proof.
  intros HN Hl.
  assert (Hb : forallb (in_bounds N) l = true)
    by (apply forallb_forall; exact Hl).
  exists (fold_left (fun acc i => set_true (Z.to_nat (wrap N i)) acc) l (repeat false N)).
  split; [|split; [|split]].
  - unfold to_mask. mstep. mstep. unfold assign_true.
    rewrite repeat_length, Hb. reflexivity.
  - rewrite fold_set_true_length. apply repeat_length.
  - intros j. unfold to_indices. rewrite where_true_In.
    pose proof (fold_set_true_nth l (repeat false N)) as Hnth.
    rewrite repeat_length in Hnth.
    split.
    + intros (k & -> & Hk). rewrite (Hnth k Hb) in Hk.
      assert (Hf : nth k (repeat false N) false = false)
        by (rewrite nth_repeat; reflexivity).
      rewrite Hf in Hk. simpl in Hk.
      apply existsb_exists in Hk as (i & Hi & Hik).
      apply Nat.eqb_eq in Hik. exists i. split; [exact Hi|].
      pose proof (wrap_bounds N i (Hl i Hi)). lia.
    + intros (i & Hi & ->).
      pose proof (wrap_bounds N i (Hl i Hi)) as Hw.
      exists (Z.to_nat (wrap N i)). split; [lia|].
      rewrite (Hnth _ Hb). apply Bool.orb_true_iff. right.
      apply existsb_exists. exists i. split; [exact Hi | apply Nat.eqb_refl].
  - apply where_true_sorted.
Qed.

Lemma to_mask_of_indices_witness :
  exists mask,
    to_mask (Some (IdxInt [0; -1; 0]%Z)) None Examples.g3
      = Ok (np.ABool (np.mk_arr [3] mask)) Examples.g3
    /\ length mask = 3
    /\ (forall j, In j (to_indices (IdxBool mask)) <->
                  exists i, In i [0; -1; 0]%Z /\ j = wrap 3 i)
    /\ StronglySorted Z.lt (to_indices (IdxBool mask)).
Proof.
  apply (to_mask_of_indices Examples.g3 3 [0; -1; 0]%Z None).
  - reflexivity.
  - intros i [<-|[<-|[<-|[]]]]; reflexivity.
Defined.

(** What [to_mask] refuses: a call without pores and throats, an object
    without data of the kind, and a list with an index out of bounds; the
    object is unchanged each time. *)
Theorem to_mask_errors w :
  to_mask None None w = Raise (Exception "Must specify either pores or throats") w
  /\ (forall indices throats,
        Base2.Np w = Ok None w ->
        to_mask (Some indices) throats w = Raise TypeError w)
  /\ (forall indices,
        Base2.Nt w = Ok None w ->
        to_mask None (Some indices) w = Raise TypeError w)
  /\ (forall N l i throats,
        Base2.Np w = Ok (Some N) w -> In i l -> in_bounds N i = false ->
        to_mask (Some (IdxInt l)) throats w = Raise IndexError w)
  /\ (forall N b throats,
        Base2.Np w = Ok (Some N) w -> length b <> N ->
        to_mask (Some (IdxBool b)) throats w = Raise IndexError w).
Proof.
  split; [reflexivity|split; [|split; [|split]]].
  - intros indices throats HN. unfold to_mask. mstep. reflexivity.
  - intros indices HN. unfold to_mask. mstep. reflexivity.
  - intros N l i throats HN Hi Hb. unfold to_mask. mstep. mstep.
    unfold assign_true. rewrite repeat_length.
    assert (E : forallb (in_bounds N) l = false).
    { destruct (forallb (in_bounds N) l) eqn:F; [|reflexivity].
      rewrite forallb_forall in F. rewrite (F i Hi) in Hb. discriminate. }
    rewrite E. reflexivity.
  - intros N b throats HN Hb. unfold to_mask. mstep. mstep.
    unfold assign_true. rewrite repeat_length.
    destruct (Nat.eqb_spec (length b) N); [contradiction | reflexivity].
Qed.

Lemma to_mask_errors_witness :
  to_mask (Some (IdxInt [0; 3]%Z)) None Examples.g3 = Raise IndexError Examples.g3.
Proof.
  apply (proj1 (proj2 (proj2 (proj2 (to_mask_errors Examples.g3)))) 3 [0; 3]%Z 3%Z None).
  - reflexivity.
  - right. left. reflexivity.
  - reflexivity.
Defined.

(** [to_mask(pores=self.Ps)] is the all-true mask, and its indices are
    [Ps] again. *)
Theorem to_mask_of_Ps w N :
  Base2.Np w = Ok (Some N) w ->
  (ps <- Ps ;; to_mask (Some (IdxInt ps)) None) w = Ok (np.ones_bool [N]) w
  /\ to_indices (IdxBool (repeat true N)) = arange N.
Proof.
  intros HN.
  assert (W : forall o n, where_true (Z.of_nat o) (repeat true n) = map Z.of_nat (seq o n)).
  { intros o n. revert o. induction n as [|n IH]; intros o; simpl; [reflexivity|].
    replace (Z.of_nat o + 1)%Z with (Z.of_nat (S o)) by lia. rewrite IH. reflexivity. }
  assert (W0 : where_true 0 (repeat true N) = arange N) by exact (W 0 N).
  split; [|exact W0].
  unfold Ps. erewrite bind_Ok.
  2:{ erewrite bind_Ok by exact HN. mstep. reflexivity. }
  pose proof (assign_where_true (repeat true N)) as H.
  rewrite repeat_length in H. unfold to_indices in H. rewrite W0 in H.
  unfold to_mask. mstep. mstep. rewrite H.
  unfold np.ones_bool. simpl. rewrite Nat.mul_1_r. reflexivity.
Qed.

Lemma to_mask_of_Ps_witness :
  (ps <- Ps ;; to_mask (Some (IdxInt ps)) None) Examples.g9 = Ok (np.ones_bool [9]) Examples.g9
  /\ to_indices (IdxBool (repeat true 9)) = arange 9.
Proof. apply (to_mask_of_Ps Examples.g9 9). reflexivity. Defined.

(** ** Listing the properties *)

Lemma In_lookup V k (v : V) (d : Dict.t V) :
  NoDup (Dict.keys d) -> In (k, v) d -> Dict.lookup k d = Some v.
Proof.
  unfold Dict.keys. induction d as [|[k0 v0] d IH]; simpl; intros Hnd Hin; [contradiction|].
  inversion Hnd as [|? ? Hn Hnd']; subst.
  destruct Hin as [E | Hin].
  - injection E as -> ->. rewrite String.eqb_refl. reflexivity.
  - destruct (String.eqb_spec k k0) as [->|Hne]; [|apply IH; assumption].
    exfalso. apply Hn. apply in_map_iff. exists (k0, v). split; [reflexivity | exact Hin].
Qed.

Lemma filter_keys_agree V (P : string * V -> bool) (Q : string -> bool) (d : Dict.t V) :
  (forall kv, In kv d -> Q (fst kv) = P kv) ->
  map fst (filter P d) = filter Q (map fst d).
Proof.
  induction d as [|kv d IH]; simpl; intros H; [reflexivity|].
  rewrite (H kv (or_introl eq_refl)).
  destruct (P kv); simpl; rewrite IH by (intros kv' Hin; apply H; right; exact Hin);
    reflexivity.
Qed.

(** In a store with distinct keys, [props] lists each stored key of the
    asked kinds that holds a non-boolean array, once and in the order of the
    store; a key holding a boolean array (a label) is never listed, and the
    object is unchanged. *)
Theorem props_listing w element :
  NoDup (Dict.keys (items w)) ->
  exists l,
    props element w = Ok l w
    /\ NoDup l
    /\ (forall k, In k l <->
                  exists v, Dict.lookup k (items w) = Some v
                            /\ np.is_bool v = false
                            /\ Str.mem (hd "" (Str.split1 dot k)) element = true)
    /\ l = filter (fun k => Str.mem k l) (Dict.keys (items w)).
Proof.
  intros Hnd.
  set (P := fun kv : string * np.ndarray =>
              negb (np.is_bool (snd kv))
              && Str.mem (hd "" (Str.split1 dot (fst kv))) element).
  assert (Hmem : forall k, In k (map fst (filter P (items w))) <->
                 exists v, Dict.lookup k (items w) = Some v
                           /\ np.is_bool v = false
                           /\ Str.mem (hd "" (Str.split1 dot k)) element = true).
  { intros k. rewrite in_map_iff. split.
    - intros ([k0 v] & E & Hin). simpl in E. subst k0.
      apply filter_In in Hin as [Hin HP]. unfold P in HP. simpl in HP.
      apply andb_prop in HP as [Hb He]. exists v.
      split; [apply In_lookup; assumption|]. split; [|exact He].
      destruct (np.is_bool v); [discriminate | reflexivity].
    - intros (v & Hl & Hb & He). exists (k, v). split; [reflexivity|].
      apply filter_In. split; [apply lookup_In, Hl|].
      unfold P. simpl. rewrite Hb, He. reflexivity. }
  exists (map fst (filter P (items w))).
  split; [reflexivity|split; [|split; [exact Hmem|]]].
  - apply (filter_NoDup_keys _ P (items w) Hnd).
  - apply filter_keys_agree. intros [k v] Hin. simpl.
    destruct (P (k, v)) eqn:HP.
    + apply existsb_exists. exists k. split; [|apply String.eqb_refl].
      apply in_map_iff. exists (k, v). split; [reflexivity|].
      apply filter_In. split; assumption.
    + destruct (Str.mem k (map fst (filter P (items w)))) eqn:Hm; [|reflexivity].
      apply existsb_exists in Hm as (k' & Hin' & Hk'). apply String.eqb_eq in Hk'. subst k'.
      apply Hmem in Hin' as (v' & Hl & Hb & He).
      rewrite (In_lookup _ k v (items w) Hnd Hin) in Hl. injection Hl as <-.
      unfold P in HP. simpl in HP. rewrite Hb, He in HP. discriminate.
Qed.

Lemma props_listing_witness :
  exists l,
    props kinds Examples.g3_group = Ok l Examples.g3_group
    /\ NoDup l
    /\ (forall k, In k l <->
                  exists v, Dict.lookup k (items Examples.g3_group) = Some v
                            /\ np.is_bool v = false
                            /\ Str.mem (hd "" (Str.split1 dot k)) kinds = true)
    /\ l = filter (fun k => Str.mem k l) (Dict.keys (items Examples.g3_group)).
Proof. apply (props_listing Examples.g3_group kinds). exact g3_group_NoDup. Defined.

(** ** Writing a mapping *)

Lemma update_fresh V k (v : V) d :
  Dict.lookup k d = None -> Dict.update k v d = (d ++ [(k, v)])%list.
Proof.
  induction d as [|[k0 v0] d IH]; simpl; [reflexivity|].
  destruct (String.eqb_spec k k0) as [->|Hne]; [discriminate|].
  intros H. rewrite (IH H). reflexivity.
Qed.

Lemma lookup_app V k (d1 d2 : Dict.t V) :
  Dict.lookup k (d1 ++ d2)%list
  = match Dict.lookup k d1 with Some v => Some v | None => Dict.lookup k d2 end.
Proof.
  induction d1 as [|[k0 v0] d1 IH]; simpl; [reflexivity|].
  destruct (String.eqb k k0); [reflexivity | exact IH].
Qed.

Lemma lookup_not_key V k (d : Dict.t V) :
  ~ In k (Dict.keys d) -> Dict.lookup k d = None.
Proof.
  unfold Dict.keys. induction d as [|[k0 v0] d IH]; simpl; intros H; [reflexivity|].
  destruct (String.eqb_spec k k0) as [->|Hne]; [exfalso; apply H; left; reflexivity|].
  apply IH. intros Hin. apply H. right. exact Hin.
Qed.

Lemma length_app_str (a b : string) :
  String.length (a ++ b) = String.length a + String.length b.
Proof. induction a as [|x a IH]; simpl; [reflexivity | rewrite IH; reflexivity]. Qed.

Lemma app_inj_str (a b c : string) : a ++ b = a ++ c -> b = c.
Proof. induction a as [|x a IH]; simpl; intros H; [exact H|]. injection H as H. exact (IH H). Qed.

Lemma startswith_sub key k : Str.startswith (key ++ "." ++ k) (key ++ ".") = true.
Proof.
  unfold Str.startswith.
  replace (key ++ "." ++ k) with ((key ++ ".") ++ k) by (rewrite app_assoc_str; reflexivity).
  apply prefix_app_true.
Qed.

Lemma group_empty_lookup key k w :
  group_of key w = [] -> Dict.lookup (key ++ "." ++ k) (items w) = None.
Proof.
  unfold group_of. intros H. apply map_eq_nil in H.
  destruct (Dict.lookup (key ++ "." ++ k) (items w)) as [v|] eqn:E; [|reflexivity].
  apply lookup_In in E.
  assert (Hin : In (key ++ "." ++ k, v)
                   (filter (fun kv : string * np.ndarray =>
                              Str.startswith (fst kv) (key ++ ".")) (items w))).
  { apply filter_In. split; [exact E|]. cbn [fst]. apply startswith_sub. }
  rewrite H in Hin. destruct Hin.
Qed.

(** The loop of a mapping write, for arrays of the established length. *)
Lemma nested_loop c fuel key element prop N d w :
  (c = CBase2 \/ forall kv, In kv d ->
                   Str.contains at_sign (key ++ "." ++ fst kv) = false) ->
  Str.split1 dot key = [element; prop] -> In element kinds ->
  Base2._count element w = Ok (Some N) w ->
  (forall kv, In kv d -> np.shape0 (snd kv) = Val N) ->
  for_each (map (fun kv : string * np.ndarray => (fst kv, PyArr (snd kv))) d)
           (fun kv => setitem c (S fuel) (key ++ "." ++ fst kv) (snd kv)) w
  = Ok tt (fold_left (fun acc (kv : string * np.ndarray) =>
                        set_items (Dict.update (key ++ "." ++ fst kv) (snd kv) (items acc)) acc)
                     d w).
Proof.
  intros Hc Hs Hk. revert w. induction d as [|[k a] d IH]; intros w HN Hd;
    simpl; [reflexivity|].
  assert (Hc1 : c = CBase2 \/ Str.contains at_sign (key ++ "." ++ k) = false).
  { destruct Hc as [Hc|Hc]; [left; exact Hc | right].
    apply (Hc (k, a)). left. reflexivity. }
  assert (Hw : setitem c (S fuel) (key ++ "." ++ k) (PyArr a) w
               = Ok tt (set_items (Dict.update (key ++ "." ++ k) a (items w)) w)).
  { rewrite (setitem_plain c fuel _ _ Hc1). unfold Base2.__setitem__.
    apply (write_array_store _ element (prop ++ "." ++ k) a N w).
    - apply split1_app. exact Hs.
    - exact Hk.
    - exact HN.
    - apply (Hd (k, a)). left. reflexivity. }
  erewrite bind_Ok by exact Hw.
  apply IH.
  - destruct Hc as [Hc|Hc]; [left; exact Hc | right].
    intros kv Hin. apply Hc. right. exact Hin.
  - apply count_update_same; [|exact HN]. apply (Hd (k, a)). left. reflexivity.
  - intros kv Hin. apply Hd. right. exact Hin.
Qed.

(** Fresh keys are appended in the order written. *)
Lemma fold_update_fresh key d w :
  NoDup (map fst d) ->
  (forall kv, In kv d -> Dict.lookup (key ++ "." ++ fst kv) (items w) = None) ->
  fold_left (fun acc (kv : string * np.ndarray) =>
               set_items (Dict.update (key ++ "." ++ fst kv) (snd kv) (items acc)) acc)
            d w
  = set_items (items w ++ map (fun kv : string * np.ndarray =>
                                 ((key ++ "." ++ fst kv)%string, snd kv)) d)%list w.
Proof.
  revert w. induction d as [|[k a] d IH]; intros w Hnd Hf; simpl.
  - rewrite app_nil_r. destruct w; reflexivity.
  - inversion Hnd as [|? ? Hn Hnd']; subst.
    rewrite IH; [|exact Hnd'|].
    + cbn [items set_items name models calls].
      rewrite (update_fresh _ _ _ _ (Hf (k, a) (or_introl eq_refl))).
      rewrite <- app_assoc. reflexivity.
    + intros [k' a'] Hin. cbn [items set_items fst].
      rewrite lookup_update_other.
      * apply (Hf (k', a')). right. exact Hin.
      * simpl. intros E. apply app_inj_str in E. simpl in E. injection E as E.
        apply Hn. subst k'. apply in_map_iff. exists (k, a'). split; [reflexivity | exact Hin].
Qed.

(** Writing a non-empty mapping of arrays, each of the established length
    and under distinct subkeys, to a key that holds nothing yet (it is not
    stored, no stored key starts with [key + "."]) and whose second
    dot-separated segment is not the object's name (on a [Domain]: no [@]
    in the keys) stores each array under [key.subkey], appended to the
    store in the mapping's order; reading the key afterwards returns the
    mapping, under the full keys. *)
Theorem mapping_round_trip c fuel w key element prop N d :
  (c = CBase2 \/ forall kv, In kv d ->
                   Str.contains at_sign (key ++ "." ++ fst kv) = false) ->
  Str.split1 dot key = [element; prop] -> In element kinds ->
  Base2._count element w = Ok (Some N) w ->
  (forall kv, In kv d -> np.shape0 (snd kv) = Val N) ->
  NoDup (map fst d) -> d <> [] ->
  Dict.lookup key (items w) = None ->
  group_of key w = [] ->
  Str.item 1 (Str.split dot key) <> Some (name w) ->
  let stored := map (fun kv : string * np.ndarray => (key ++ "." ++ fst kv, snd kv)) d in
  let w' := set_items (items w ++ stored)%list w in
  setitem c (S (S fuel)) key
    (PyDict (map (fun kv : string * np.ndarray => (fst kv, PyArr (snd kv))) d)) w
    = Ok tt w'
  /\ getitem c (S fuel) key w'
     = Ok (PyDict (map (fun kv : string * np.ndarray => (fst kv, PyArr (snd kv))) stored)) w'.
Proof.
  intros Hc Hs Hk HN Hd Hnd Hne Hl Hg Hname. cbv zeta.
  assert (Hck : c = CBase2 \/ Str.contains at_sign key = false).
  { destruct Hc as [Hc|Hc]; [left; exact Hc | right].
    destruct d as [|kv d]; [contradiction|].
    specialize (Hc kv (or_introl eq_refl)).
    rewrite contains_app in Hc. apply Bool.orb_false_iff in Hc. apply Hc. }
  split.
  - rewrite (setitem_plain c (S fuel) key _ Hck). unfold Base2.__setitem__.
    rewrite Hs. mstep.
    rewrite (nested_loop c fuel key element prop N d w Hc Hs Hk HN Hd).
    rewrite fold_update_fresh; [reflexivity | exact Hnd |].
    intros kv _. apply group_empty_lookup, Hg.
  - rewrite (getitem_group c fuel key element prop _ Hck Hs).
    + unfold group_of. cbn [items set_items]. rewrite filter_app.
      unfold group_of in Hg. apply map_eq_nil in Hg. rewrite Hg. cbn [app].
      rewrite forallb_filter_id.
      * destruct d as [|kv d]; [contradiction | reflexivity].
      * apply forallb_forall. intros [k a] Hin. apply in_map_iff in Hin.
        destruct Hin as (kv & E & _). injection E as <- _. cbn [fst].
        apply startswith_sub.
    + cbn [items set_items]. rewrite lookup_app, Hl.
      apply lookup_not_key. unfold Dict.keys. rewrite map_map. simpl.
      intros Hin. apply in_map_iff in Hin. destruct Hin as (kv & E & _).
      pose proof (f_equal String.length E) as L.
      rewrite length_app_str in L. simpl in L. lia.
    + exact Hname.
Qed.

Lemma mapping_round_trip_witness :
  setitem CDomain 2 "pore.group"
    (PyDict (map (fun kv : string * np.ndarray => (fst kv, PyArr (snd kv)))
                 [("a", Examples.floats [1%Q; 2%Q; 3%Q]);
                  ("b", Examples.bools [true; false; true])])) Examples.g3
    = Ok tt (set_items (items Examples.g3
                        ++ map (fun kv : string * np.ndarray => (("pore.group" ++ "." ++ fst kv)%string, snd kv))
                               [("a", Examples.floats [1%Q; 2%Q; 3%Q]);
                                ("b", Examples.bools [true; false; true])])%list Examples.g3)
  /\ getitem CDomain 1 "pore.group"
       (set_items (items Examples.g3
                   ++ map (fun kv : string * np.ndarray => (("pore.group" ++ "." ++ fst kv)%string, snd kv))
                          [("a", Examples.floats [1%Q; 2%Q; 3%Q]);
                           ("b", Examples.bools [true; false; true])])%list Examples.g3)
     = Ok (PyDict (map (fun kv : string * np.ndarray => (fst kv, PyArr (snd kv)))
                       (map (fun kv : string * np.ndarray => (("pore.group" ++ "." ++ fst kv)%string, snd kv))
                            [("a", Examples.floats [1%Q; 2%Q; 3%Q]);
                             ("b", Examples.bools [true; false; true])])))
          (set_items (items Examples.g3
                      ++ map (fun kv : string * np.ndarray => (("pore.group" ++ "." ++ fst kv)%string, snd kv))
                             [("a", Examples.floats [1%Q; 2%Q; 3%Q]);
                              ("b", Examples.bools [true; false; true])])%list Examples.g3).
Proof.
  apply (mapping_round_trip CDomain 0 Examples.g3 "pore.group" "pore" "group" 3
           [("a", Examples.floats [1%Q; 2%Q; 3%Q]);
            ("b", Examples.bools [true; false; true])]);
    try reflexivity; try discriminate.
  - right. intros kv [<-|[<-|[]]]; reflexivity.
  - left; reflexivity.
  - intros kv [<-|[<-|[]]]; reflexivity.
  - repeat constructor; simpl; intuition discriminate.
Defined.


(** ** The key invariant *)

Lemma preserves_weaken A (Q Q' : A -> Prop) (m : M A) :
  (forall a, Q a -> Q' a) -> preserves Q m -> preserves Q' m.
Proof.
  intros HQ Hm w HI. specialize (Hm w HI). destruct (m w) as [a w'|e w'].
  - split; [apply Hm | apply HQ, Hm].
  - exact Hm.
Qed.

Lemma preserves_ret A (Q : A -> Prop) a : Q a -> preserves Q (ret a).
Proof. intros HQ w HI. split; assumption. Qed.

Lemma preserves_raise A (Q : A -> Prop) e : preserves Q (raise e).
Proof. intros w HI. exact HI. Qed.

Lemma preserves_lift A (Q : A -> Prop) (o : outcome A) :
  (forall a, o = Val a -> Q a) -> preserves Q (lift o).
Proof.
  intros HQ. destruct o as [a|e]; [apply preserves_ret, HQ; reflexivity | apply preserves_raise].
Qed.

Lemma preserves_gets A (f : obj -> A) : preserves (fun _ => True) (gets f).
Proof. intros w HI. split; [exact HI | exact I]. Qed.

Lemma preserves_bind A B (Q : A -> Prop) (Q' : B -> Prop) (m : M A) (k : A -> M B) :
  preserves Q m -> (forall a, Q a -> preserves Q' (k a)) -> preserves Q' (bind m k).
Proof.
  intros Hm Hk w HI. unfold bind. specialize (Hm w HI).
  destruct (m w) as [a w'|e w']; [|exact Hm].
  destruct Hm as [HI' HQ]. exact (Hk a HQ w' HI').
Qed.

Lemma preserves_for_each X (l : list X) (f : X -> M unit) :
  (forall x, preserves (fun _ => True) (f x)) ->
  preserves (fun _ => True) (for_each l f).
Proof.
  intros Hf. induction l as [|x l IH]; simpl.
  - apply preserves_ret. exact I.
  - apply (preserves_bind _ _ (fun _ => True)); [apply Hf | intros _ _; exact IH].
Qed.

Lemma preserves_except A (Q : A -> Prop) (m h : M A) :
  preserves Q m -> preserves Q h -> preserves Q (except_KeyError m h).
Proof.
  intros Hm Hh w HI. unfold except_KeyError. specialize (Hm w HI).
  destruct (m w) as [a w'|e w']; [exact Hm|].
  destruct e; try exact Hm. exact (Hh w' Hm).
Qed.

Lemma preserves_unpack2 l :
  preserves (fun ep => l = [fst ep; snd ep]) (unpack2 l).
Proof.
  destruct l as [|a [|b [|c l]]]; try apply preserves_raise.
  apply preserves_ret. reflexivity.
Qed.

Lemma preserves_as_dim c : preserves (fun _ => True) (as_dim c).
Proof. destruct c; [apply preserves_ret; exact I | apply preserves_raise]. Qed.

Lemma preserves_count element : preserves (fun _ => True) (Base2._count element).
Proof.
  intros w HI. unfold Base2._count.
  destruct (find _ (items w)) as [[k v]|]; [|split; [exact HI | exact I]].
  destruct (np.shape0 v); [split; [exact HI | exact I] | exact HI].
Qed.

Lemma preserves_dict_update key v :
  kind_key key -> preserves (fun _ => True) (dict_update key v).
Proof.
  intros Hk w HI. split; [|exact I].
  intros k' v' Hin. cbn [items set_items] in Hin.
  apply In_update in Hin. destruct Hin as [[-> _] | Hin]; [exact Hk | exact (HI k' v' Hin)].
Qed.

Lemma In_remove V k (d : Dict.t V) kv : In kv (Dict.remove k d) -> In kv d.
Proof.
  induction d as [|[k0 v0] d IH]; simpl; [intros []|].
  destruct (String.eqb k k0); [intros H; right; exact H|].
  intros [H|H]; [left; exact H | right; exact (IH H)].
Qed.

Lemma preserves_remove key :
  preserves (fun _ => True)
    (modify (fun w => set_items (Dict.remove key (items w)) w)).
Proof.
  intros w HI. split; [|exact I].
  intros k' v' Hin. cbn [items set_items] in Hin.
  apply In_remove in Hin. exact (HI k' v' Hin).
Qed.

(** A step that leaves the stored data alone. *)
Lemma preserves_modify (g : obj -> obj) :
  (forall w, items (g w) = items w) -> preserves (fun _ => True) (modify g).
Proof.
  intros Hg w HI. split; [|exact I].
  intros k v Hin. rewrite Hg in Hin. exact (HI k v Hin).
Qed.

Lemma mem_In x l : Str.mem x l = true -> In x l.
Proof.
  unfold Str.mem. intros H. apply existsb_exists in H as (y & Hin & E).
  apply String.eqb_eq in E. subst y. exact Hin.
Qed.

Ltac pbind := eapply preserves_bind.
Ltac ptrue := apply preserves_ret; exact I.

Lemma preserves_write_array key v :
  preserves (fun _ => kind_key key) (Base2.write_array key v).
Proof.
  unfold Base2.write_array.
  pbind; [apply preserves_unpack2|]. intros [e p] Hs. cbn [fst snd] in *.
  destruct (Str.mem e ["pore"; "throat"]) eqn:Hm; cbn [negb]; [|apply preserves_raise].
  assert (Hk : kind_key key) by (exists e, p; split; [exact Hs | apply mem_In, Hm]).
  assert (Hu : forall x, preserves (fun _ : unit => kind_key key) (dict_update key x)).
  { intros x. apply (preserves_weaken _ (fun _ => True)); [intros _ _; exact Hk|].
    apply preserves_dict_update, Hk. }
  destruct (Str.mem key ["pore.coords"; "throat.conns"]); [apply Hu|].
  pbind; [apply preserves_count|]. intros [n|] _; [|apply Hu].
  pbind; [apply (preserves_lift _ (fun _ => True)); intros; exact I|]. intros n0 _.
  destruct (n0 =? 1).
  - pbind; [apply preserves_count|]. intros c _.
    pbind; [apply preserves_as_dim|]. intros n1 _.
    pbind; [apply (preserves_lift _ (fun _ => True)); intros; exact I|]. intros x _.
    apply Hu.
  - pbind; [apply preserves_count|]. intros c _.
    destruct (match c with Some n1 => n0 =? n1 | None => false end);
      [apply Hu | apply preserves_raise].
Qed.

Lemma preserves_Base2_setitem ss key value :
  (forall k v, preserves (fun _ => True) (ss k v)) ->
  preserves (fun _ => array_like value -> kind_key key) (Base2.__setitem__ ss key value).
Proof.
  intros Hss. unfold Base2.__setitem__.
  destruct value as [|b|x|a|d].
  - apply preserves_ret. intros [].
  - apply (preserves_weaken _ (fun _ => kind_key key)); [intros _ H _; exact H|].
    apply preserves_write_array.
  - apply (preserves_weaken _ (fun _ => kind_key key)); [intros _ H _; exact H|].
    apply preserves_write_array.
  - apply (preserves_weaken _ (fun _ => kind_key key)); [intros _ H _; exact H|].
    apply preserves_write_array.
  - pbind; [apply preserves_unpack2|]. intros ep _.
    apply (preserves_weaken _ (fun _ => True)); [intros _ _ []|].
    apply preserves_for_each. intros kv. apply Hss.
Qed.

(** A stored key under the group of [key] has the element of [key]. *)
Lemma group_member_kind w key e p k v :
  I1 w -> Str.split1 dot key = [e; p] ->
  In (k, v) (items w) -> Str.startswith k (key ++ ".") = true ->
  kind_key key.
Proof.
  intros HI Hs Hin Hp.
  destruct (HI k v Hin) as (e' & p' & Hs' & Hk').
  apply prefix_app in Hp as [r ->].
  rewrite app_assoc_str in Hs'.
  rewrite (split1_app key e p ("." ++ r) Hs) in Hs'.
  injection Hs' as <- _. exists e, p. split; assumption.
Qed.

Lemma preserves_Base2_getitem (Q : Prop) sg ss key :
  preserves (fun _ => Q) (sg key) ->
  (kind_key key -> Q) ->
  (forall k v, preserves (fun _ => True) (ss k v)) ->
  preserves (fun _ => Q) (Base2.__getitem__ sg ss key).
Proof.
  intros Hsg HQ Hss w HI. unfold Base2.__getitem__.
  destruct (Str.split1 dot key) as [|e [|p [|x l]]] eqn:Hs;
    try (unfold bind, unpack2, raise; exact HI).
  mstep. unfold gets at 1. mstep.
  destruct (Dict.lookup key (items w)) as [v|] eqn:Hl.
  - split; [exact HI|]. apply HQ. apply lookup_In in Hl. exact (HI key v Hl).
  - unfold gets at 1. mstep.
    destruct (match Str.item 1 (Str.split dot key) with
              | Some s => String.eqb s (name w) | None => false end).
    + assert (P : forall nm, preserves (fun _ => Q)
                (c <- Base2.Np ;;
                 ss ("pore." ++ nm) (PyArr (np.ones_bool (count_shape c))) ;;
                 c0 <- Base2.Nt ;;
                 ss ("throat." ++ nm) (PyArr (np.ones_bool (count_shape c0))) ;;
                 sg key)).
      { intros nm.
        pbind; [apply preserves_count|]. intros c _.
        pbind; [apply Hss|]. intros _ _.
        pbind; [apply preserves_count|]. intros c0 _.
        pbind; [apply Hss|]. intros _ _. exact Hsg. }
      exact (P (name w) w HI).
    + unfold gets. mstep.
      destruct (filter _ (items w)) as [|[k v] g] eqn:Hf; [exact HI|].
      split; [exact HI|]. apply HQ.
      assert (Hin : In (k, v) (filter (fun kv : string * np.ndarray =>
                                         Str.startswith (fst kv) (key ++ ".")) (items w)))
        by (rewrite Hf; left; reflexivity).
      apply filter_In in Hin as [Hin Hp].
      exact (group_member_kind w key e p k v HI Hs Hin Hp).
Qed.

Lemma preserves_mask_read vals locs : preserves (fun _ => True) (mask_read vals locs).
Proof.
  unfold mask_read. destruct vals; try apply preserves_raise.
  destruct locs; try apply preserves_raise.
  pbind; [apply (preserves_lift _ (fun _ => True)); intros; exact I|]. intros r _. ptrue.
Qed.

Lemma preserves_mask_assign key vals locs value :
  kind_key key -> preserves (fun _ => True) (mask_assign key vals locs value).
Proof.
  intros Hk. unfold mask_assign. destruct vals; try apply preserves_raise.
  destruct locs; try apply preserves_raise.
  pbind; [apply (preserves_lift _ (fun _ => True)); intros; exact I|]. intros r _.
  pbind; [apply preserves_dict_update, Hk|]. intros _ _. ptrue.
Qed.

Lemma hd_split_no_sep c s : Str.contains c (hd "" (Str.split c s)) = false.
Proof.
  induction s as [|a s IH]; simpl; [reflexivity|].
  destruct (Ascii.eqb a c) eqn:E; [reflexivity|].
  destruct (Str.split c s) as [|h t]; simpl in *; rewrite E; [reflexivity | exact IH].
Qed.

(** The element and property of a parsed key make a key without [@]. *)
Lemma preserves_parse key :
  preserves (fun p => Str.contains at_sign (fst (fst p) ++ "." ++ snd (fst p)) = false)
            (Domain.parse key).
Proof.
  unfold Domain.parse.
  pbind; [apply preserves_unpack2|]. intros [e p] Hs. cbn [fst snd] in *.
  destruct (Str.item 1 (Str.split at_sign key)); [|apply preserves_raise].
  apply preserves_ret. cbn [fst snd].
  rewrite <- (split1_join _ _ _ Hs). apply hd_split_no_sep.
Qed.

Section Accessors.
Variable c : cls.
Variable sg : string -> M pyvalue.
Variable ss : string -> pyvalue -> M unit.
Hypothesis Hsg : forall k, preserves (fun _ => read_key c k) (sg k).
Hypothesis Hss : forall k v, preserves (fun _ => True) (ss k v).

Lemma preserves_sg_plain k : preserves (fun _ => True) (sg k).
Proof. apply (preserves_weaken _ (fun _ => read_key c k)); [intros; exact I | apply Hsg]. Qed.

Lemma preserves_super_getitem k :
  preserves (fun _ => True) (Base2.__getitem__ sg ss k).
Proof.
  apply preserves_Base2_getitem; [apply preserves_sg_plain | intros; exact I | exact Hss].
Qed.

Lemma preserves_Domain_getitem key :
  preserves (fun _ => read_key CDomain key) (Domain.__getitem__ sg ss key).
Proof.
  unfold Domain.__getitem__. destruct (Str.contains at_sign key) eqn:Hc.
  - apply (preserves_weaken _ (fun _ => True)).
    { intros _ _ [H|H]; [discriminate | congruence]. }
    pbind; [apply preserves_parse|]. intros [[e p] d] _.
    pbind; [apply preserves_super_getitem|]. intros locs _.
    pbind; [apply preserves_super_getitem|]. intros vals _.
    apply preserves_mask_read.
  - apply preserves_Base2_getitem.
    + apply (preserves_weaken _ (fun _ => read_key c key)); [|apply Hsg].
      intros _ H _. apply H. right. exact Hc.
    + intros H _. exact H.
    + exact Hss.
Qed.

Lemma preserves_Domain_setitem key value :
  preserves (fun _ => True) (Domain.__setitem__ sg ss key value).
Proof.
  unfold Domain.__setitem__. destruct (Str.contains at_sign key) eqn:Hc.
  - pbind; [apply preserves_parse|]. intros [[e p] d] Hp. cbn [fst snd] in Hp.
    pbind; [apply preserves_super_getitem|]. intros locs _.
    apply preserves_except.
    + pbind; [apply Hsg|]. intros vals Hk.
      pbind; [apply preserves_mask_assign, Hk; right; exact Hp|]. intros full _.
      apply Hss.
    + pbind; [apply preserves_count|]. intros cnt _.
      pbind; [apply preserves_as_dim|]. intros n _.
      pbind; [apply preserves_Base2_setitem, Hss|]. intros u Hk.
      pbind; [apply preserves_sg_plain|]. intros target _.
      pbind; [apply preserves_mask_assign, Hk; exact I|]. intros _ _. ptrue.
  - apply (preserves_weaken _ (fun _ => array_like value -> kind_key key));
      [intros; exact I|].
    apply preserves_Base2_setitem, Hss.
Qed.

Lemma preserves_invoke q domain : preserves (fun _ => True) (ModelMixin2.invoke q domain).
Proof.
  unfold ModelMixin2.invoke.
  pbind.
  { instantiate (1 := fun _ => True). intros w HI. unfold ModelMixin2.models_lookup.
    destruct (Dict.lookup q (models w)); [split; [exact HI | exact I] | exact HI]. }
  intros spec _.
  pbind; [apply preserves_modify; intros w; reflexivity|]. intros _ _.
  pbind; [apply preserves_gets|]. intros w _.
  apply (preserves_lift _ (fun _ => True)); intros; exact I.
Qed.

Lemma preserves_run_model_on propname domain :
  preserves (fun _ => True) (ModelMixin2.run_model_on sg ss propname domain).
Proof.
  unfold ModelMixin2.run_model_on.
  pbind; [apply preserves_unpack2|]. intros [e p] Hs. cbn [fst snd] in *.
  pbind; [apply preserves_invoke|]. intros vals _.
  pbind; [apply preserves_gets|]. intros keys _.
  pbind.
  { instantiate (1 := fun _ => True).
    destruct (negb (Str.mem (e ++ "." ++ p) keys)); [|ptrue].
    pbind; [apply preserves_count|]. intros cnt _.
    pbind.
    { instantiate (1 := fun _ => True). unfold ModelMixin2.result_trailing.
      destruct vals; try apply preserves_raise. ptrue. }
    intros tr _.
    pbind; [apply preserves_as_dim|]. intros n _. apply Hss. }
  intros _ _.
  pbind; [apply Hsg|]. intros target Hk.
  pbind; [apply preserves_sg_plain|]. intros locs _.
  pbind; [apply preserves_mask_assign, Hk; right|]; [|intros _ _; ptrue].
  rewrite <- (split1_join _ _ _ Hs). apply hd_split_no_sep.
Qed.

Lemma preserves_run_model propname domain :
  preserves (fun _ => True) (ModelMixin2.run_model sg ss propname domain).
Proof.
  unfold ModelMixin2.run_model. destruct domain as [d|]; [apply preserves_run_model_on|].
  destruct (Str.contains at_sign propname).
  - pbind; [apply preserves_gets|]. intros ks _.
    apply preserves_for_each. intros item.
    destruct (Str.startswith item propname); [apply preserves_run_model_on | ptrue].
  - pbind; [apply preserves_unpack2|]. intros ep _.
    pbind; [apply preserves_invoke|]. intros vals _. apply Hss.
Qed.

Lemma preserves_regenerate_models :
  preserves (fun _ => True) (ModelMixin2.regenerate_models sg ss).
Proof.
  unfold ModelMixin2.regenerate_models.
  pbind; [apply preserves_gets|]. intros ks _.
  apply preserves_for_each. intros item. apply preserves_run_model.
Qed.

Lemma preserves_delitem key : preserves (fun _ => True) (Base2.__delitem__ sg key).
Proof.
  unfold Base2.__delitem__.
  pbind; [apply preserves_gets|]. intros d _.
  destruct (Dict.lookup key d); [apply preserves_remove|].
  pbind; [apply preserves_sg_plain|]. intros g _.
  destruct g; try apply preserves_raise.
  apply preserves_for_each. intros kv. apply preserves_remove.
Qed.

End Accessors.

Lemma accessors_preserve c fuel :
  (forall key, preserves (fun _ => read_key c key) (getitem c fuel key))
  /\ (forall key value, preserves (fun _ => True) (setitem c fuel key value)).
Proof.
  induction fuel as [|f [IHg IHs]].
  - split; intros; apply preserves_raise.
  - split.
    + intros key. destruct c; cbn [getitem].
      * apply preserves_Base2_getitem; [apply IHg | intros H _; exact H | exact IHs].
      * apply (preserves_Domain_getitem CDomain); assumption.
    + intros key value. destruct c; cbn [setitem].
      * apply (preserves_weaken _ (fun _ => array_like value -> kind_key key));
          [intros; exact I|].
        apply preserves_Base2_setitem, IHs.
      * apply (preserves_Domain_setitem CDomain); assumption.
Qed.

Lemma preserves_state A (Q : A -> Prop) (m : M A) w :
  preserves Q m -> I1 w -> I1 (state_of (m w)).
Proof.
  intros Hm HI. specialize (Hm w HI). destruct (m w); simpl; [apply Hm | exact Hm].
Qed.

(** I1 is an invariant of the object: when every stored key has element
    [pore] or [throat], so it is after any read, write or deletion, on
    either class, after registering a model, and after running one model or
    all of them, whether the call returns or raises. *)
Theorem key_invariant_preserved c fuel w :
  I1 w ->
  (forall key, I1 (state_of (getitem c fuel key w)))
  /\ (forall key value, I1 (state_of (setitem c fuel key value w)))
  /\ (forall key, I1 (state_of (delitem c fuel key w)))
  /\ (forall propname model domain regen_mode kwargs,
        I1 (state_of (ModelMixin2.add_model propname model domain regen_mode kwargs w)))
  /\ (forall propname domain, I1 (state_of (run_model fuel propname domain w)))
  /\ I1 (state_of (regenerate_models fuel w)).
Proof.
  intros HI.
  destruct (accessors_preserve c fuel) as [Hg Hs].
  destruct (accessors_preserve CDomain fuel) as [HgD HsD].
  split; [|split; [|split; [|split; [|split]]]].
  - intros key. exact (preserves_state _ _ _ w (Hg key) HI).
  - intros key value. exact (preserves_state _ _ _ w (Hs key value) HI).
  - intros key. destruct fuel as [|f]; [exact HI|]. cbn [delitem].
    destruct (accessors_preserve c f) as [Hg' _].
    exact (preserves_state _ _ _ w (preserves_delitem c _ Hg' key) HI).
  - intros. exact HI.
  - intros propname domain.
    exact (preserves_state _ _ _ w (preserves_run_model CDomain _ _ HgD HsD propname domain) HI).
  - exact (preserves_state _ _ _ w (preserves_regenerate_models CDomain _ _ HgD HsD) HI).
Qed.

Lemma key_invariant_preserved_witness :
  I1 (state_of (setitem CDomain 2 "pore.seed@left" (PyFloat (np.Fin 1%Q)) Examples.g3)).
Proof.
  apply (proj1 (proj2 (key_invariant_preserved CDomain 2 Examples.g3 g3_I1))).
Defined.


(** ** Scalars under a label *)

Lemma prod_ones n : np.prod (repeat 1 n) = 1.
Proof.
  unfold np.prod. induction n as [|n IH]; cbn [repeat fold_right]; [reflexivity|].
  rewrite IH. reflexivity.
Qed.

Lemma concat_repeat_single (A : Type) (r : list A) t :
  concat (concat (repeat [r] t)) = concat (repeat r t).
Proof. induction t as [|t IH]; simpl; [reflexivity | rewrite IH; reflexivity]. Qed.

Lemma concat_repeat_repeat (A : Type) (y : A) n t :
  concat (repeat (repeat y n) t) = repeat y (t * n).
Proof.
  induction t as [|t IH]; simpl; [reflexivity|]. rewrite IH, <- repeat_app. reflexivity.
Qed.

(** A scalar seen with any shape. *)
Lemma broadcast_scalar (A : Type) s (y : A) :
  np.broadcast_aligned (repeat 1 (length s)) s [y] = Some (repeat y (np.prod s)).
Proof.
  induction s as [|t ts IH]; [reflexivity|].
  cbn [length repeat np.broadcast_aligned].
  rewrite prod_ones. cbn [np.chunks firstn map]. rewrite IH. cbn [forallb flat_map app].
  destruct (Nat.eqb_spec 1 t) as [<-|Hne].
  - cbn [concat]. rewrite app_nil_r. f_equal. unfold np.prod. simpl.
    rewrite Nat.add_0_r. reflexivity.
  - cbn [Nat.eqb]. rewrite concat_repeat_single, concat_repeat_repeat. reflexivity.
Qed.

Lemma scatter_scalar (A : Type) (a : np.arr A) m tr (y : A) :
  np.shape a = length m :: tr ->
  np.scatter a (np.mk_arr [length m] m) [] [y]
  = np.scatter a (np.mk_arr [length m] m) (np.count_true m :: tr)
      (repeat y (np.prod (np.count_true m :: tr))).
Proof.
  intros Hs. unfold np.scatter. cbn [np.shape np.data]. rewrite Hs, mask_fits_1d.
  unfold np.block. cbn [length skipn].
  rewrite broadcast_to_same by apply repeat_length.
  unfold np.broadcast_to. cbn [length Nat.leb].
  rewrite Nat.sub_0_r, app_nil_r.
  change (S (length tr)) with (length (np.count_true m :: tr)).
  rewrite (broadcast_scalar A (np.count_true m :: tr) y). reflexivity.
Qed.

(** Assigning a scalar under a mask is assigning the constant array. *)
Lemma setmask_scalar old m tr value :
  np.shape_of old = length m :: tr ->
  match value with PyFloat _ | PyBool _ => True | _ => False end ->
  np.setmask old (np.ABool (np.mk_arr [length m] m)) (np_array value)
  = np.setmask old (np.ABool (np.mk_arr [length m] m))
      (np_array (constant (np.count_true m :: tr) value)).
Proof.
  intros Hs Hv.
  destruct value as [|b|x| |]; try contradiction;
    destruct old as [a|a]; cbn [np.shape_of] in Hs;
    unfold np.setmask, np_array, constant;
    cbn [np.shape np.data np.as_bool_data np.as_float_data np.operand_shape np.shape_of];
    rewrite Hs, mask_fits_1d; cbn [map];
    rewrite (scatter_scalar _ a m tr _ Hs), ?map_repeat; reflexivity.
Qed.

(** The domain write to a stored property, for any value whose masked
    assignment gives [full]. *)
Lemma domain_write_core fuel w element prop domain m old value full :
  In element kinds ->
  Str.contains at_sign prop = false ->
  Str.contains at_sign domain = false ->
  Str.contains dot domain = false ->
  Base2._count element w = Ok (Some (length m)) w ->
  Dict.lookup (element ++ "." ++ domain) (items w)
    = Some (np.ABool (np.mk_arr [length m] m)) ->
  Dict.lookup (element ++ "." ++ prop) (items w) = Some old ->
  np.setmask old (np.ABool (np.mk_arr [length m] m)) (np_array value) = Val full ->
  np.shape0 full = Val (length m) ->
  setitem CDomain (S (S fuel)) (element ++ "." ++ prop ++ "@" ++ domain) value w
  = Ok tt (set_items (Dict.update (element ++ "." ++ prop) full (items w)) w).
Proof.
  intros Hk Hp Hd Hdd HN Hlab Hold Hsm Hf0.
  set (k := element ++ "." ++ prop) in *.
  set (w1 := set_items (Dict.update k full (items w)) w).
  assert (Hsk : Str.split1 dot k = [element; prop]) by (apply split1_kind, Hk).
  assert (Hck : Str.contains at_sign k = false) by (apply contains_kind_key; assumption).
  assert (Hsd : Str.split1 dot (element ++ "." ++ domain) = [element; domain])
    by (apply split1_kind, Hk).
  assert (HN1 : Base2._count element w1 = Ok (Some (length m)) w1)
    by (apply count_update_same; assumption).
  assert (Hw1 : set_items (Dict.update k full (items w1)) w1 = w1).
  { unfold w1, set_items. cbn [items name models calls].
    rewrite update_update. reflexivity. }
  rewrite setitem_domain. unfold Domain.__setitem__.
  rewrite contains_domain_key. cbv iota.
  erewrite bind_Ok by (apply parse_key; assumption). mred.
  erewrite bind_Ok by (apply (Base2_getitem_hit _ _ _ _ _ _ w Hsd Hlab)).
  apply except_KeyError_Ok. fold k.
  erewrite bind_Ok
    by (apply (getitem_hit CDomain fuel k element prop old w (or_intror Hck) Hsk Hold)).
  unfold mask_assign. rewrite Hsm. mstep. fold w1.
  rewrite (setitem_plain CDomain fuel k (PyArr full) (or_intror Hck)).
  unfold Base2.__setitem__.
  rewrite (write_array_store k element prop full (length m) w1 Hsk Hk HN1 Hf0), Hw1.
  reflexivity.
Qed.

Lemma wf_constant s x : np.wf (np.AFloat (np.mk_arr s (repeat x (np.prod s)))).
Proof. unfold np.wf. simpl. apply repeat_length. Qed.

Lemma wf_constant_bool s b : np.wf (np.ABool (np.mk_arr s (repeat b (np.prod s)))).
Proof. unfold np.wf. simpl. apply repeat_length. Qed.

(** A scalar written under [element.prop@domain] to a stored property is
    broadcast over the rows under the label: the write does what the write
    of the constant array, one row per true entry of the label, does. *)
Theorem domain_scalar_write fuel w element prop domain m tr old value :
  In element kinds ->
  Str.contains at_sign prop = false ->
  Str.contains at_sign domain = false ->
  Str.contains dot domain = false ->
  Base2._count element w = Ok (Some (length m)) w ->
  Dict.lookup (element ++ "." ++ domain) (items w)
    = Some (np.ABool (np.mk_arr [length m] m)) ->
  Dict.lookup (element ++ "." ++ prop) (items w) = Some old ->
  np.shape_of old = length m :: tr -> np.wf old ->
  match value with PyFloat _ | PyBool _ => True | _ => False end ->
  raised (setitem CDomain (S (S fuel)) (element ++ "." ++ prop ++ "@" ++ domain) value w)
    = None
  /\ setitem CDomain (S (S fuel)) (element ++ "." ++ prop ++ "@" ++ domain) value w
     = setitem CDomain (S (S fuel)) (element ++ "." ++ prop ++ "@" ++ domain)
         (constant (np.count_true m :: tr) value) w.
Proof.
  intros Hk Hp Hd Hdd HN Hlab Hold Hso Hwo Hv.
  assert (Hc : exists v, constant (np.count_true m :: tr) value = PyArr v
                         /\ np.shape_of v = np.count_true m :: tr /\ np.wf v).
  { destruct value as [|b|x| |]; try contradiction; eexists; (split; [reflexivity|]);
      (split; [reflexivity|]); [apply wf_constant_bool | apply wf_constant]. }
  destruct Hc as (v & Hcv & Hsv & Hwv).
  destruct (setmask_rows old v m tr Hso Hwo Hsv Hwv)
    as (full & Hsm & Hfs & _).
  assert (Hf0 : np.shape0 full = Val (length m))
    by (apply (shape0_of _ _ tr); rewrite Hfs; exact Hso).
  assert (Hsm' : np.setmask old (np.ABool (np.mk_arr [length m] m)) (np_array value)
                 = Val full).
  { rewrite (setmask_scalar old m tr value Hso Hv), Hcv. exact Hsm. }
  rewrite (domain_write_core fuel w element prop domain m old value full); try assumption.
  rewrite Hcv.
  rewrite (domain_write_core fuel w element prop domain m old (PyArr v) full);
    try assumption.
  split; reflexivity.
Qed.

Lemma domain_scalar_write_witness :
  raised (setitem CDomain 2 "pore.seed@left" (PyFloat np.NaN) Examples.g3_seeded) = None
  /\ setitem CDomain 2 "pore.seed@left" (PyFloat np.NaN) Examples.g3_seeded
     = setitem CDomain 2 "pore.seed@left" (constant [1] (PyFloat np.NaN)) Examples.g3_seeded.
Proof.
  apply (domain_scalar_write 0 Examples.g3_seeded "pore" "seed" "left"
           [true; false; false] [] (Examples.floats [0%Q; 0%Q; 0%Q]) (PyFloat np.NaN));
    first [reflexivity | left; reflexivity | exact I].
Defined.

(** ** The first array of a kind *)

(** On an object that holds no array of a kind yet, the first array written
    under a key of that kind is stored whatever its length, at the end of
    the store, and its leading length becomes the count of the kind; what
    is first for the other kind is unchanged. *)
Theorem first_write_sets_count c fuel w key element prop a n :
  c = CBase2 \/ Str.contains at_sign key = false ->
  Str.split1 dot key = [element; prop] -> In element kinds ->
  Base2._count element w = Ok None w ->
  np.shape0 a = Val n ->
  let w' := set_items (items w ++ [(key, a)])%list w in
  setitem c (S fuel) key (PyArr a) w = Ok tt w'
  /\ Base2._count element w' = Ok (Some n) w'
  /\ forall other, In other kinds -> other <> element ->
       first_of other (items w') = first_of other (items w).
Proof.
  intros Hc Hs Hk HN Ha. cbv zeta.
  assert (Hf : first_of element (items w) = None) by (apply count_None, HN).
  assert (Hl : Dict.lookup key (items w) = None).
  { destruct (Dict.lookup key (items w)) as [v|] eqn:E; [|reflexivity].
    apply lookup_In in E. unfold first_of in Hf.
    pose proof (find_none _ _ Hf (key, v) E) as H. simpl in H.
    rewrite (proj2 (startswith_kind key element prop Hs Hk element Hk) eq_refl) in H.
    discriminate. }
  rewrite <- (update_fresh _ key a (items w) Hl).
  split; [|split].
  - rewrite (setitem_plain c fuel key _ Hc). unfold Base2.__setitem__.
    unfold Base2.write_array. rewrite Hs. mstep.
    rewrite (mem_kinds _ Hk). mred.
    destruct (Str.mem key ["pore.coords"; "throat.conns"]); [reflexivity|].
    erewrite bind_Ok by exact HN. reflexivity.
  - apply (proj2 (count_Some _ _ _)). exists key, a. split; [|exact Ha].
    cbn [items set_items]. apply first_of_update_new; [exact Hf|].
    apply (proj2 (startswith_kind key element prop Hs Hk element Hk) eq_refl).
  - intros other Ho Hne. cbn [items set_items]. apply first_of_update_other.
    destruct (Str.startswith key other) eqn:E; [|reflexivity].
    apply (proj1 (startswith_kind key element prop Hs Hk other Ho)) in E. contradiction.
Qed.

Lemma first_write_sets_count_witness :
  setitem CDomain 1 "throat.conns" (PyArr Examples.coords2) Examples.pores_only
  = Ok tt (set_items (items Examples.pores_only ++ [("throat.conns", Examples.coords2)])%list
             Examples.pores_only)
  /\ Base2._count "throat"
       (set_items (items Examples.pores_only ++ [("throat.conns", Examples.coords2)])%list
          Examples.pores_only)
     = Ok (Some 2)
          (set_items (items Examples.pores_only ++ [("throat.conns", Examples.coords2)])%list
             Examples.pores_only)
  /\ forall other, In other kinds -> other <> "throat" ->
       first_of other
         (items (set_items (items Examples.pores_only ++ [("throat.conns", Examples.coords2)])%list
                   Examples.pores_only))
       = first_of other (items Examples.pores_only).
Proof.
  apply (first_write_sets_count CDomain 0 Examples.pores_only "throat.conns" "throat" "conns"
           Examples.coords2 2);
    try reflexivity.
  - right; reflexivity.
  - right; left; reflexivity.
Defined.
